(** * predict_cond.py: the Predict Conductivity tool

    A shallow embedding of [src/predict_cond.py].  The script is glue code
    around the arcpy geoprocessing toolkit: it checks a join key, shells out
    to an R script, joins the predicted values back onto a scratch copy of the
    stream network and writes metadata.  The embedding threads an explicit
    [World] (catalog of datasets on disk and in the in_memory workspace,
    layers, geoprocessing environment, effect trace) through a small
    state-and-exception monad; Python exceptions are the [Raise] results. *)

From Stdlib Require Import ZArith Ascii String List Bool Lia.
From Stdlib Require Import DecimalString DecimalNat.
From stdpp Require Import base option list strings gmap fin_maps.
Import ListNotations.

Local Open Scope string_scope.
Local Open Scope Z_scope.

(** ** Strings and Windows paths (Python's [ntpath]) *)

Module Path.

Definition is_upper (c : ascii) : bool :=
  let n := N_of_ascii c in (N.leb 65 n && N.leb n 90)%bool.

Definition lower_ascii (c : ascii) : ascii :=
  if is_upper c then ascii_of_N (N_of_ascii c + 32) else c.

(** [str.lower()] *)
Fixpoint lower (s : string) : string :=
  match s with
  | EmptyString => EmptyString
  | String c s' => String (lower_ascii c) (lower s')
  end.

(** [c in '/\\'] *)
Definition is_sep (c : ascii) : bool :=
  (Ascii.eqb c "/" || Ascii.eqb c "\")%bool.

Definition first_char (s : string) : option ascii :=
  match s with
  | EmptyString => None
  | String c _ => Some c
  end.

Definition starts_with_sep (s : string) : bool :=
  match first_char s with Some c => is_sep c | None => false end.

(** [normp.find(sep)], [normp] being [s] with every ["/"] turned into a
    backslash: the part of [s] before its first separator and, when there
    is one, the rest from that separator on. *)
Fixpoint break_at_sep (s : string) : string * option string :=
  match s with
  | EmptyString => (EmptyString, None)
  | String c rest =>
      if is_sep c then (EmptyString, Some s)
      else let '(before, from) := break_at_sep rest in (String c before, from)
  end.

(** The device prefix [\\?\UNC\] of a UNC path, separators and letter
    case aside: [rest] is what follows the two leading separators;
    returns the prefix found in it and what comes after. *)
Definition after_unc_prefix (rest : string) : option (string * string) :=
  match rest with
  | String q (String s (String u (String n (String c (String s' body))))) =>
      if (Ascii.eqb q "?" && is_sep s
          && Ascii.eqb (lower_ascii u) "u" && Ascii.eqb (lower_ascii n) "n"
          && Ascii.eqb (lower_ascii c) "c" && is_sep s')%bool
      then Some (String q (String s (String u (String n (String c
                   (String s' EmptyString))))), body)
      else None
  | _ => None
  end.

(** [ntpath.splitdrive]: the drive is a drive letter with its colon
    ([p[1] == ':']) or, for a path that starts with two separators, the
    [\\host\share] prefix of a UNC path (the whole path when there is no
    separator after the share). *)
Definition splitdrive (p : string) : string * string :=
  match p with
  | String c1 (String c2 rest) =>
      if (is_sep c1 && is_sep c2)%bool then
        let '(pre, body) :=
          match after_unc_prefix rest with
          | Some found => found
          | None => (EmptyString, rest)
          end in
        match break_at_sep body with
        | (host, Some (String s1 after)) =>
            match break_at_sep after with
            | (share, Some tail) =>
                (String c1 (String c2 (pre ++ host ++ String s1 share)), tail)
            | (_, None) => (p, EmptyString)
            end
        | _ => (p, EmptyString)
        end
      else if Ascii.eqb c2 ":" then (String c1 (String c2 EmptyString), rest)
      else (EmptyString, p)
  | _ => (EmptyString, p)
  end.

(** The scan [while i and p[i-1] not in '/\\': i = i - 1] of
    [ntpath.split]: returns [(p[:i], p[i:])]. *)
Fixpoint split_last_sep (p : string) : string * string :=
  match p with
  | EmptyString => (EmptyString, EmptyString)
  | String c rest =>
      let '(h, t) := split_last_sep rest in
      match h with
      | EmptyString =>
          if is_sep c then (String c EmptyString, t)
          else (EmptyString, String c t)
      | _ => (String c h, t)
      end
  end.

(** [while head2 and head2[-1] in '/\\': head2 = head2[:-1]] *)
Fixpoint rstrip_seps (h : string) : string :=
  match h with
  | EmptyString => EmptyString
  | String c rest =>
      match rstrip_seps rest with
      | EmptyString => if is_sep c then EmptyString else String c EmptyString
      | r => String c r
      end
  end.

(** [ntpath.split] *)
Definition split (p : string) : string * string :=
  let '(d, q) := splitdrive p in
  let '(head, tail) := split_last_sep q in
  let head2 := rstrip_seps head in
  let head' := match head2 with EmptyString => head | _ => head2 end in
  (d ++ head', tail).

(** [os.path.dirname], [os.path.basename] *)
Definition dirname (p : string) : string := fst (split p).
Definition basename (p : string) : string := snd (split p).

Fixpoint last_char (s : string) : option ascii :=
  match s with
  | EmptyString => None
  | String c EmptyString => Some c
  | String _ rest => last_char rest
  end.

Definition ends_with_sep (s : string) : bool :=
  match last_char s with Some c => is_sep c | None => false end.

Definition is_empty (s : string) : bool :=
  match s with EmptyString => true | _ => false end.

Definition ends_with_colon (s : string) : bool :=
  match last_char s with Some c => Ascii.eqb c ":" | None => false end.

(** [ntpath.join] of two components. *)
Definition join (path p : string) : string :=
  let '(result_drive, result_path) := splitdrive path in
  let '(p_drive, p_path) := splitdrive p in
  let '(result_drive, result_path) :=
    if starts_with_sep p_path then
      (* second path is absolute *)
      (if (negb (is_empty p_drive) || is_empty result_drive)%bool
       then p_drive else result_drive,
       p_path)
    else if (negb (is_empty p_drive)
             && negb (String.eqb p_drive result_drive)
             && negb (String.eqb (lower p_drive) (lower result_drive)))%bool
    then
      (* different drives: the first path is ignored *)
      (p_drive, p_path)
    else
      (* second path is relative to the first *)
      (if (negb (is_empty p_drive)
           && negb (String.eqb p_drive result_drive))%bool
       then p_drive else result_drive,
       (if (negb (is_empty result_path)
            && negb (ends_with_sep result_path))%bool
        then result_path ++ "\" else result_path) ++ p_path) in
  (* add separator between UNC and non-absolute path *)
  if (negb (is_empty result_path) && negb (starts_with_sep result_path)
      && negb (is_empty result_drive)
      && negb (ends_with_colon result_drive))%bool
  then result_drive ++ "\" ++ result_path
  else result_drive ++ result_path.

(** Decimal rendering of a natural number, and [%02d] / [%04d]. *)
Definition dec (n : nat) : string := NilZero.string_of_uint (Nat.to_uint n).

Fixpoint zeros (n : nat) : string :=
  match n with
  | O => EmptyString
  | S n' => String "0" (zeros n')
  end.

Definition zfill (width : nat) (s : string) : string :=
  zeros (width - String.length s) ++ s.

(** [any(c in '/\\' for c in s)] *)
Fixpoint has_sep (s : string) : bool :=
  match s with
  | EmptyString => false
  | String c rest => (is_sep c || has_sep rest)%bool
  end.

End Path.


(** ** Data model *)

(** Attribute values.  Doubles are only moved around by this tool, never
    computed on, so a double is carried as its IEEE-754 bit pattern. *)
Inductive Value :=
| VNull
| VInt (z : Z)
| VDouble (bits : Z)
| VText (s : string).

#[global] Instance Value_eq_dec : EqDecision Value.
Proof. solve_decision. Defined.

(** An arcpy [Field] object: the two attributes the script reads. *)
Record Field := mkField { f_name : string; f_type : string }.

#[global] Instance Field_eq_dec : EqDecision Field.
Proof. solve_decision. Defined.

(** A row maps field names to values; a field with no entry reads as null. *)
Record Table := mkTable {
  t_fields : list Field;
  t_rows : list (gmap string Value)
}.

Definition row_get (r : gmap string Value) (name : string) : Value :=
  default VNull (r !! name).

Definition field_names (t : Table) : list string := map f_name (t_fields t).

(** A clock reading, and [time.strftime("%Y%m%d%H%M")]. *)
Record Time := mkTime {
  year : nat; month : nat; day : nat; hour : nat; minute : nat; second : nat
}.

Definition strftime_YmdHM (t : Time) : string :=
  Path.zfill 4 (Path.dec (year t)) ++ Path.zfill 2 (Path.dec (month t))
  ++ Path.zfill 2 (Path.dec (day t)) ++ Path.zfill 2 (Path.dec (hour t))
  ++ Path.zfill 2 (Path.dec (minute t)).

(** Modelled from the spec: [metadata/meta_sfr.py] and [metadata/meta_rs.py]
    are not among the sources; these are the two documents they build.
    Section 4.4: the writer "records tool name/version, declared run
    parameters, a start/stop timestamp pair, and a final status string";
    section 3: "a named run with a list of key/value parameters and a
    success/failure status; created at start, finalized at end, serialized
    once".  The lineage document is "a second lineage document recording
    input/output dataset references, generated unique identifiers, and the
    same timestamp pair, associated with a caller-supplied realization name
    resolved to an internal realization identifier"; it is kept as the list
    of tags added to it, each a tag kind with its arguments. *)
Module Doc.

Record Run := mkRun {
  run_params : list (string * string);
  run_start : Time;
  run_stop : option Time;
  run_status : option string
}.

Record Writer := mkWriter {
  tool_name : string;
  tool_version : string;
  currentRun : option Run
}.

Record Lineage := mkLineage {
  px_tool : string;
  px_path : string;
  realIDdict : gmap string string;
  px_start : Time;
  px_tags : list (string * list string)
}.

End Doc.

(** What a catalog path can hold. *)
Inductive Dataset :=
| FeatureClass (t : Table)
| DbfTable (t : Table)
| CsvFile (t : Table)
| MetaXML (m : Doc.Writer)
| LineageXML (x : Doc.Lineage)
| OtherFile (content : string).

Definition as_table (d : Dataset) : option Table :=
  match d with
  | FeatureClass t | DbfTable t | CsvFile t => Some t
  | _ => None
  end.

Definition is_feature_class (d : Dataset) : bool :=
  match d with FeatureClass _ => true | _ => false end.

Definition is_table (d : Dataset) : bool :=
  match d with DbfTable _ | CsvFile _ => true | _ => false end.


(** Where a catalog path points: the in_memory workspace of the process
    (addressed case-insensitively, the script itself writes both
    [in_memory] and [IN_MEMORY]) or the disk.  The disk catalog is keyed
    by the path as written; where a statement needs two paths to be
    different files it asks for them to differ whatever their spelling
    ([apart], [distinct] below). *)
Inductive Loc :=
| InMemory (name : string)
| OnDisk (path : string).

#[global] Instance Loc_eq_dec : EqDecision Loc.
Proof. solve_decision. Defined.

Definition is_in_memory_ws (ws : string) : bool :=
  String.eqb (Path.lower ws) "in_memory".

Definition locate (p : string) : Loc :=
  if is_in_memory_ws (Path.dirname p) then InMemory (Path.basename p)
  else OnDisk p.

(** Observable effects, in program order. *)
Inductive Event :=
| Message (s : string)                 (* arcpy.AddMessage *)
| ErrorMessage (s : string)            (* arcpy.AddError *)
| GcEnable
| Spawn (cmd : list string)            (* subprocess.Popen *)
| Waited                               (* Popen.wait returned *)
| Tool (name : string) (args : list string)   (* a geoprocessing tool ran *)
| WroteMetadata (path : string) (doc : Doc.Writer)
| WroteLineage (path : string) (doc : Doc.Lineage)
| CopiedFile (src dst : string).

Record World := mkWorld {
  disk : gmap string Dataset;
  inmem : gmap string Dataset;
  layers : gmap string string;     (* layer or table view |-> its source *)
  workspace : string;              (* arcpy.env.workspace, "" when unset *)
  ticks : nat;                     (* clock readings taken so far *)
  uuids : nat;                     (* identifiers generated so far *)
  trace : list Event
}.

(** Everything the run reads from outside the catalog. *)
Record Env := mkEnv {
  script_file : string;                    (* os.path.realpath(__file__) *)
  clock : nat -> Time;                     (* the n-th clock reading *)
  uuid : nat -> string;                    (* the n-th generated identifier *)
  workspaceType : string -> option string; (* Describe(path).workspaceType *)
  (* the external process: command line and disk before, disk and return
     code after *)
  run_process : list string -> gmap string Dataset -> gmap string Dataset * Z;
  rs_real_name : string;                   (* GetParameterAsText(5) *)
  project_realizations : gmap string string;
  getRSDirAbs : string -> Z -> Z -> string -> string;
  getRSDirRel : Z -> Z -> string -> string
}.

(** ** Python control flow: a state-and-exception monad *)

Inductive Exn :=
| SystemExit (code : Z)
| UnboundLocalError (name : string)
| KeyError (key : string)
| IOError (what : string)
| ExecuteError (tool what : string).

(** [UnboundLocalError] is a subclass of [NameError]. *)
Definition isinstance_NameError (e : Exn) : bool :=
  match e with UnboundLocalError _ => true | _ => false end.

Inductive Result (A : Type) :=
| Ok (a : A)
| Raise (e : Exn).
Arguments Ok {A} a.
Arguments Raise {A} e.

Definition M (A : Type) : Type := World -> Result A * World.

Definition ret {A} (a : A) : M A := fun w => (Ok a, w).

Definition raise {A} (e : Exn) : M A := fun w => (Raise e, w).

Definition bind {A B} (m : M A) (f : A -> M B) : M B :=
  fun w => match m w with
           | (Ok a, w') => f a w'
           | (Raise e, w') => (Raise e, w')
           end.

Notation "x <- m ;; k" := (bind m (fun x => k))
  (at level 100, m at next level, right associativity).
Notation "m ;;; k" := (bind m (fun _ => k))
  (at level 100, right associativity).

(** [for x in l: body(x)] *)
Fixpoint for_each {A} (l : list A) (body : A -> M unit) : M unit :=
  match l with
  | [] => ret tt
  | x :: rest => body x ;;; for_each rest body
  end.

(** The process exit status the interpreter reports for a finished script. *)
Definition exit_status {A} (r : Result A) : Z :=
  match r with
  | Ok _ => 0
  | Raise (SystemExit code) => code
  | Raise _ => 1
  end.

(** ** World access *)

Definition get (l : Loc) (w : World) : option Dataset :=
  match l with
  | InMemory n => inmem w !! n
  | OnDisk p => disk w !! p
  end.

Definition with_disk (d : gmap string Dataset) (w : World) : World :=
  mkWorld d (inmem w) (layers w) (workspace w) (ticks w) (uuids w) (trace w).

Definition with_inmem (m : gmap string Dataset) (w : World) : World :=
  mkWorld (disk w) m (layers w) (workspace w) (ticks w) (uuids w) (trace w).

Definition put (l : Loc) (d : Dataset) (w : World) : World :=
  match l with
  | InMemory n => with_inmem (<[n := d]> (inmem w)) w
  | OnDisk p => with_disk (<[p := d]> (disk w)) w
  end.

Definition del (l : Loc) (w : World) : World :=
  match l with
  | InMemory n => with_inmem (delete n (inmem w)) w
  | OnDisk p => with_disk (delete p (disk w)) w
  end.

Definition emit (e : Event) (w : World) : World :=
  mkWorld (disk w) (inmem w) (layers w) (workspace w) (ticks w) (uuids w)
          (trace w ++ [e]).

Definition log (e : Event) : M unit := fun w => (Ok tt, emit e w).

(** A dataset argument of a geoprocessing call: a layer or view name, a
    bare name inside [arcpy.env.workspace], or a catalog path. *)
Definition locate_in (ws s : string) : Loc :=
  if (Path.has_sep s || Path.is_empty ws)%bool then locate s
  else locate (ws ++ "\" ++ s).

Definition resolve (w : World) (s : string) : Loc :=
  match layers w !! s with
  | Some src => locate_in (workspace w) src
  | None => locate_in (workspace w) s
  end.

(** ** The toolkit: arcpy, as far as the script calls it

    arcpy is an external library; each call is given by its documented
    contract.  [arcpy.env.overwriteOutput = True] (line 20) is in force
    throughout: a tool that writes a dataset replaces whatever is there. *)
Module arcpy.

Definition AddMessage (s : string) : M unit := log (Message s).
Definition AddError (s : string) : M unit := log (ErrorMessage s).

(** [arcpy.Describe(path).workspaceType]; [Describe] raises on a path
    that is no workspace. *)
Definition Describe_workspaceType (E : Env) (path : string) : M string :=
  match workspaceType E path with
  | Some t => ret t
  | None => raise (IOError path)
  end.

(** Wild cards: [*] stands for any run of characters and letter case is
    ignored. *)
Fixpoint wild_match (pat s : string) : bool :=
  match pat with
  | EmptyString => Path.is_empty s
  | String c pat' =>
      if Ascii.eqb c "*" then
        (fix star (s : string) : bool :=
           (wild_match pat' s
            || match s with
               | EmptyString => false
               | String _ s' => star s'
               end)%bool) s
      else
        match s with
        | EmptyString => false
        | String d s' =>
            (Ascii.eqb (Path.lower_ascii c) (Path.lower_ascii d)
             && wild_match pat' s')%bool
        end
  end.

Definition table_at (w : World) (s : string) : option Table :=
  d ← get (resolve w s) w; as_table d.

(** [arcpy.ListFields(dataset, wild_card=None)] *)
Definition ListFields (dataset : string) (wild_card : option string)
  : M (list Field) :=
  fun w =>
    match table_at w dataset with
    | Some t =>
        (Ok (match wild_card with
             | None => t_fields t
             | Some pat =>
                 List.filter (fun f => wild_match pat (f_name f)) (t_fields t)
             end), w)
    | None => (Raise (IOError dataset), w)
    end.

(** [MakeFeatureLayer_management] and [MakeTableView_management]: a named
    in-session reference to an existing dataset. *)
Definition MakeFeatureLayer_management (in_features out_layer : string)
  : M unit :=
  fun w =>
    match get (resolve w in_features) w with
    | Some (FeatureClass _) =>
        (Ok tt,
         emit (Tool "MakeFeatureLayer" [in_features; out_layer])
           (mkWorld (disk w) (inmem w)
              (<[out_layer := match layers w !! in_features with
                              | Some src => src
                              | None => in_features
                              end]> (layers w))
              (workspace w) (ticks w) (uuids w) (trace w)))
    | _ => (Raise (ExecuteError "MakeFeatureLayer" in_features), w)
    end.

Definition MakeTableView_management (in_table out_view : string) : M unit :=
  fun w =>
    match table_at w in_table with
    | Some _ =>
        (Ok tt,
         emit (Tool "MakeTableView" [in_table; out_view])
           (mkWorld (disk w) (inmem w)
              (<[out_view := match layers w !! in_table with
                             | Some src => src
                             | None => in_table
                             end]> (layers w))
              (workspace w) (ticks w) (uuids w) (trace w)))
    | None => (Raise (ExecuteError "MakeTableView" in_table), w)
    end.

(** [FeatureClassToFeatureClass_conversion(in_features, out_path, out_name)] *)
Definition FeatureClassToFeatureClass_conversion
    (in_features out_path out_name : string) : M unit :=
  fun w =>
    match get (resolve w in_features) w with
    | Some (FeatureClass t) =>
        (Ok tt,
         emit (Tool "FeatureClassToFeatureClass"
                 [in_features; out_path; out_name])
           (put (locate (out_path ++ "\" ++ out_name)) (FeatureClass t) w))
    | _ => (Raise (ExecuteError "FeatureClassToFeatureClass" in_features), w)
    end.

(** [CopyFeatures_management(in_features, out_feature_class)] *)
Definition CopyFeatures_management (in_features out_feature_class : string)
  : M unit :=
  fun w =>
    match get (resolve w in_features) w with
    | Some (FeatureClass t) =>
        (Ok tt,
         emit (Tool "CopyFeatures" [in_features; out_feature_class])
           (put (locate_in (workspace w) out_feature_class)
                (FeatureClass t) w))
    | _ => (Raise (ExecuteError "CopyFeatures" in_features), w)
    end.

(** [TableToTable_conversion(in_rows, out_path, out_name)]: fails when the
    input table does not exist. *)
Definition TableToTable_conversion (in_rows out_path out_name : string)
  : M unit :=
  fun w =>
    match table_at w in_rows with
    | Some t =>
        (Ok tt,
         emit (Tool "TableToTable" [in_rows; out_path; out_name])
           (put (locate (out_path ++ "\" ++ out_name)) (DbfTable t) w))
    | None => (Raise (ExecuteError "TableToTable" in_rows), w)
    end.

(** [Delete_management(in_data)]: a layer or view name removes that layer
    and leaves its source alone; otherwise the dataset is deleted.  Fails
    when there is nothing to delete. *)
Definition Delete_management (in_data : string) : M unit :=
  fun w =>
    match layers w !! in_data with
    | Some _ =>
        (Ok tt,
         emit (Tool "Delete" [in_data])
           (mkWorld (disk w) (inmem w) (delete in_data (layers w))
              (workspace w) (ticks w) (uuids w) (trace w)))
    | None =>
        match get (locate_in (workspace w) in_data) w with
        | Some _ =>
            (Ok tt,
             emit (Tool "Delete" [in_data])
               (del (locate_in (workspace w) in_data) w))
        | None => (Raise (ExecuteError "Delete" in_data), w)
        end
    end.

(** [JoinField_management(in_data, in_field, join_table, join_field)] with
    no field list: a permanent join.  Every field of the join table except
    its object-ID and geometry fields is appended to the input table; a
    joined field whose name is taken gets the suffix [_1], [_2], ...;
    each input record takes the values of the first join record with an
    equal, non-null key, and nulls when there is none. *)
Definition transferable (f : Field) : bool :=
  (negb (String.eqb (f_type f) "OID")
   && negb (String.eqb (f_type f) "Geometry"))%bool.

Definition suffixed (name : string) (k : nat) : string :=
  name ++ "_" ++ Path.dec k.

Definition taken (used : list string) (name : string) : bool :=
  existsb (String.eqb name) used.

Definition unique_name (used : list string) (name : string) : string :=
  if taken used name then
    match List.find (fun k => negb (taken used (suffixed name k)))
                    (seq 1 (S (length used))) with
    | Some k => suffixed name k
    | None => name
    end
  else name.

Fixpoint join_names (used : list string) (fs : list Field)
  : list (Field * string) :=
  match fs with
  | [] => []
  | f :: rest =>
      let n := unique_name used (f_name f) in
      (f, n) :: join_names (n :: used) rest
  end.

Definition key_match (a b : Value) : bool :=
  (negb (bool_decide (a = VNull)) && bool_decide (a = b))%bool.

Definition first_match (jt : Table) (join_field : string) (key : Value)
  : option (gmap string Value) :=
  List.find (fun jr => key_match key (row_get jr join_field)) (t_rows jt).

Definition join_row (names : list (Field * string)) (jt : Table)
    (in_field join_field : string) (r : gmap string Value)
  : gmap string Value :=
  match first_match jt join_field (row_get r in_field) with
  | Some jr =>
      foldr (fun fn acc => <[snd fn := row_get jr (f_name (fst fn))]> acc)
            r names
  | None => foldr (fun fn acc => <[snd fn := VNull]> acc) r names
  end.

Definition join_table (t : Table) (in_field : string) (jt : Table)
    (join_field : string) : Table :=
  let names := join_names (field_names t)
                          (List.filter transferable (t_fields jt)) in
  {| t_fields :=
       t_fields t
       ++ map (fun fn => mkField (snd fn) (f_type (fst fn))) names;
     t_rows := map (join_row names jt in_field join_field) (t_rows t) |}.

Definition has_field (t : Table) (name : string) : bool :=
  existsb (String.eqb name) (field_names t).

Definition retable (d : Dataset) (t : Table) : Dataset :=
  match d with
  | FeatureClass _ => FeatureClass t
  | DbfTable _ => DbfTable t
  | CsvFile _ => CsvFile t
  | other => other
  end.

Definition JoinField_management
    (in_data in_field join_tbl join_field : string) : M unit :=
  fun w =>
    match get (resolve w in_data) w, table_at w join_tbl with
    | Some d, Some jt =>
        match as_table d with
        | Some t =>
            if (has_field t in_field && has_field jt join_field)%bool then
              (Ok tt,
               emit (Tool "JoinField"
                       [in_data; in_field; join_tbl; join_field])
                 (put (resolve w in_data)
                      (retable d (join_table t in_field jt join_field)) w))
            else (Raise (ExecuteError "JoinField" in_field), w)
        | None => (Raise (ExecuteError "JoinField" in_data), w)
        end
    | _, _ => (Raise (ExecuteError "JoinField" in_data), w)
    end.

(** [DeleteField_management(in_table, drop_field)] *)
Definition drop_fields (names : list string) (t : Table) : Table :=
  {| t_fields :=
       List.filter (fun f => negb (taken names (f_name f))) (t_fields t);
     t_rows :=
       map (fun r : gmap string Value =>
              filter (fun kv => taken names (fst kv) = false) r)
           (t_rows t) |}.

Definition DeleteField_management (in_table : string)
    (drop_field : list string) : M unit :=
  fun w =>
    match get (resolve w in_table) w with
    | Some d =>
        match as_table d with
        | Some t =>
            if forallb (has_field t) drop_field then
              (Ok tt,
               emit (Tool "DeleteField" (in_table :: drop_field))
                 (put (resolve w in_table)
                      (retable d (drop_fields drop_field t)) w))
            else (Raise (ExecuteError "DeleteField" in_table), w)
        | None => (Raise (ExecuteError "DeleteField" in_table), w)
        end
    | None => (Raise (ExecuteError "DeleteField" in_table), w)
    end.

(** [arcpy.env.workspace = ws] *)
Definition set_workspace (ws : string) : M unit :=
  fun w =>
    (Ok tt,
     mkWorld (disk w) (inmem w) (layers w) ws (ticks w) (uuids w) (trace w)).

(** [ListFeatureClasses()] and [ListTables()]: the names of the feature
    classes, respectively tables, of the current workspace. *)
Definition list_workspace (kind : Dataset -> bool) (w : World)
  : list string :=
  if is_in_memory_ws (workspace w) then
    map fst (List.filter (fun kd => kind (snd kd)) (map_to_list (inmem w)))
  else
    map (fun kd => Path.basename (fst kd))
        (List.filter
           (fun kd => (kind (snd kd)
                       && String.eqb (Path.dirname (fst kd)) (workspace w))%bool)
           (map_to_list (disk w))).

Definition ListFeatureClasses : M (list string) :=
  fun w => (Ok (list_workspace is_feature_class w), w).

Definition ListTables : M (list string) :=
  fun w => (Ok (list_workspace is_table w), w).

End arcpy.

(** ** The other modules the script imports *)

Module time.

(** One reading of the clock. *)
Definition now (E : Env) : M Time :=
  fun w =>
    (Ok (clock E (ticks w)),
     mkWorld (disk w) (inmem w) (layers w) (workspace w) (S (ticks w))
             (uuids w) (trace w)).

(** [time.strftime("%Y%m%d%H%M")] *)
Definition strftime (E : Env) : M string :=
  t <- now E ;; ret (strftime_YmdHM t).

End time.

Module subprocess.

(** [Popen(cmd, universal_newlines=True, shell=True)]: the child starts;
    on Windows the list is passed on as one command line.  [wait()]
    returns once the child has terminated, so every effect of the child
    on the disk is in place when the next statement runs. *)
Record Popen_obj := { args : list string }.

Definition Popen (cmd : list string) : M Popen_obj :=
  fun w => (Ok {| args := cmd |}, emit (Spawn cmd) w).

Definition wait (E : Env) (process : Popen_obj) : M Z :=
  fun w =>
    let out := run_process E (args process) (disk w) in
    (Ok (snd out), emit Waited (with_disk (fst out) w)).

End subprocess.

Module sys.
(** [sys.exit(code)] raises [SystemExit]. *)
Definition exit {A} (code : Z) : M A := raise (SystemExit code).
End sys.

Module gc.
Definition enable : M unit := log GcEnable.
End gc.

(** Modelled from the spec: the operations of [metadata/meta_sfr.py], which
    is not among the sources (section 4.4 and the run-metadata record of
    section 3). *)
Module meta_sfr.
Import Doc.

(** [MetadataWriter(name, version)] *)
Definition MetadataWriter (name version : string) : Writer :=
  mkWriter name version None.

(** [createRun()]: "created at start" *)
Definition createRun (E : Env) (m : Writer) : M Writer :=
  t <- time.now E ;;
  ret (mkWriter (tool_name m) (tool_version m) (Some (mkRun [] t None None))).

(** [currentRun.addParameter(name, value)] *)
Definition currentRun_addParameter (name value : string) (m : Writer)
  : Writer :=
  mkWriter (tool_name m) (tool_version m)
    ((fun r => mkRun (run_params r ++ [(name, value)]) (run_start r)
                     (run_stop r) (run_status r)) <$> currentRun m).

(** [finalizeRun(status)]: "finalized at end" *)
Definition finalizeRun (E : Env) (status : string) (m : Writer) : M Writer :=
  t <- time.now E ;;
  ret (mkWriter (tool_name m) (tool_version m)
         ((fun r => mkRun (run_params r) (run_start r) (Some t) (Some status))
            <$> currentRun m)).

(** [writeMetadataFile(path)]: "serialized once" *)
Definition writeMetadataFile (path : string) (m : Writer) : M unit :=
  fun w =>
    (Ok tt,
     emit (WroteMetadata path m)
          (put (locate_in (workspace w) path) (MetaXML m) w)).

End meta_sfr.

(** Modelled from the spec: the operations of [metadata/meta_rs.py], which
    is not among the sources (section 4.4, the lineage record of section 3
    and the "project.rs.xml" interface of section 6). *)
Module meta_rs.
Import Doc.

Definition show_time (t : Time) : string :=
  strftime_YmdHM t ++ Path.zfill 2 (Path.dec (second t)).

Definition add_tag (kind : string) (args : list string) (x : Lineage)
  : Lineage :=
  mkLineage (px_tool x) (px_path x) (realIDdict x) (px_start x)
            (px_tags x ++ [(kind, args)]).

(** [ProjectXML(tool, path)] *)
Definition ProjectXML (E : Env) (tool path : string) : M Lineage :=
  t <- time.now E ;;
  ret (mkLineage tool path (project_realizations E) t []).

(** [ecXML.project], the root node of the document *)
Definition project (x : Lineage) : string := "Project".

(** [finalize()] returns the start/stop timestamp pair. *)
Definition finalize (E : Env) (x : Lineage) : M (string * string) :=
  t <- time.now E ;; ret (show_time (px_start x), show_time t).

Definition getOperator (x : Lineage) : Lineage := add_tag "Operator" [] x.

Definition getUUID (E : Env) : M string :=
  fun w =>
    (Ok (uuid E (uuids w)),
     mkWorld (disk w) (inmem w) (layers w) (workspace w) (ticks w)
             (S (uuids w)) (trace w)).

Definition addMeta (name value parent : string) (scope : list string)
    (x : Lineage) : Lineage :=
  add_tag "Meta" (name :: value :: parent :: scope) x.

Definition addRealizationInputData
    (parent kind realization real_id name path guid : string) (x : Lineage)
  : Lineage :=
  add_tag "RealizationInputData"
          [parent; kind; realization; real_id; name; path; guid] x.

Definition addRealizationInputRef
    (parent kind realization real_id ref : string) (x : Lineage) : Lineage :=
  add_tag "RealizationInputRef" [parent; kind; realization; real_id; ref] x.

Definition addOutput
    (kind name path parent realization real_id ref guid : string)
    (x : Lineage) : Lineage :=
  add_tag "Output"
          [kind; name; path; parent; realization; real_id; ref; guid] x.

(** [write()]: "written once if project-mode is enabled" *)
Definition write (x : Lineage) : M unit :=
  fun w =>
    (Ok tt,
     emit (WroteLineage (px_path x) x)
          (put (locate_in (workspace w) (px_path x)) (LineageXML x) w)).

End meta_rs.

(** Modelled from the spec: [riverscapes.py] is not among the sources.
    Section 4.5: "copies the input and output feature files into fixed
    subdirectories of a project directory tree (determined by
    directory-category and realization-index conventions)".  The two
    directory functions are the [getRSDirAbs] and [getRSDirRel] of the
    environment. *)
Module rs.

Definition copyRSFiles (src dst : string) : M unit :=
  fun w =>
    match get (locate_in (workspace w) src) w with
    | Some d =>
        (Ok tt,
         emit (CopiedFile src dst) (put (locate_in (workspace w) dst) d w))
    | None => (Raise (IOError src), w)
    end.

End rs.

(** ** The script: [predict_cond.py] *)

(** What a Python function hands back where the script tests it. *)
Inductive PyVal :=
| PyNone
| PyBool (b : bool).

(** [v == True] *)
Definition py_eq_True (v : PyVal) : bool :=
  match v with PyBool true => true | _ => false end.

(** Reading a local that is bound on some paths only. *)
Definition read_local {A} (name : string) (v : option A) : M A :=
  match v with
  | Some a => ret a
  | None => raise (UnboundLocalError name)
  end.

(** [d[key]] *)
Definition dict_getitem (d : gmap string string) (key : string) : M string :=
  match d !! key with
  | Some v => ret v
  | None => raise (KeyError key)
  end.

Definition MODEL_RF : string := "rf17bCnd9".

(** Lines 45-49: the body of the loop returns on its first iteration, on
    either branch; an empty list falls through to the end of the function. *)
Definition checkLineOID_loop (fieldName : string) (fields : list Field)
  : PyVal :=
  match fields with
  | field :: _ =>
      if String.eqb (f_name field) fieldName then PyBool true
      else PyBool false
  | [] => PyNone
  end.

Definition checkLineOID (in_fc : string) : M PyVal :=
  let fieldName := "LineOID" in
  fields <- arcpy.ListFields in_fc (Some fieldName) ;;
  ret (checkLineOID_loop fieldName fields).

(** Lines 64-70. *)
Fixpoint removeFields_loop (field_obj_list : list Field)
    (field_name_list : list string) : list string :=
  match field_obj_list with
  | [] => field_name_list
  | f :: rest =>
      if (negb (String.eqb (f_type f) "Geometry")
          && negb (String.eqb (f_type f) "OID")
          && negb (String.eqb (f_name f) "LineOID")
          && negb (String.eqb (f_name f) "error_code")
          && negb (String.eqb (f_name f) "prdCond"))%bool
      then removeFields_loop rest (field_name_list ++ [f_name f])
      else removeFields_loop rest field_name_list
  end.

Definition removeFields (in_fc : string) : M unit :=
  arcpy.AddMessage "Cleaning up final output..." ;;;
  field_obj_list <- arcpy.ListFields in_fc None ;;
  let field_name_list := removeFields_loop field_obj_list [] in
  arcpy.DeleteField_management in_fc field_name_list.

Definition clear_inmemory : M unit :=
  arcpy.set_workspace "IN_MEMORY" ;;;
  arcpy.AddMessage "Deleting in_memory data..." ;;;
  list_fc <- arcpy.ListFeatureClasses ;;
  list_tbl <- arcpy.ListTables ;;
  for_each list_fc (fun f => arcpy.Delete_management f) ;;;
  for_each list_tbl (fun t => arcpy.Delete_management t).

Definition metadata (E : Env) (ecXML : Doc.Lineage)
    (in_fc out_fc real_id : string) : M unit :=
  times <- meta_rs.finalize E ecXML ;;
  let timeStart := fst times in
  let timeStop := snd times in
  let ecXML := meta_rs.getOperator ecXML in
  let ecXML := meta_rs.addMeta "Model" MODEL_RF (meta_rs.project ecXML) [] ecXML in
  guid <- meta_rs.getUUID E ;;
  let ecXML :=
    meta_rs.addRealizationInputData (meta_rs.project ecXML) "Vector" "EC"
      real_id "Segmented Stream Network" in_fc guid ecXML in
  let ecXML :=
    meta_rs.addRealizationInputRef (meta_rs.project ecXML) "DataTable" "EC"
      real_id "PARAM_TABLE" ecXML in
  let ecXML :=
    meta_rs.addMeta "Predict Start Time" timeStart (meta_rs.project ecXML)
      ["EC"; real_id] ecXML in
  let ecXML :=
    meta_rs.addMeta "Predict Stop Time" timeStop (meta_rs.project ecXML)
      ["EC"; real_id] ecXML in
  guid <- meta_rs.getUUID E ;;
  let ecXML :=
    meta_rs.addOutput "Vector" "Predicted Electrical Conductivity" out_fc
      (meta_rs.project ecXML) "EC" real_id "PRED" guid ecXML in
  meta_rs.write ecXML.

Definition main (E : Env) (in_fc in_params out_fc rs_bool rs_dir : string)
  : M unit :=
  let in_fc_dir := Path.dirname in_fc in
  let in_fc_name := Path.basename in_fc in
  let out_dir := Path.dirname out_fc in
  let out_fc_name := Path.basename out_fc in

  in_fc_type <- arcpy.Describe_workspaceType E in_fc_dir ;;
  let in_shp_name :=
    if String.eqb in_fc_type "LocalDatabase" then Some (in_fc_name ++ ".shp")
    else None in

  (* initiate generic metadata XML object *)
  time_stamp <- time.strftime E ;;
  let out_xml :=
    Path.join out_dir ("meta_predict" ++ "_" ++ time_stamp ++ "." ++ "xml") in
  let mWriter := meta_sfr.MetadataWriter "Predict Conductivity" "0.4" in
  mWriter <- meta_sfr.createRun E mWriter ;;
  let mWriter :=
    meta_sfr.currentRun_addParameter
      "Stream network polyline feature class" in_fc mWriter in
  let mWriter :=
    meta_sfr.currentRun_addParameter
      "Environmental parameter table" in_params mWriter in
  let mWriter :=
    meta_sfr.currentRun_addParameter
      "Predicted conductivity feature class" out_fc mWriter in
  let mWriter :=
    meta_sfr.currentRun_addParameter "Output metadata XML" out_xml mWriter in

  ok <- checkLineOID in_fc ;;
  if py_eq_True ok then
    arcpy.AddMessage
      "Predicting conductivity using Random Forest model in R..." ;;;
    gc.enable ;;;

    (* initiate Riverscapes project XML object and start processing
       timestamp *)
    projectXML <-
      (if String.eqb rs_bool "true" then
         let rs_xml := rs_dir ++ "\" ++ "project.rs.xml" in
         x <- meta_rs.ProjectXML E "predict" rs_xml ;; ret (Some x)
       else ret None) ;;

    (* variables for the subprocess function *)
    let scriptPathName := script_file E in
    let pathName := Path.dirname scriptPathName in
    let scriptName := "condRF.R" in
    let modelName := "rf17bCnd9.rdata" in
    let rScriptPath := Path.join pathName scriptName in
    let modelPath := Path.join pathName modelName in

    let argR := [modelPath; out_dir; in_params] in
    let cmd := (["Rscript"; rScriptPath] ++ argR)%list in

    (* send command to predict_conductivity.r *)
    process <- subprocess.Popen cmd ;;
    subprocess.wait E process ;;;

    (* predictive output *)
    let predictedCondCSV := out_dir ++ "\predicted_cond.csv" in
    arcpy.TableToTable_conversion predictedCondCSV out_dir
      "predicted_cond.dbf" ;;;

    (* join conductivity predictive output to stream segment feature class *)
    arcpy.AddMessage
      "Joining predicted conductivity results to the stream network..." ;;;
    arcpy.MakeTableView_management (out_dir ++ "\predicted_cond.dbf")
      "predicted_cond_view" ;;;
    arcpy.MakeFeatureLayer_management in_fc "in_fc_lyr" ;;;
    arcpy.FeatureClassToFeatureClass_conversion "in_fc_lyr" "in_memory"
      "in_fc_tmp" ;;;
    arcpy.JoinField_management "in_memory\in_fc_tmp" "LineOID"
      "predicted_cond_view" "LineOID" ;;;
    arcpy.MakeFeatureLayer_management "in_memory\in_fc_tmp" "join_fc_lyr" ;;;
    arcpy.AddMessage ("Exporting final feature class as " ++ out_fc) ;;;
    arcpy.CopyFeatures_management "join_fc_lyr" out_fc ;;;
    removeFields out_fc ;;;

    (* finalize and write generic XML file *)
    let tool_status := "Success" in
    mWriter <- meta_sfr.finalizeRun E tool_status mWriter ;;
    meta_sfr.writeMetadataFile out_xml mWriter ;;;

    (* export data files to Riverscapes project. *)
    (if String.eqb rs_bool "true" then
       arcpy.AddMessage "Exporting to Riverscapes project..." ;;;
       projectXML <- read_local "projectXML" projectXML ;;
       real_id <- dict_getitem (Doc.realIDdict projectXML) (rs_real_name E) ;;
       (* copy input/output data to Riverscapes project directories *)
       let abs_fc_path :=
         Path.join (getRSDirAbs E rs_dir 1 0 real_id) in_fc_name in
       let abs_out_path :=
         Path.join (getRSDirAbs E rs_dir 1 2 real_id) out_fc_name in
       rs.copyRSFiles in_fc abs_fc_path ;;;
       rs.copyRSFiles out_fc abs_out_path ;;;
       (* write project XML file *)
       let rel_dir := getRSDirRel E 1 0 real_id in
       in_shp_name <- read_local "in_shp_name" in_shp_name ;;
       let rel_fc_path := Path.join rel_dir in_shp_name in
       let rel_out_path :=
         Path.join (getRSDirRel E 1 2 real_id) out_fc_name in
       metadata E projectXML rel_fc_path rel_out_path real_id
     else ret tt) ;;;

    (* clean up *)
    clear_inmemory ;;;
    arcpy.Delete_management (out_dir ++ "\predicted_cond.dbf") ;;;
    arcpy.Delete_management (out_dir ++ "\predicted_cond.csv") ;;;

    arcpy.AddMessage "Conductivity prediction process complete!"
  else
    arcpy.AddError
      "The LineOID attribute field is missing! Cancelling process..." ;;;
    sys.exit 0.

(** The same environment, with other return codes for the external
    process. *)
Definition with_returncode
    (rc : list string -> gmap string Dataset -> Z) (E : Env) : Env :=
  {| script_file := script_file E;
     clock := clock E;
     uuid := uuid E;
     workspaceType := workspaceType E;
     run_process := fun cmd d => (fst (run_process E cmd d), rc cmd d);
     rs_real_name := rs_real_name E;
     project_realizations := project_realizations E;
     getRSDirAbs := getRSDirAbs E;
     getRSDirRel := getRSDirRel E |}.

(** ** A concrete scenario *)

Module Scenario.

Definition streams : Table :=
  {| t_fields := [mkField "FID" "OID"; mkField "Shape" "Geometry";
                  mkField "LineOID" "Integer"; mkField "Name" "String"];
     t_rows := [ {[ "FID" := VInt 0; "LineOID" := VInt 1;
                    "Name" := VText "a" ]};
                 {[ "FID" := VInt 1; "LineOID" := VInt 2;
                    "Name" := VText "b" ]};
                 {[ "FID" := VInt 2; "LineOID" := VInt 3;
                    "Name" := VText "c" ]} ] |}.

(** The same network without the join key. *)
Definition no_key : Table :=
  {| t_fields := [mkField "FID" "OID"; mkField "Shape" "Geometry";
                  mkField "Name" "String"];
     t_rows := [ {[ "FID" := VInt 0; "Name" := VText "a" ]} ] |}.

(** An earlier output of the tool, used as input again: it carries the
    prdCond and error_code fields of the earlier run. *)
Definition earlier_output : Table :=
  {| t_fields := [mkField "FID" "OID"; mkField "Shape" "Geometry";
                  mkField "LineOID" "Integer"; mkField "prdCond" "Double";
                  mkField "error_code" "Integer"];
     t_rows := [ {[ "FID" := VInt 0; "LineOID" := VInt 1;
                    "prdCond" := VDouble 999; "error_code" := VInt 0 ]} ]
  |}.

Definition predictions : Table :=
  {| t_fields := [mkField "OID" "OID"; mkField "LineOID" "Integer";
                  mkField "prdCond" "Double";
                  mkField "error_code" "Integer"];
     t_rows := [ {[ "LineOID" := VInt 1; "prdCond" := VDouble 101;
                    "error_code" := VInt 0 ]};
                 {[ "LineOID" := VInt 2; "prdCond" := VDouble 202;
                    "error_code" := VInt 0 ]} ] |}.

(** The R script, as the spec describes it: writes [predicted_cond.csv]
    into its second argument. *)
Definition condRF (cmd : list string) (d : gmap string Dataset)
  : gmap string Dataset * Z :=
  match cmd with
  | [_; _; _; out_dir; _] =>
      (<[out_dir ++ "\predicted_cond.csv" := CsvFile predictions]> d, 0)
  | _ => (d, 1)
  end.

Definition env : Env :=
  {| script_file := "C:\tools\predict_cond.py";
     clock := fun n => mkTime 2017 3 (9 + n) 8 5 0;
     uuid := fun n => "uuid-" ++ Path.dec n;
     workspaceType := fun p =>
       if String.eqb p "C:\data" then Some "FileSystem"
       else if String.eqb p "C:\gdb" then Some "LocalDatabase"
       else None;
     run_process := condRF;
     rs_real_name := "run1";
     project_realizations := {[ "run1" := "0001" ]};
     getRSDirAbs := fun d a b r => d ++ "\abs_" ++ r ++ Path.dec (Z.to_nat b);
     getRSDirRel := fun a b r => "rel_" ++ r ++ Path.dec (Z.to_nat b) |}.

Definition world0 (in_fc : string) (fc : Table) : World :=
  {| disk := {[ in_fc := FeatureClass fc ]};
     inmem := ∅; layers := ∅; workspace := ""; ticks := 0; uuids := 0;
     trace := [] |}.

End Scenario.


(** * Properties *)

(** ** Stepping through monadic code *)

Lemma bind_inv {A B} (m : M A) (f : A -> M B) w r w' :
  bind m f w = (r, w') ->
  (exists a w1, m w = (Ok a, w1) /\ f a w1 = (r, w'))
  \/ (exists e, m w = (Raise e, w') /\ r = Raise e).
Proof.
  unfold bind. destruct (m w) as [[a|e] w1] eqn:Hm; intros H.
  - left. eauto.
  - right. inversion H; subst. eauto.
Qed.

Lemma bind_ok_inv {A B} (m : M A) (f : A -> M B) w b w' :
  bind m f w = (Ok b, w') ->
  exists a w1, m w = (Ok a, w1) /\ f a w1 = (Ok b, w').
Proof.
  intros H. apply bind_inv in H as [H | (e & _ & He)]; [exact H | discriminate].
Qed.

Lemma bind_ok_eq {A B} (m : M A) (f : A -> M B) w a w1 :
  m w = (Ok a, w1) -> bind m f w = f a w1.
Proof. unfold bind. intros ->. reflexivity. Qed.

Lemma bind_raise_eq {A B} (m : M A) (f : A -> M B) w e w1 :
  m w = (Raise e, w1) -> bind m f w = (Raise e, w1).
Proof. unfold bind. intros ->. reflexivity. Qed.

(** ** The join-key check *)

Lemma checkLineOID_loop_true fieldName fields :
  checkLineOID_loop fieldName fields = PyBool true ->
  exists f, In f fields /\ f_name f = fieldName.
Proof.
  destruct fields as [|f rest]; simpl; [discriminate|].
  destruct (String.eqb (f_name f) fieldName) eqn:E; [|discriminate].
  intros _. exists f. split; [now left|]. now apply String.eqb_eq.
Qed.

(** The check reads the catalog and nothing else. *)
Lemma checkLineOID_run in_fc w :
  checkLineOID in_fc w
  = match arcpy.table_at w in_fc with
    | Some t =>
        (Ok (checkLineOID_loop "LineOID"
               (List.filter (fun f => arcpy.wild_match "LineOID" (f_name f))
                            (t_fields t))), w)
    | None => (Raise (IOError in_fc), w)
    end.
Proof.
  unfold checkLineOID, bind, arcpy.ListFields.
  destruct (arcpy.table_at w in_fc); reflexivity.
Qed.

Lemma checkLineOID_not_true in_fc w t :
  arcpy.table_at w in_fc = Some t ->
  (forall f, In f (t_fields t) -> f_name f <> "LineOID") ->
  exists v, checkLineOID in_fc w = (Ok v, w) /\ py_eq_True v = false.
Proof.
  intros Ht Hno. rewrite checkLineOID_run, Ht. eexists. split; [reflexivity|].
  destruct (checkLineOID_loop _ _) as [|[|]] eqn:E; try reflexivity.
  apply checkLineOID_loop_true in E as (f & Hin & Hn).
  apply filter_In in Hin as [Hin _]. exfalso. exact (Hno f Hin Hn).
Qed.

(** The world when the join-key check of [main] runs: two clock readings
    have been taken. *)
Definition at_check (w : World) : World :=
  mkWorld (disk w) (inmem w) (layers w) (workspace w) (S (S (ticks w)))
          (uuids w) (trace w).

Lemma table_at_at_check w s : arcpy.table_at (at_check w) s = arcpy.table_at w s.
Proof. reflexivity. Qed.

Definition missing_key_message : string :=
  "The LineOID attribute field is missing! Cancelling process...".

(** C1 (amended): for every input feature class that has no field named
    "LineOID" and whose workspace [arcpy.Describe] can describe, [main]
    performs no join, writes no output feature class and no metadata XML
    (the catalog is left as it was and the only effect is one error
    message), and ends by [sys.exit(0)]: exit status 0. *)
Theorem C1_missing_join_key_exits_cleanly
    E in_fc in_params out_fc rs_bool rs_dir w ty fc :
  workspaceType E (Path.dirname in_fc) = Some ty ->
  get (resolve w in_fc) w = Some (FeatureClass fc) ->
  (forall f, In f (t_fields fc) -> f_name f <> "LineOID") ->
  exists w',
    main E in_fc in_params out_fc rs_bool rs_dir w = (Raise (SystemExit 0), w')
    /\ exit_status (fst (main E in_fc in_params out_fc rs_bool rs_dir w)) = 0
    /\ disk w' = disk w /\ inmem w' = inmem w /\ layers w' = layers w
    /\ trace w' = (trace w ++ [ErrorMessage missing_key_message])%list.
Proof.
  intros Hty Hfc Hno.
  assert (Ht : arcpy.table_at (at_check w) in_fc = Some fc).
  { rewrite table_at_at_check. unfold arcpy.table_at. now rewrite Hfc. }
  destruct (checkLineOID_not_true in_fc (at_check w) fc Ht Hno)
    as (v & Hrun & Hv).
  eexists. split; [|split].
  - unfold main, arcpy.Describe_workspaceType. rewrite Hty.
    unfold time.strftime, meta_sfr.createRun, time.now, bind, ret; simpl.
    unfold bind in Hrun. fold (at_check w). rewrite Hrun. simpl. rewrite Hv.
    reflexivity.
  - unfold main, arcpy.Describe_workspaceType. rewrite Hty.
    unfold time.strftime, meta_sfr.createRun, time.now, bind, ret; simpl.
    fold (at_check w). rewrite Hrun. simpl. rewrite Hv. reflexivity.
  - simpl. repeat split; reflexivity.
Qed.

Lemma C1_missing_join_key_exits_cleanly_witness :
  exists w',
    main Scenario.env "C:\data\streams.shp" "C:\data\params.dbf"
         "C:\data\out.shp" "false" "C:\proj"
         (Scenario.world0 "C:\data\streams.shp" Scenario.no_key)
    = (Raise (SystemExit 0), w')
    /\ trace w' = [ErrorMessage missing_key_message].
Proof.
  destruct (C1_missing_join_key_exits_cleanly Scenario.env
              "C:\data\streams.shp" "C:\data\params.dbf" "C:\data\out.shp"
              "false" "C:\proj"
              (Scenario.world0 "C:\data\streams.shp" Scenario.no_key)
              "FileSystem" Scenario.no_key)
    as (w' & Hrun & _ & _ & _ & _ & Htr).
  - reflexivity.
  - vm_compute. reflexivity.
  - simpl. intros f [<-|[<-|[<-|[]]]]; discriminate.
  - exists w'. split; [exact Hrun | exact Htr].
Defined.

(** C1, as stated, fails for an input without the "LineOID" field that is
    given by its bare name: its directory part is empty,
    [arcpy.Describe] in line 133 raises before the join-key check is
    reached, and the run ends in that uncaught error, with exit status 1
    and without the error message. *)
Lemma C1_counterexample :
  let w0 := Scenario.world0 "streams.shp" Scenario.no_key in
  let run := main Scenario.env "streams.shp" "C:\data\params.dbf"
                  "C:\data\out.shp" "false" "C:\proj" w0 in
  get (resolve w0 "streams.shp") w0 = Some (FeatureClass Scenario.no_key)
  /\ map f_name (t_fields Scenario.no_key) = ["FID"; "Shape"; "Name"]
  /\ Path.dirname "streams.shp" = ""
  /\ fst run = Raise (IOError "")
  /\ exit_status (fst run) = 1
  /\ trace (snd run) = [].
Proof.
  cbv zeta. repeat split; vm_compute; reflexivity.
Qed.

(** C2: on a feature class that has no "LineOID" field, [ListFields] hands
    back an empty list, the loop body never runs and [checkLineOID] falls
    off its end: it returns [None], not the boolean [False] that the claim
    and the docstring ("A boolean true or false value") promise.  The same
    function does return [True] when the field is there. *)
Theorem C2_checkLineOID_returns_None_without_key :
  fst (checkLineOID "C:\data\streams.shp"
         (Scenario.world0 "C:\data\streams.shp" Scenario.no_key))
  = Ok PyNone
  /\ Ok PyNone <> Ok (PyBool false)
  /\ fst (checkLineOID "C:\data\streams.shp"
            (Scenario.world0 "C:\data\streams.shp" Scenario.streams))
     = Ok (PyBool true).
Proof.
  split; [|split].
  - vm_compute. reflexivity.
  - discriminate.
  - vm_compute. reflexivity.
Qed.

(** ** Paths *)

Lemma has_sep_app_sep a b : Path.has_sep (a ++ String "\" b) = true.
Proof.
  induction a as [|c a IH]; simpl.
  - reflexivity.
  - rewrite IH. apply orb_true_r.
Qed.

Lemma split_last_sep_no_sep n :
  Path.has_sep n = false -> Path.split_last_sep n = (EmptyString, n).
Proof.
  induction n as [|c n IH]; simpl; [reflexivity|].
  intros H. apply orb_false_iff in H as [Hc Hn].
  rewrite (IH Hn), Hc. reflexivity.
Qed.

Lemma split_last_sep_cons c rest :
  Path.split_last_sep (String c rest)
  = let '(h, t) := Path.split_last_sep rest in
    match h with
    | EmptyString =>
        if Path.is_sep c then (String c EmptyString, t)
        else (EmptyString, String c t)
    | _ => (String c h, t)
    end.
Proof. reflexivity. Qed.

Lemma split_last_sep_app pre n :
  Path.has_sep n = false ->
  Path.split_last_sep (pre ++ String "\" n) = (pre ++ String "\" EmptyString, n).
Proof.
  intros Hn. induction pre as [|c pre IH].
  - change (Path.split_last_sep (String "\" n) = (String "\" EmptyString, n)).
    rewrite split_last_sep_cons, (split_last_sep_no_sep n Hn). reflexivity.
  - change (Path.split_last_sep (String c (pre ++ String "\" n))
            = (String c (pre ++ String "\" EmptyString), n)).
    rewrite split_last_sep_cons, IH. destruct pre; reflexivity.
Qed.

Lemma split_IN_MEMORY n :
  Path.has_sep n = false ->
  Path.split ("IN_MEMORY" ++ String "\" n) = ("IN_MEMORY", n).
Proof.
  intros Hn. unfold Path.split.
  change (Path.splitdrive ("IN_MEMORY" ++ String "\" n))
    with (EmptyString, "IN_MEMORY" ++ String "\" n).
  cbv beta iota.
  rewrite (split_last_sep_app "IN_MEMORY" n Hn). reflexivity.
Qed.

(** A plain name inside the in_memory workspace, as [clear_inmemory]
    addresses it. *)
Lemma locate_in_IN_MEMORY n :
  Path.has_sep n = false -> locate_in "IN_MEMORY" n = InMemory n.
Proof.
  intros Hn. unfold locate_in. rewrite Hn.
  change (Path.is_empty "IN_MEMORY") with false.
  change (false || false)%bool with false. cbv iota.
  change ("IN_MEMORY" ++ "\" ++ n) with ("IN_MEMORY" ++ String "\" n).
  unfold locate, Path.dirname, Path.basename.
  rewrite (split_IN_MEMORY n Hn). reflexivity.
Qed.

Lemma locate_in_unset s : locate_in "" s = locate s.
Proof. unfold locate_in. simpl. now rewrite orb_true_r. Qed.

Lemma locate_in_path ws s : Path.has_sep s = true -> locate_in ws s = locate s.
Proof. unfold locate_in. now intros ->. Qed.

(** The names the script gives its layers and views are plain names. *)
Definition scratch_layers : list string :=
  ["predicted_cond_view"; "in_fc_lyr"; "join_fc_lyr"].

Lemma path_not_scratch_layer s :
  Path.has_sep s = true -> ~ In s scratch_layers.
Proof.
  intros Hs [<-|[<-|[<-|[]]]]; vm_compute in Hs; discriminate.
Qed.

(** ** Deleting a list of in_memory datasets *)

Fixpoint delete_all (names : list string) (m : gmap string Dataset)
  : gmap string Dataset :=
  match names with
  | [] => m
  | n :: rest => delete_all rest (delete n m)
  end.

Lemma delete_all_lookup names : forall (m : gmap string Dataset) k,
  delete_all names m !! k = if bool_decide (k ∈ names) then None else m !! k.
Proof.
  induction names as [|n rest IH]; intros m k; simpl.
  - reflexivity.
  - rewrite IH. destruct (decide (k = n)) as [->|Hne].
    + rewrite lookup_delete_eq.
      rewrite (bool_decide_eq_true_2 (n ∈ n :: rest)) by (left).
      now destruct (bool_decide (n ∈ rest)).
    + rewrite lookup_delete_ne by congruence.
      destruct (bool_decide (k ∈ rest)) eqn:E.
      * apply bool_decide_eq_true_1 in E.
        rewrite (bool_decide_eq_true_2 (k ∈ n :: rest)); [reflexivity|].
        now right.
      * apply bool_decide_eq_false_1 in E.
        rewrite (bool_decide_eq_false_2 (k ∈ n :: rest)); [reflexivity|].
        intros Hin. apply elem_of_cons in Hin as [?|?]; tauto.
Qed.

Definition delete_events (names : list string) : list Event :=
  map (fun n => Tool "Delete" [n]) names.

Lemma for_each_Delete_in_memory names : forall w,
  workspace w = "IN_MEMORY" ->
  NoDup names ->
  (forall n, n ∈ names ->
     is_Some (inmem w !! n) /\ Path.has_sep n = false /\ layers w !! n = None) ->
  for_each names (fun f => arcpy.Delete_management f) w
  = (Ok tt,
     mkWorld (disk w) (delete_all names (inmem w)) (layers w) (workspace w)
             (ticks w) (uuids w) (trace w ++ delete_events names)).
Proof.
  induction names as [|n rest IH]; intros w Hws Hnd Hall.
  - simpl. unfold ret. rewrite app_nil_r. now destruct w.
  - apply NoDup_cons in Hnd as [Hn Hnd].
    destruct (Hall n) as ([d Hd] & Hsep & Hlay); [left|].
    simpl. unfold bind at 1.
    unfold arcpy.Delete_management at 1. rewrite Hlay, Hws.
    rewrite (locate_in_IN_MEMORY n Hsep). simpl. rewrite Hd.
    rewrite IH; simpl; auto.
    + rewrite <- app_assoc, ?Hws. reflexivity.
    + intros k Hk. destruct (Hall k) as ([dk Hdk] & ? & ?); [now right|].
      repeat split; auto.
      exists dk. rewrite lookup_delete_ne; [exact Hdk|].
      intros ->. contradiction.
Qed.

Definition inmem_names (kind : Dataset -> bool) (m : gmap string Dataset)
  : list string :=
  map fst (List.filter (fun kd => kind (snd kd)) (map_to_list m)).

Lemma elem_of_inmem_names kind (m : gmap string Dataset) n :
  n ∈ inmem_names kind m <-> exists d, m !! n = Some d /\ kind d = true.
Proof.
  unfold inmem_names. rewrite list_elem_of_In, in_map_iff. split.
  - intros ([k d] & <- & Hin). apply filter_In in Hin as [Hin Hk].
    exists d. split; [|exact Hk].
    apply elem_of_map_to_list. now apply list_elem_of_In.
  - intros (d & Hd & Hk). exists (n, d). split; [reflexivity|].
    apply filter_In. split; [|exact Hk].
    apply list_elem_of_In. now apply elem_of_map_to_list.
Qed.

Lemma NoDup_map_fst_filter {A B} (f : A * B -> bool) (l : list (A * B)) :
  NoDup (map fst l) -> NoDup (map fst (List.filter f l)).
Proof.
  induction l as [|x l IH]; simpl; intros Hnd; [constructor|].
  apply NoDup_cons in Hnd as [Hx Hnd].
  destruct (f x); simpl; [|now apply IH].
  apply NoDup_cons. split; [|now apply IH].
  intros Hin. apply Hx.
  apply list_elem_of_In in Hin. apply list_elem_of_In.
  apply in_map_iff in Hin as (y & Hy & Hin).
  apply filter_In in Hin as [Hin _]. apply in_map_iff. eauto.
Qed.

Lemma NoDup_inmem_names kind (m : gmap string Dataset) :
  NoDup (inmem_names kind m).
Proof.
  unfold inmem_names. apply NoDup_map_fst_filter.
  exact (NoDup_fst_map_to_list m).
Qed.

(** What [clear_inmemory] leaves of an in_memory workspace. *)
Definition cleared (m : gmap string Dataset) : gmap string Dataset :=
  delete_all (inmem_names is_table m)
             (delete_all (inmem_names is_feature_class m) m).


Definition clear_events (m : gmap string Dataset) : list Event :=
  (Message "Deleting in_memory data..."
   :: delete_events (inmem_names is_feature_class m)
   ++ delete_events (inmem_names is_table m))%list.

Lemma clear_inmemory_run w :
  (forall n, is_Some (inmem w !! n) ->
     Path.has_sep n = false /\ layers w !! n = None) ->
  clear_inmemory w
  = (Ok tt,
     mkWorld (disk w) (cleared (inmem w)) (layers w) "IN_MEMORY" (ticks w)
             (uuids w) (trace w ++ clear_events (inmem w))).
Proof.
  intros Hok. unfold clear_inmemory.
  unfold bind at 1. unfold arcpy.set_workspace at 1.
  unfold bind at 1. unfold arcpy.AddMessage, log at 1.
  unfold bind at 1. unfold arcpy.ListFeatureClasses at 1.
  unfold bind at 1. unfold arcpy.ListTables at 1.
  unfold arcpy.list_workspace. simpl.
  fold (inmem_names is_feature_class (inmem w)).
  fold (inmem_names is_table (inmem w)).
  unfold bind at 1.
  rewrite for_each_Delete_in_memory; simpl; auto using NoDup_inmem_names.
  2:{ intros n Hn. apply elem_of_inmem_names in Hn as (d & Hd & _).
      destruct (Hok n) as [? ?]; eauto. }
  rewrite for_each_Delete_in_memory; simpl; auto using NoDup_inmem_names.
  - unfold cleared, clear_events. rewrite <- !app_assoc. reflexivity.
  - intros n Hn. apply elem_of_inmem_names in Hn as (d & Hd & Hk).
    destruct (Hok n) as [? ?]; eauto. repeat split; auto.
    exists d. rewrite delete_all_lookup.
    rewrite bool_decide_eq_false_2; [exact Hd|].
    intros Hin. apply elem_of_inmem_names in Hin as (d' & Hd' & Hk').
    rewrite Hd in Hd'. inversion Hd'; subst. now destruct d'.
Qed.

Arguments arcpy.wild_match : simpl never.

(** ** Reading the trace *)

(** The run-metadata files written, in order. *)
Fixpoint metadata_writes (evs : list Event) : list (string * Doc.Writer) :=
  match evs with
  | [] => []
  | WroteMetadata path doc :: rest => (path, doc) :: metadata_writes rest
  | _ :: rest => metadata_writes rest
  end.

(** The lineage files written and the files copied into the project tree. *)
Fixpoint lineage_writes (evs : list Event) : list string :=
  match evs with
  | [] => []
  | WroteLineage path _ :: rest => path :: lineage_writes rest
  | _ :: rest => lineage_writes rest
  end.

Fixpoint project_copies (evs : list Event) : list (string * string) :=
  match evs with
  | [] => []
  | CopiedFile src dst :: rest => (src, dst) :: project_copies rest
  | _ :: rest => project_copies rest
  end.

Lemma metadata_writes_app a b :
  metadata_writes (a ++ b) = (metadata_writes a ++ metadata_writes b)%list.
Proof.
  induction a as [|e a IH]; simpl; [reflexivity|].
  destruct e; simpl; now rewrite ?IH.
Qed.

Lemma lineage_writes_app a b :
  lineage_writes (a ++ b) = (lineage_writes a ++ lineage_writes b)%list.
Proof.
  induction a as [|e a IH]; simpl; [reflexivity|].
  destruct e; simpl; now rewrite ?IH.
Qed.

Lemma project_copies_app a b :
  project_copies (a ++ b) = (project_copies a ++ project_copies b)%list.
Proof.
  induction a as [|e a IH]; simpl; [reflexivity|].
  destruct e; simpl; now rewrite ?IH.
Qed.

Lemma delete_events_quiet names :
  metadata_writes (delete_events names) = []
  /\ lineage_writes (delete_events names) = []
  /\ project_copies (delete_events names) = [].
Proof. induction names as [|n names IH]; simpl; auto. Qed.

Lemma clear_events_quiet m :
  metadata_writes (clear_events m) = []
  /\ lineage_writes (clear_events m) = []
  /\ project_copies (clear_events m) = [].
Proof.
  unfold clear_events. cbn [metadata_writes lineage_writes project_copies].
  rewrite metadata_writes_app, lineage_writes_app, project_copies_app.
  destruct (delete_events_quiet (inmem_names is_feature_class m))
    as (-> & -> & ->).
  destruct (delete_events_quiet (inmem_names is_table m)) as (-> & -> & ->).
  auto.
Qed.

(** ** Spellings of a path *)

(** [s.replace("/", "\\")] *)
Fixpoint backslashes (s : string) : string :=
  match s with
  | EmptyString => EmptyString
  | String c rest =>
      String (if Ascii.eqb c "/" then "\"%char else c) (backslashes rest)
  end.

(** [ntpath.normcase]: [s.replace("/", "\\").lower()]. *)
Definition normcase (s : string) : string := Path.lower (backslashes s).

(** [s.lstrip("\\")] *)
Fixpoint lstrip_backslashes (s : string) : string :=
  match s with
  | String "\" rest => lstrip_backslashes rest
  | _ => s
  end.

(** [s.split("\\")] *)
Fixpoint components (s : string) : list string :=
  match s with
  | EmptyString => [EmptyString]
  | String c rest =>
      if Ascii.eqb c "\" then EmptyString :: components rest
      else match components rest with
           | first :: others => String c first :: others
           | [] => [String c EmptyString]
           end
  end.

(** The loop of [ntpath.normpath] over the components: [done] holds the
    components kept so far, last one first; [rooted] says whether the
    prefix ends with a separator. *)
Fixpoint collapse (rooted : bool) (done comps : list string) : list string :=
  match comps with
  | [] => rev done
  | c :: rest =>
      if (Path.is_empty c || String.eqb c ".")%bool then
        collapse rooted done rest
      else if String.eqb c ".." then
        match done with
        | last :: before =>
            if String.eqb last ".." then collapse rooted (c :: done) rest
            else collapse rooted before rest
        | [] =>
            if rooted then collapse rooted done rest
            else collapse rooted (c :: done) rest
        end
      else collapse rooted (c :: done) rest
  end.

(** [ntpath.normpath]: separators made uniform and repeated ones, [.] and
    [..] components removed. *)
Definition normpath (path : string) : string :=
  let '(drive, rest) := Path.splitdrive (backslashes path) in
  let rooted := Path.starts_with_sep rest in
  let prefix := if rooted then drive ++ "\" else drive in
  let comps := collapse rooted [] (components (lstrip_backslashes rest)) in
  let comps :=
    match prefix, comps with
    | EmptyString, [] => ["."]
    | _, _ => comps
    end in
  prefix ++ String.concat "\" comps.

(** The spelling that stands for a file, as far as the path tells:
    [ntpath.normcase(ntpath.normpath(p))].  Windows file names are not
    case sensitive, so two paths with the same key go to the same file. *)
Definition file_key (p : string) : string := normcase (normpath p).

(** [p] is none of the paths [l], whatever the spelling they are written
    in (letter case, kind and repetition of separators, [.] and [..]
    components). *)
Definition apart (p : string) (l : list string) : Prop :=
  ~ In (file_key p) (map file_key l).


Lemma apart_In p q l : apart p l -> In q l -> p <> q.
Proof.
  intros Ha Hq ->. apply Ha. now apply in_map.
Qed.

Lemma apart_not_In p l : apart p l -> ~ In p l.
Proof. intros Ha Hp. exact (apart_In p p l Ha Hp eq_refl). Qed.




(** ** The vocabulary of a run *)

Ltac world_simpl :=
  unfold emit, put, del, get, with_disk, with_inmem in *;
  cbn [disk inmem layers workspace ticks uuids trace] in *.

Ltac step_ok H H1 :=
  let a := fresh "a" in
  let w1 := fresh "w" in
  apply bind_ok_inv in H as (a & w1 & H1 & H).

Definition on_disk (p : string) : Prop := locate p = OnDisk p.

(** No in_memory dataset is addressed by a path or goes by the name of one
    of the script's layers. *)
Definition inmem_names_ok (w : World) : Prop :=
  forall n, is_Some (inmem w !! n) ->
            Path.has_sep n = false /\ ~ In n scratch_layers.

Section Run.

Variable E : Env.
Variables in_fc in_params out_fc rs_bool rs_dir : string.

Definition out_dir : string := Path.dirname out_fc.
Definition csv_path : string := out_dir ++ "\predicted_cond.csv".
Definition dbf_path : string := out_dir ++ "\predicted_cond.dbf".

(** The metadata file name, from the clock reading the run starts with. *)
Definition xml_name (w : World) : string :=
  "meta_predict" ++ "_" ++ strftime_YmdHM (clock E (ticks w)) ++ "." ++ "xml".
Definition xml_path (w : World) : string := Path.join out_dir (xml_name w).

(** The command line of the external process. *)
Definition r_command : list string :=
  ["Rscript"; Path.join (Path.dirname (script_file E)) "condRF.R";
   Path.join (Path.dirname (script_file E)) "rf17bCnd9.rdata";
   out_dir; in_params].

(** The disk once the external process has terminated. *)
Definition disk_after_R (w : World) : gmap string Dataset :=
  fst (run_process E r_command (disk w)).

(** The project paths, for a realization identifier. *)
Definition rs_xml : string := rs_dir ++ "\" ++ "project.rs.xml".
Definition abs_fc_path (real_id : string) : string :=
  Path.join (getRSDirAbs E rs_dir 1 0 real_id) (Path.basename in_fc).
Definition abs_out_path (real_id : string) : string :=
  Path.join (getRSDirAbs E rs_dir 1 2 real_id) (Path.basename out_fc).

(** The session the script starts in and the paths it is given. *)
Record sane (w : World) : Prop := {
  sane_layers : layers w = ∅;
  sane_workspace : workspace w = "";
  sane_inmem : inmem_names_ok w;
  sane_in_path : Path.has_sep in_fc = true;
  sane_out_path : Path.has_sep out_fc = true;
  sane_in : on_disk in_fc;
  sane_out : on_disk out_fc;
  sane_csv : on_disk csv_path;
  sane_dbf : on_disk dbf_path;
  sane_xml : on_disk (xml_path w);
  sane_project :
    rs_bool = "true" ->
    forall real_id,
      project_realizations E !! rs_real_name E = Some real_id ->
      on_disk (abs_fc_path real_id) /\ on_disk (abs_out_path real_id)
      /\ on_disk rs_xml
}.

(** *** The join block: lines 173-185 *)

Definition joined (t_in pt : Table) : Table :=
  arcpy.join_table t_in "LineOID" pt "LineOID".

(** The output table: the joined table with the fields that
    [removeFields] collects dropped. *)
Definition final_table (t_in pt : Table) : Table :=
  arcpy.drop_fields (removeFields_loop (t_fields (joined t_in pt)) [])
                    (joined t_in pt).

Definition scratch_layer_map : gmap string string :=
  <["join_fc_lyr" := "in_memory\in_fc_tmp"]>
    (<["in_fc_lyr" := in_fc]> (<["predicted_cond_view" := dbf_path]> ∅)).

Definition join_events (t_in pt : Table) : list Event :=
  [Tool "TableToTable" [csv_path; out_dir; "predicted_cond.dbf"];
   Message "Joining predicted conductivity results to the stream network...";
   Tool "MakeTableView" [dbf_path; "predicted_cond_view"];
   Tool "MakeFeatureLayer" [in_fc; "in_fc_lyr"];
   Tool "FeatureClassToFeatureClass" ["in_fc_lyr"; "in_memory"; "in_fc_tmp"];
   Tool "JoinField"
        ["in_memory\in_fc_tmp"; "LineOID"; "predicted_cond_view"; "LineOID"];
   Tool "MakeFeatureLayer" ["in_memory\in_fc_tmp"; "join_fc_lyr"];
   Message ("Exporting final feature class as " ++ out_fc);
   Tool "CopyFeatures" ["join_fc_lyr"; out_fc];
   Message "Cleaning up final output...";
   Tool "DeleteField"
        (out_fc :: removeFields_loop (t_fields (joined t_in pt)) [])].

Definition after_join (w : World) (t_in pt : Table) : World :=
  {| disk := <[out_fc := FeatureClass (final_table t_in pt)]>
               (<[dbf_path := DbfTable pt]> (disk w));
     inmem := <["in_fc_tmp" := FeatureClass (joined t_in pt)]> (inmem w);
     layers := scratch_layer_map;
     workspace := "";
     ticks := ticks w;
     uuids := uuids w;
     trace := trace w ++ join_events t_in pt |}.

Lemma path_lookup_scratch s (m : gmap string string) n v :
  Path.has_sep s = true -> In n scratch_layers ->
  <[n := v]> m !! s = m !! s.
Proof.
  intros Hs Hn. apply lookup_insert_ne. intros ->.
  now apply (path_not_scratch_layer s).
Qed.

Lemma join_block_ok (k : M unit) w w' :
  layers w = ∅ -> workspace w = "" ->
  Path.has_sep in_fc = true -> Path.has_sep out_fc = true ->
  on_disk in_fc -> on_disk out_fc -> on_disk csv_path -> on_disk dbf_path ->
  (arcpy.TableToTable_conversion (Path.dirname out_fc ++ "\predicted_cond.csv")
     (Path.dirname out_fc) "predicted_cond.dbf" ;;;
   arcpy.AddMessage
     "Joining predicted conductivity results to the stream network..." ;;;
   arcpy.MakeTableView_management
     (Path.dirname out_fc ++ "\predicted_cond.dbf") "predicted_cond_view" ;;;
   arcpy.MakeFeatureLayer_management in_fc "in_fc_lyr" ;;;
   arcpy.FeatureClassToFeatureClass_conversion "in_fc_lyr" "in_memory"
     "in_fc_tmp" ;;;
   arcpy.JoinField_management "in_memory\in_fc_tmp" "LineOID"
     "predicted_cond_view" "LineOID" ;;;
   arcpy.MakeFeatureLayer_management "in_memory\in_fc_tmp" "join_fc_lyr" ;;;
   arcpy.AddMessage ("Exporting final feature class as " ++ out_fc) ;;;
   arcpy.CopyFeatures_management "join_fc_lyr" out_fc ;;;
   removeFields out_fc ;;; k) w = (Ok tt, w') ->
  exists dcsv pt t_in,
    disk w !! csv_path = Some dcsv /\ as_table dcsv = Some pt
    /\ <[dbf_path := DbfTable pt]> (disk w) !! in_fc
       = Some (FeatureClass t_in)
    /\ arcpy.has_field t_in "LineOID" = true
    /\ arcpy.has_field pt "LineOID" = true
    /\ k (after_join w t_in pt) = (Ok tt, w').
Proof.
  intros Hl Hw Hsi Hso Di Do Dc Dd H.
  unfold on_disk, csv_path, dbf_path, out_dir in *.
  (* TableToTable *)
  step_ok H H1.
  unfold arcpy.TableToTable_conversion, arcpy.table_at, resolve in H1.
  rewrite Hl, lookup_empty, Hw, locate_in_unset, Dc in H1.
  world_simpl.
  destruct (disk w !! _) as [dcsv|] eqn:Hcsv; [|discriminate].
  cbn [mbind option_bind] in H1.
  destruct (as_table dcsv) as [pt|] eqn:Hpt; [|discriminate].
  change (Path.dirname out_fc ++ "\" ++ "predicted_cond.dbf")
    with (Path.dirname out_fc ++ "\predicted_cond.dbf") in H1.
  rewrite Dd in H1. simplify_eq. world_simpl.
  (* AddMessage *)
  step_ok H H1.
  unfold arcpy.AddMessage, log in H1. simplify_eq. world_simpl.
  (* MakeTableView *)
  step_ok H H1.
  unfold arcpy.MakeTableView_management, arcpy.table_at, resolve in H1.
  world_simpl.
  rewrite Hl, lookup_empty, Hw, locate_in_unset, Dd in H1. world_simpl.
  rewrite lookup_insert_eq in H1. cbn [mbind option_bind as_table] in H1.
  simplify_eq. world_simpl.
  (* MakeFeatureLayer in_fc *)
  step_ok H H1.
  unfold arcpy.MakeFeatureLayer_management, resolve in H1. world_simpl.
  rewrite !(path_lookup_scratch in_fc), lookup_empty, locate_in_unset, Di
    in H1 by (simpl; tauto).
  world_simpl.
  destruct (_ !! in_fc) as [[t_in| | | | |]|] eqn:Hin in H1;
    try discriminate.
  simplify_eq. world_simpl.
  (* FeatureClassToFeatureClass *)
  step_ok H H1.
  unfold arcpy.FeatureClassToFeatureClass_conversion, resolve in H1.
  world_simpl.
  rewrite lookup_insert_eq, locate_in_unset, Di in H1. world_simpl.
  rewrite Hin in H1.
  change (locate ("in_memory" ++ "\" ++ "in_fc_tmp"))
    with (InMemory "in_fc_tmp") in H1.
  simplify_eq. world_simpl.
  (* JoinField *)
  step_ok H H1.
  unfold arcpy.JoinField_management, arcpy.table_at, resolve in H1.
  world_simpl.
  rewrite lookup_insert_ne, lookup_insert_ne, lookup_empty in H1
    by discriminate.
  rewrite lookup_insert_ne, lookup_insert_eq in H1 by discriminate.
  rewrite !locate_in_unset, Dd in H1.
  change (locate "in_memory\in_fc_tmp") with (InMemory "in_fc_tmp") in H1.
  cbn iota in H1.
  rewrite !lookup_insert_eq in H1. cbn [mbind option_bind as_table] in H1.
  destruct (arcpy.has_field t_in "LineOID" && arcpy.has_field pt "LineOID")%bool
    eqn:Hhas; [|discriminate].
  cbn [arcpy.retable] in H1.
  simplify_eq. world_simpl.
  rewrite insert_insert_eq in H.
  (* MakeFeatureLayer on the scratch copy *)
  step_ok H H1.
  unfold arcpy.MakeFeatureLayer_management, resolve in H1. world_simpl.
  rewrite lookup_insert_ne, lookup_insert_ne, lookup_empty in H1
    by discriminate.
  rewrite !locate_in_unset in H1.
  change (locate "in_memory\in_fc_tmp") with (InMemory "in_fc_tmp") in H1.
  cbn iota in H1. rewrite lookup_insert_eq in H1.
  simplify_eq. world_simpl.
  (* AddMessage *)
  step_ok H H1.
  unfold arcpy.AddMessage, log in H1. simplify_eq. world_simpl.
  (* CopyFeatures *)
  step_ok H H1.
  unfold arcpy.CopyFeatures_management, resolve in H1. world_simpl.
  rewrite lookup_insert_eq, !locate_in_unset, Do in H1.
  change (locate "in_memory\in_fc_tmp") with (InMemory "in_fc_tmp") in H1.
  cbn iota in H1. rewrite lookup_insert_eq in H1.
  simplify_eq. world_simpl.
  (* removeFields *)
  step_ok H H1.
  unfold removeFields in H1.
  step_ok H1 H2.
  unfold arcpy.AddMessage, log in H2. simplify_eq. world_simpl.
  step_ok H1 H2.
  unfold arcpy.ListFields, arcpy.table_at, resolve in H2. world_simpl.
  rewrite !(path_lookup_scratch out_fc), lookup_empty, locate_in_unset, Do
    in H2 by (simpl; tauto).
  cbn iota in H2. rewrite lookup_insert_eq in H2.
  cbn [mbind option_bind as_table] in H2.
  simplify_eq.
  unfold arcpy.DeleteField_management, resolve in H1. world_simpl.
  rewrite !(path_lookup_scratch out_fc), lookup_empty, locate_in_unset, Do
    in H1 by (simpl; tauto).
  cbn iota in H1. rewrite lookup_insert_eq in H1. cbn [as_table] in H1.
  destruct (forallb _ _) eqn:Hall in H1; [|discriminate].
  cbn [arcpy.retable] in H1.
  simplify_eq. world_simpl.
  rewrite insert_insert_eq in H.
  apply andb_true_iff in Hhas as [Hh1 Hh2].
  exists dcsv, pt, t_in. repeat split; auto.
  rewrite <- H. f_equal. unfold after_join, final_table, joined.
  unfold scratch_layer_map, join_events, csv_path, dbf_path, out_dir, joined.
  f_equal. rewrite <- !app_assoc. reflexivity.
Qed.

(** *** The export block: lines 194-204 *)

(** The lineage document that [metadata] builds from the project object
    [x]. *)
Definition lineage_doc (x : Doc.Lineage) (stop : Time) (guid1 guid2 : string)
    (shp_name real_id : string) : Doc.Lineage :=
  let timeStart := meta_rs.show_time (Doc.px_start x) in
  let timeStop := meta_rs.show_time stop in
  let ecXML := meta_rs.getOperator x in
  let ecXML :=
    meta_rs.addMeta "Model" MODEL_RF (meta_rs.project ecXML) [] ecXML in
  let ecXML :=
    meta_rs.addRealizationInputData (meta_rs.project ecXML) "Vector" "EC"
      real_id "Segmented Stream Network"
      (Path.join (getRSDirRel E 1 0 real_id) shp_name) guid1 ecXML in
  let ecXML :=
    meta_rs.addRealizationInputRef (meta_rs.project ecXML) "DataTable" "EC"
      real_id "PARAM_TABLE" ecXML in
  let ecXML :=
    meta_rs.addMeta "Predict Start Time" timeStart (meta_rs.project ecXML)
      ["EC"; real_id] ecXML in
  let ecXML :=
    meta_rs.addMeta "Predict Stop Time" timeStop (meta_rs.project ecXML)
      ["EC"; real_id] ecXML in
  meta_rs.addOutput "Vector" "Predicted Electrical Conductivity"
    (Path.join (getRSDirRel E 1 2 real_id) (Path.basename out_fc))
    (meta_rs.project ecXML) "EC" real_id "PRED" guid2 ecXML.

Definition export_events (doc : Doc.Lineage) (real_id : string)
  : list Event :=
  [Message "Exporting to Riverscapes project...";
   CopiedFile in_fc (abs_fc_path real_id);
   CopiedFile out_fc (abs_out_path real_id);
   WroteLineage rs_xml doc].

Definition after_export (w : World) (x : Doc.Lineage)
    (shp_name real_id : string) (d_in d_out : Dataset) : World :=
  let doc :=
    lineage_doc x (clock E (ticks w)) (uuid E (uuids w))
                (uuid E (S (uuids w))) shp_name real_id in
  {| disk := <[rs_xml := LineageXML doc]>
               (<[abs_out_path real_id := d_out]>
                  (<[abs_fc_path real_id := d_in]> (disk w)));
     inmem := inmem w;
     layers := layers w;
     workspace := "";
     ticks := S (ticks w);
     uuids := S (S (uuids w));
     trace := trace w ++ export_events doc real_id |}.

Lemma export_block_ok (px : option Doc.Lineage) (shp : option string)
    (k : M unit) w w' :
  workspace w = "" ->
  on_disk in_fc -> on_disk out_fc -> on_disk rs_xml ->
  (forall x real_id,
      px = Some x -> Doc.realIDdict x !! rs_real_name E = Some real_id ->
      on_disk (abs_fc_path real_id) /\ on_disk (abs_out_path real_id)) ->
  (forall x, px = Some x -> Doc.px_path x = rs_xml) ->
  ((arcpy.AddMessage "Exporting to Riverscapes project..." ;;;
    projectXML <- read_local "projectXML" px ;;
    real_id <- dict_getitem (Doc.realIDdict projectXML) (rs_real_name E) ;;
    let abs_fc_path :=
      Path.join (getRSDirAbs E rs_dir 1 0 real_id) (Path.basename in_fc) in
    let abs_out_path :=
      Path.join (getRSDirAbs E rs_dir 1 2 real_id) (Path.basename out_fc) in
    rs.copyRSFiles in_fc abs_fc_path ;;;
    rs.copyRSFiles out_fc abs_out_path ;;;
    let rel_dir := getRSDirRel E 1 0 real_id in
    in_shp_name <- read_local "in_shp_name" shp ;;
    let rel_fc_path := Path.join rel_dir in_shp_name in
    let rel_out_path :=
      Path.join (getRSDirRel E 1 2 real_id) (Path.basename out_fc) in
    metadata E projectXML rel_fc_path rel_out_path real_id) ;;; k) w
  = (Ok tt, w') ->
  exists x shp_name real_id d_in d_out,
    px = Some x /\ shp = Some shp_name
    /\ Doc.realIDdict x !! rs_real_name E = Some real_id
    /\ disk w !! in_fc = Some d_in
    /\ <[abs_fc_path real_id := d_in]> (disk w) !! out_fc = Some d_out
    /\ k (after_export w x shp_name real_id d_in d_out) = (Ok tt, w').
Proof.
  intros Hw Di Do Dx Dabs Hpx H. unfold on_disk in *.
  step_ok H H0.
  step_ok H0 H1. unfold arcpy.AddMessage, log in H1. simplify_eq.
  world_simpl.
  step_ok H0 H1. destruct px as [x|]; [|discriminate].
  unfold read_local, ret in H1. injection H1 as <- <-.
  step_ok H0 H1. unfold dict_getitem in H1.
  destruct (Doc.realIDdict x !! rs_real_name E) as [real_id|] eqn:Hreal;
    [|discriminate].
  unfold ret in H1. injection H1 as <- <-.
  destruct (Dabs x real_id eq_refl Hreal) as [Da1 Da2].
  unfold abs_fc_path, abs_out_path in *.
  step_ok H0 H1. unfold rs.copyRSFiles in H1. world_simpl.
  rewrite ?Hw, !locate_in_unset, Di, Da1 in H1.
  destruct (disk w !! in_fc) as [d_in|] eqn:Hdin; [|discriminate].
  simplify_eq. world_simpl.
  step_ok H0 H1. unfold rs.copyRSFiles in H1. world_simpl.
  rewrite ?Hw, !locate_in_unset, Do, Da2 in H1.
  destruct (_ !! out_fc) as [d_out|] eqn:Hdout in H1; [|discriminate].
  simplify_eq. world_simpl.
  step_ok H0 H1. destruct shp as [shp_name|]; [|discriminate].
  unfold read_local, ret in H1. injection H1 as <- <-.
  unfold metadata in H0.
  step_ok H0 H1.
  unfold meta_rs.finalize, time.now, bind, ret in H1. simplify_eq.
  world_simpl.
  step_ok H0 H1. unfold meta_rs.getUUID in H1. simplify_eq. world_simpl.
  step_ok H0 H1. unfold meta_rs.getUUID in H1. simplify_eq. world_simpl.
  unfold meta_rs.write in H0. world_simpl.
  cbn [Doc.px_path meta_rs.addOutput meta_rs.addMeta meta_rs.add_tag
       meta_rs.addRealizationInputRef meta_rs.addRealizationInputData
       meta_rs.getOperator] in H0.
  rewrite (Hpx x eq_refl), ?Hw, locate_in_unset, Dx in H0.
  simplify_eq.
  exists x, shp_name, real_id, d_in, d_out. repeat split; auto.
  rewrite <- H. f_equal. unfold after_export, export_events.
  unfold abs_fc_path, abs_out_path, lineage_doc. cbv zeta.
  cbn [Doc.px_path meta_rs.addOutput meta_rs.addMeta meta_rs.add_tag
       meta_rs.addRealizationInputRef meta_rs.addRealizationInputData
       meta_rs.getOperator].
  world_simpl. rewrite ?Hw, ?(Hpx x eq_refl).
  f_equal; rewrite <- ?app_assoc; reflexivity.
Qed.

(** *** The clean-up block: lines 207-211 *)

Definition complete_message : string :=
  "Conductivity prediction process complete!".

Definition cleanup_events (m : gmap string Dataset) : list Event :=
  (clear_events m
   ++ [Tool "Delete" [dbf_path]; Tool "Delete" [csv_path];
       Message complete_message])%list.

Definition after_cleanup (w : World) : World :=
  {| disk := delete csv_path (delete dbf_path (disk w));
     inmem := cleared (inmem w);
     layers := layers w;
     workspace := "IN_MEMORY";
     ticks := ticks w;
     uuids := uuids w;
     trace := trace w ++ cleanup_events (inmem w) |}.

Lemma cleanup_block_ok w w' :
  layers w = scratch_layer_map ->
  inmem_names_ok w ->
  on_disk csv_path -> on_disk dbf_path ->
  (clear_inmemory ;;;
   arcpy.Delete_management (Path.dirname out_fc ++ "\predicted_cond.dbf") ;;;
   arcpy.Delete_management (Path.dirname out_fc ++ "\predicted_cond.csv") ;;;
   arcpy.AddMessage "Conductivity prediction process complete!") w
  = (Ok tt, w') ->
  is_Some (disk w !! dbf_path)
  /\ is_Some (delete dbf_path (disk w) !! csv_path)
  /\ w' = after_cleanup w.
Proof.
  intros Hl Hn Dc Dd H. unfold on_disk, csv_path, dbf_path, out_dir in *.
  assert (Hlook : forall s, Path.has_sep s = true -> layers w !! s = None).
  { intros s Hs. rewrite Hl. unfold scratch_layer_map.
    rewrite !(path_lookup_scratch s) by (auto; simpl; tauto).
    apply lookup_empty. }
  step_ok H H1.
  rewrite clear_inmemory_run in H1.
  2:{ intros n Hsome. destruct (Hn n Hsome) as [Hsep Hnot].
      split; [exact Hsep|]. rewrite Hl. unfold scratch_layer_map.
      rewrite !lookup_insert_ne, lookup_empty; [reflexivity| | |];
        intros <-; apply Hnot; simpl; tauto. }
  simplify_eq. world_simpl.
  step_ok H H1. unfold arcpy.Delete_management in H1. world_simpl.
  rewrite Hlook, locate_in_path, Dd in H1 by apply has_sep_app_sep.
  destruct (disk w !! _) as [ddbf|] eqn:Hdbf in H1; [|discriminate].
  simplify_eq. world_simpl.
  step_ok H H1. unfold arcpy.Delete_management in H1. world_simpl.
  rewrite Hlook, locate_in_path, Dc in H1 by apply has_sep_app_sep.
  destruct (_ !! _) as [dcsv|] eqn:Hcsv in H1; [|discriminate].
  simplify_eq. world_simpl.
  unfold arcpy.AddMessage, log in H. world_simpl. injection H as <-.
  split; [eauto|]. split; [eauto|].
  unfold after_cleanup, cleanup_events, csv_path, dbf_path, out_dir,
    complete_message.
  f_equal; rewrite <- ?app_assoc; reflexivity.
Qed.

(** *** A whole successful run *)

Definition start_events : list Event :=
  [Message "Predicting conductivity using Random Forest model in R...";
   GcEnable; Spawn r_command; Waited].

(** The clock readings taken before the metadata run is finalized: one
    for the file name, one by [createRun], and one by the project object
    in project mode. *)
Definition join_ticks (w : World) : nat :=
  if String.eqb rs_bool "true" then S (S (S (ticks w)))
  else S (S (ticks w)).

Definition run_params (w : World) : list (string * string) :=
  [("Stream network polyline feature class", in_fc);
   ("Environmental parameter table", in_params);
   ("Predicted conductivity feature class", out_fc);
   ("Output metadata XML", xml_path w)].

(** The run-metadata document as it is written. *)
Definition run_doc (w : World) : Doc.Writer :=
  Doc.mkWriter "Predict Conductivity" "0.4"
    (Some (Doc.mkRun (run_params w) (clock E (S (ticks w)))
                     (Some (clock E (join_ticks w))) (Some "Success"))).

Definition after_start (w : World) : World :=
  {| disk := disk_after_R w; inmem := inmem w; layers := layers w;
     workspace := workspace w; ticks := join_ticks w; uuids := uuids w;
     trace := trace w ++ start_events |}.

Definition after_meta (w : World) (t_in pt : Table) : World :=
  let wj := after_join (after_start w) t_in pt in
  {| disk := <[xml_path w := MetaXML (run_doc w)]> (disk wj);
     inmem := inmem wj; layers := layers wj; workspace := "";
     ticks := S (join_ticks w); uuids := uuids w;
     trace := trace wj ++ [WroteMetadata (xml_path w) (run_doc w)] |}.

Definition project_object (w : World) : Doc.Lineage :=
  Doc.mkLineage "predict" rs_xml (project_realizations E)
                (clock E (S (S (ticks w)))) [].

Lemma inmem_names_ok_after_join w t :
  inmem_names_ok w ->
  forall n, is_Some (<["in_fc_tmp" := t]> (inmem w) !! n) ->
            Path.has_sep n = false /\ ~ In n scratch_layers.
Proof.
  intros Hok n Hn. destruct (decide (n = "in_fc_tmp")) as [->|Hne].
  - split; [reflexivity|]. intros [H|[H|[H|[]]]]; discriminate.
  - rewrite lookup_insert_ne in Hn by congruence. now apply Hok.
Qed.

Lemma main_ok_inv w w' :
  sane w ->
  main E in_fc in_params out_fc rs_bool rs_dir w = (Ok tt, w') ->
  exists ty dcsv pt t_in,
    workspaceType E (Path.dirname in_fc) = Some ty
    /\ disk_after_R w !! csv_path = Some dcsv /\ as_table dcsv = Some pt
    /\ <[dbf_path := DbfTable pt]> (disk_after_R w) !! in_fc
       = Some (FeatureClass t_in)
    /\ arcpy.has_field t_in "LineOID" = true
    /\ arcpy.has_field pt "LineOID" = true
    /\ ((String.eqb rs_bool "true" = false
         /\ w' = after_cleanup (after_meta w t_in pt))
        \/ (String.eqb rs_bool "true" = true /\ ty = "LocalDatabase"
            /\ exists real_id d_in d_out,
                project_realizations E !! rs_real_name E = Some real_id
                /\ disk (after_meta w t_in pt) !! in_fc = Some d_in
                /\ <[abs_fc_path real_id := d_in]>
                     (disk (after_meta w t_in pt)) !! out_fc = Some d_out
                /\ w' = after_cleanup
                          (after_export (after_meta w t_in pt)
                             (project_object w)
                             (Path.basename in_fc ++ ".shp") real_id
                             d_in d_out))).
Proof.
  intros S H. unfold main in H.
  pose proof (sane_layers w S) as Hl. pose proof (sane_workspace w S) as Hw.
  pose proof (sane_xml w S) as Dx.
  unfold on_disk, xml_path, xml_name, out_dir in Dx.
  (* the prelude *)
  step_ok H H1.
  unfold arcpy.Describe_workspaceType in H1.
  destruct (workspaceType E (Path.dirname in_fc)) as [ty|] eqn:Hty;
    [|discriminate].
  unfold ret in H1. injection H1 as <- <-.
  step_ok H H1.
  unfold time.strftime, time.now, bind, ret in H1. simplify_eq.
  step_ok H H1.
  unfold meta_sfr.createRun, time.now, bind, ret in H1. simplify_eq.
  world_simpl.
  step_ok H H1.
  rewrite checkLineOID_run in H1.
  destruct (arcpy.table_at _ in_fc) as [t0|] eqn:Ht0 in H1; [|discriminate].
  simplify_eq.
  destruct (py_eq_True _) eqn:Hok in H.
  2:{ step_ok H H1. discriminate. }
  clear Hok Ht0.
  step_ok H H1. unfold arcpy.AddMessage, log in H1. simplify_eq.
  world_simpl.
  step_ok H H1. unfold gc.enable, log in H1. simplify_eq. world_simpl.
  step_ok H H1.
  exists ty.
  destruct (String.eqb rs_bool "true") eqn:Hrs.
  all: cycle 0.
  - (* project mode *)
    step_ok H1 H2.
    unfold meta_rs.ProjectXML, time.now, bind, ret in H2. simplify_eq.
    world_simpl. unfold ret in H1. simplify_eq.
    step_ok H H1. unfold subprocess.Popen in H1. simplify_eq. world_simpl.
    step_ok H H1. unfold subprocess.wait in H1. simplify_eq. world_simpl.
    cbn [subprocess.args app] in H.
    apply join_block_ok in H
      as (dcsv & pt & t_in & Hcsv & Hpt & Hin & Hh1 & Hh2 & H);
      try solve [apply S | assumption].
    exists dcsv, pt, t_in. split; [reflexivity|]. split; [exact Hcsv|]. split; [exact Hpt|]. split; [exact Hin|].
    split; [exact Hh1|]. split; [exact Hh2|]. right.
    unfold after_join in H. world_simpl.
    step_ok H H1.
    unfold meta_sfr.finalizeRun, time.now, bind, ret in H1. simplify_eq.
    world_simpl.
    step_ok H H1. unfold meta_sfr.writeMetadataFile in H1. world_simpl.
    rewrite locate_in_unset, Dx in H1. simplify_eq.
    apply export_block_ok in H
      as (x & shp_name & real_id & d_in & d_out & Hx & Hshp & Hreal & Hdin
          & Hdout & H);
      try solve [apply S | reflexivity].
    2:{ pose proof (sane_project w S (proj1 (String.eqb_eq _ _) Hrs)) as Hp.
        destruct (project_realizations E !! rs_real_name E) as [rid|] eqn:Hr.
        - apply (Hp rid eq_refl).
        - exfalso. step_ok H H1. step_ok H1 H2.
          step_ok H1 H3. unfold read_local, ret in H3. simplify_eq.
          step_ok H1 H3. unfold dict_getitem in H3. cbn [Doc.realIDdict] in H3.
          rewrite Hr in H3. discriminate. }
    2:{ intros x real_id Hx Hreal. injection Hx as <-.
        destruct (sane_project w S (proj1 (String.eqb_eq _ _) Hrs)
                    real_id Hreal) as (? & ? & ?). auto. }
    2:{ intros x Hx. injection Hx as <-. reflexivity. }
    injection Hx as <-.
    destruct (String.eqb ty "LocalDatabase") eqn:Hloc; [|discriminate].
    injection Hshp as <-. apply String.eqb_eq in Hloc.
    split; [reflexivity|]. split; [exact Hloc|].
    exists real_id, d_in, d_out.
    apply cleanup_block_ok in H as (_ & _ & ->);
      try solve [apply S | reflexivity].
    2:{ intros n Hn.
        eapply (inmem_names_ok_after_join w); [apply S | exact Hn]. }
    split; [exact Hreal|].
    unfold after_meta, after_join, after_start, run_doc, run_params,
      xml_path, xml_name, project_object, disk_after_R, r_command,
      start_events, join_ticks, out_dir in *.
    rewrite Hrs in *. world_simpl. rewrite ?Hl, ?Hw in *.
    split; [exact Hdin|]. split; [exact Hdout|].
    f_equal. unfold after_export. world_simpl.
    f_equal; rewrite <- ?app_assoc; reflexivity.
  - (* project mode off *)
    unfold ret in H1. simplify_eq.
    step_ok H H1. unfold subprocess.Popen in H1. simplify_eq. world_simpl.
    step_ok H H1. unfold subprocess.wait in H1. simplify_eq. world_simpl.
    cbn [subprocess.args app] in H.
    apply join_block_ok in H
      as (dcsv & pt & t_in & Hcsv & Hpt & Hin & Hh1 & Hh2 & H);
      try solve [apply S | assumption].
    exists dcsv, pt, t_in. split; [reflexivity|]. split; [exact Hcsv|]. split; [exact Hpt|]. split; [exact Hin|].
    split; [exact Hh1|]. split; [exact Hh2|]. left.
    split; [reflexivity|].
    unfold after_join in H. world_simpl.
    step_ok H H1.
    unfold meta_sfr.finalizeRun, time.now, bind, ret in H1. simplify_eq.
    world_simpl.
    step_ok H H1. unfold meta_sfr.writeMetadataFile in H1. world_simpl.
    rewrite locate_in_unset, Dx in H1. simplify_eq.
    step_ok H H1. unfold ret in H1. simplify_eq.
    apply cleanup_block_ok in H as (_ & _ & ->);
      try solve [apply S | reflexivity].
    2:{ intros n Hn.
        eapply (inmem_names_ok_after_join w); [apply S | exact Hn]. }
    unfold after_meta, after_join, after_start, run_doc, run_params,
      xml_path, xml_name, disk_after_R, r_command, start_events,
      join_ticks, out_dir.
    rewrite Hrs. world_simpl. rewrite ?Hl, ?Hw.
    f_equal. f_equal; rewrite <- ?app_assoc; reflexivity.
Qed.

(** *** The output feature class at the end of a successful run *)

(** The paths the run writes or deletes after it has written the output
    feature class. *)
Definition later_targets (w : World) : list string :=
  xml_path w :: dbf_path :: csv_path
  :: (if String.eqb rs_bool "true" then
        match project_realizations E !! rs_real_name E with
        | Some real_id =>
            [abs_fc_path real_id; abs_out_path real_id; rs_xml]
        | None => []
        end
      else []).

Lemma output_at_end w w' :
  sane w ->
  ~ In out_fc (later_targets w) ->
  main E in_fc in_params out_fc rs_bool rs_dir w = (Ok tt, w') ->
  exists dcsv pt t_in,
    disk_after_R w !! csv_path = Some dcsv /\ as_table dcsv = Some pt
    /\ <[dbf_path := DbfTable pt]> (disk_after_R w) !! in_fc
       = Some (FeatureClass t_in)
    /\ arcpy.has_field t_in "LineOID" = true
    /\ arcpy.has_field pt "LineOID" = true
    /\ disk w' !! out_fc = Some (FeatureClass (final_table t_in pt)).
Proof.
  intros S Hnot H.
  destruct (main_ok_inv w w' S H)
    as (ty & dcsv & pt & t_in & Hty & Hcsv & Hpt & Hin & Hh1 & Hh2 & Hw').
  exists dcsv, pt, t_in. do 5 (split; [assumption|]).
  unfold later_targets in Hnot.
  assert (Hx : out_fc <> xml_path w) by (intros Heq; apply Hnot; now left).
  assert (Hd : out_fc <> dbf_path)
    by (intros Heq; apply Hnot; right; now left).
  assert (Hc : out_fc <> csv_path)
    by (intros Heq; apply Hnot; right; right; now left).
  destruct Hw' as [[Hrs ->] | (Hrs & _ & real_id & d_in & d_out & Hreal
                               & _ & _ & ->)].
  - unfold after_cleanup, after_meta, after_join. world_simpl.
    rewrite !lookup_delete_ne, lookup_insert_ne, lookup_insert_eq
      by congruence.
    reflexivity.
  - rewrite Hrs, Hreal in Hnot.
    unfold after_cleanup, after_export, after_meta, after_join. world_simpl.
    rewrite !lookup_delete_ne by congruence.
    do 4 (rewrite lookup_insert_ne;
          [|intros Heq; apply Hnot; rewrite <- Heq; simpl; tauto]).
    apply lookup_insert_eq.
Qed.

(** *** The run metadata written by a successful run *)

Lemma cleanup_events_quiet m :
  metadata_writes (cleanup_events m) = []
  /\ lineage_writes (cleanup_events m) = []
  /\ project_copies (cleanup_events m) = [].
Proof.
  unfold cleanup_events.
  rewrite metadata_writes_app, lineage_writes_app, project_copies_app.
  destruct (clear_events_quiet m) as (-> & -> & ->). auto.
Qed.

(** *** What a successful run leaves behind *)



End Run.

(** ** Which fields [removeFields] keeps *)

Definition kept (f : Field) : bool :=
  (String.eqb (f_type f) "Geometry" || String.eqb (f_type f) "OID"
   || String.eqb (f_name f) "LineOID" || String.eqb (f_name f) "error_code"
   || String.eqb (f_name f) "prdCond")%bool.

Lemma removeFields_loop_spec fs : forall acc,
  removeFields_loop fs acc
  = (acc ++ map f_name (List.filter (fun f => negb (kept f)) fs))%list.
Proof.
  induction fs as [|f fs IH]; intros acc; simpl.
  - now rewrite app_nil_r.
  - unfold kept at 1. rewrite !negb_orb.
    destruct (negb _ && negb _ && negb _ && negb _ && negb _)%bool; simpl.
    + rewrite IH, <- app_assoc. reflexivity.
    + apply IH.
Qed.

Lemma taken_In names s : arcpy.taken names s = true <-> In s names.
Proof.
  unfold arcpy.taken. rewrite existsb_exists. split.
  - intros (x & Hin & Heq). apply String.eqb_eq in Heq. now subst.
  - intros Hin. exists s. split; [exact Hin | apply String.eqb_refl].
Qed.


(** ** The join *)

Lemma to_uint_nonnil n : Nat.to_uint n <> Decimal.Nil.
Proof.
  intros H. pose proof (DecimalNat.Unsigned.to_of (Nat.to_uint n)) as Hn.
  rewrite DecimalNat.Unsigned.of_to, H in Hn. discriminate.
Qed.

Lemma dec_inj a b : Path.dec a = Path.dec b -> a = b.
Proof.
  unfold Path.dec. intros H.
  apply DecimalNat.Unsigned.to_uint_inj.
  assert (Some (Nat.to_uint a) = Some (Nat.to_uint b)) as [= Heq]; [|exact Heq].
  rewrite <- (NilZero.usu _ (to_uint_nonnil a)),
          <- (NilZero.usu _ (to_uint_nonnil b)).
  now rewrite H.
Qed.

Lemma append_inj_r (p x y : string) : p ++ x = p ++ y -> x = y.
Proof.
  induction p as [|c p IH]; simpl; [trivial|].
  intros [= H]. now apply IH.
Qed.

Lemma suffixed_inj name a b :
  arcpy.suffixed name a = arcpy.suffixed name b -> a = b.
Proof.
  unfold arcpy.suffixed. intros H. apply append_inj_r in H.
  injection H as H. now apply dec_inj.
Qed.

(** Among [length used + 1] distinct candidates one is free, so the search
    of [unique_name] never comes back empty-handed. *)
Lemma unique_name_fresh used name :
  arcpy.taken used (arcpy.unique_name used name) = false.
Proof.
  unfold arcpy.unique_name.
  destruct (arcpy.taken used name) eqn:Ht; [|exact Ht].
  destruct (List.find _ _) as [k|] eqn:Hf.
  - apply find_some in Hf as [_ Hk]. now apply negb_true_iff in Hk.
  - exfalso.
    pose proof (find_none _ _ Hf) as Hall.
    assert (Hincl : incl (map (arcpy.suffixed name) (seq 1 (S (length used))))
                         used).
    { intros c Hc. apply in_map_iff in Hc as (k & <- & Hk).
      specialize (Hall k Hk). apply negb_false_iff in Hall.
      now apply taken_In. }
    assert (Hnd : List.NoDup (map (arcpy.suffixed name)
                                  (seq 1 (S (length used))))).
    { apply Finite.Injective_map_NoDup; [|apply List.seq_NoDup].
      intros a b. apply suffixed_inj. }
    pose proof (List.NoDup_incl_length Hnd Hincl) as Hlen.
    rewrite length_map, length_seq in Hlen. lia.
Qed.

Fixpoint has_underscore (s : string) : bool :=
  match s with
  | EmptyString => false
  | String c s' => (Ascii.eqb c "_" || has_underscore s')%bool
  end.

Lemma has_underscore_suffixed name k :
  has_underscore (arcpy.suffixed name k) = true.
Proof.
  unfold arcpy.suffixed. induction name as [|c name IH]; simpl.
  - reflexivity.
  - rewrite IH. apply orb_true_r.
Qed.

(** A joined field gets its own name or a name with an underscore. *)
Lemma unique_name_cases used name :
  arcpy.unique_name used name = name
  \/ has_underscore (arcpy.unique_name used name) = true.
Proof.
  unfold arcpy.unique_name. destruct (arcpy.taken used name); [|now left].
  destruct (List.find _ _); [right; apply has_underscore_suffixed | now left].
Qed.

Lemma join_names_fresh fs : forall used f n,
  In (f, n) (arcpy.join_names used fs) -> ~ In n used.
Proof.
  induction fs as [|g fs IH]; intros used f n; simpl; [tauto|].
  intros [[= <- <-]|Hin].
  - intros Hin. apply taken_In in Hin. now rewrite unique_name_fresh in Hin.
  - intros Hu. apply (IH _ _ _ Hin). now right.
Qed.

(** The first field of the join table named [name] keeps its name when the
    input has no field of that name and the name has no underscore. *)
Lemma join_names_keeps name fs : forall used,
  has_underscore name = false ->
  ~ In name used ->
  (exists f, In f fs /\ f_name f = name) ->
  exists f pre post,
    arcpy.join_names used fs = (pre ++ (f, name) :: post)%list
    /\ f_name f = name /\ In f fs
    /\ forall g n, In (g, n) pre -> n <> name.
Proof.
  intros used Hu. revert used.
  induction fs as [|g fs IH]; intros used Hnot (f & Hin & Hname).
  - destruct Hin.
  - simpl. destruct (String.eqb (f_name g) name) eqn:Hg.
    + apply String.eqb_eq in Hg. exists g, [], (arcpy.join_names
        (arcpy.unique_name used (f_name g) :: used) fs).
      assert (Hun : arcpy.unique_name used (f_name g) = name).
      { unfold arcpy.unique_name.
        destruct (arcpy.taken used (f_name g)) eqn:Ht; [|exact Hg].
        apply taken_In in Ht. rewrite Hg in Ht. contradiction. }
      rewrite Hun. repeat split; auto; try (intros ? ? []).
    + apply String.eqb_neq in Hg.
      assert (Hn : arcpy.unique_name used (f_name g) <> name).
      { destruct (unique_name_cases used (f_name g)) as [-> | Hh]; [exact Hg|].
        intros Heq. rewrite Heq in Hh. congruence. }
      destruct Hin as [-> | Hin]; [congruence|].
      destruct (IH (arcpy.unique_name used (f_name g) :: used))
        as (f' & pre & post & Heq & Hf' & Hinf & Hpre).
      * intros [H|H]; [contradiction | contradiction].
      * eauto.
      * exists f', ((g, arcpy.unique_name used (f_name g)) :: pre), post.
        rewrite Heq. repeat split; auto.
        intros g' n [[= <- <-]|Hin']; [exact Hn | eauto].
Qed.

(** Reading a joined row. *)
Lemma foldr_insert_other (names : list (Field * string))
    (val : Field -> Value) (r : gmap string Value) k :
  (forall g n, In (g, n) names -> n <> k) ->
  foldr (fun fn acc => <[snd fn := val (fst fn)]> acc) r names !! k = r !! k.
Proof.
  induction names as [|[g n] names IH]; intros Hall; simpl; [reflexivity|].
  rewrite lookup_insert_ne by (apply (Hall g n); now left).
  apply IH. intros g' n' Hin. apply (Hall g' n'). now right.
Qed.

Lemma foldr_insert_first (pre post : list (Field * string)) f name
    (val : Field -> Value) (r : gmap string Value) :
  (forall g n, In (g, n) pre -> n <> name) ->
  foldr (fun fn acc => <[snd fn := val (fst fn)]> acc) r
        (pre ++ (f, name) :: post) !! name = Some (val f).
Proof.
  induction pre as [|[g n] pre IH]; intros Hall; simpl.
  - apply lookup_insert_eq.
  - rewrite lookup_insert_ne by (apply (Hall g n); now left).
    apply IH. intros g' n' Hin. apply (Hall g' n'). now right.
Qed.

Lemma row_get_filter (P : string -> bool) (r : gmap string Value) k :
  P k = true ->
  row_get (filter (fun kv : string * Value => P (fst kv) = true) r) k
  = row_get r k.
Proof.
  intros HP. unfold row_get. rewrite map_lookup_filter.
  destruct (r !! k) as [v|]; simpl; [|reflexivity].
  now rewrite option_guard_True.
Qed.

(** [removeFields] never collects one of the three names it tests for. *)
Lemma dropped_spares_kept_names fs k :
  In k ["LineOID"; "error_code"; "prdCond"] ->
  arcpy.taken (removeFields_loop fs []) k = false.
Proof.
  intros Hk. destruct (arcpy.taken _ k) eqn:Ht; [|reflexivity]. exfalso.
  rewrite removeFields_loop_spec in Ht. cbn [app] in Ht.
  apply taken_In, in_map_iff in Ht as (g & Hname & Hg).
  apply filter_In in Hg as [_ Hg]. apply negb_true_iff in Hg.
  unfold kept in Hg. rewrite Hname in Hg.
  destruct Hk as [<-|[<-|[<-|[]]]]; cbn in Hg;
    rewrite ?orb_true_r in Hg; discriminate.
Qed.

Lemma has_field_In t name :
  arcpy.has_field t name = true <-> In name (field_names t).
Proof. apply taken_In. Qed.

(** What the join does to one row. *)
Lemma join_row_key t_in pt (r : gmap string Value) :
  arcpy.has_field t_in "LineOID" = true ->
  row_get (arcpy.join_row
             (arcpy.join_names (field_names t_in)
                (List.filter arcpy.transferable (t_fields pt)))
             pt "LineOID" "LineOID" r) "LineOID"
  = row_get r "LineOID".
Proof.
  intros Hh. apply has_field_In in Hh.
  assert (Hall : forall g n,
             In (g, n) (arcpy.join_names (field_names t_in)
                          (List.filter arcpy.transferable (t_fields pt))) ->
             n <> "LineOID").
  { intros g n Hin ->. now apply (join_names_fresh _ _ _ _ Hin). }
  unfold arcpy.join_row.
  destruct (arcpy.first_match _ _ _) as [jr|]; unfold row_get at 1.
  - now rewrite (foldr_insert_other _ (fun f => row_get jr (f_name f))).
  - now rewrite (foldr_insert_other _ (fun _ => VNull)).
Qed.

Lemma join_row_prdCond t_in pt (r : gmap string Value) :
  ~ In "prdCond" (field_names t_in) ->
  (exists f, In f (t_fields pt) /\ f_name f = "prdCond"
             /\ arcpy.transferable f = true) ->
  row_get (arcpy.join_row
             (arcpy.join_names (field_names t_in)
                (List.filter arcpy.transferable (t_fields pt)))
             pt "LineOID" "LineOID" r) "prdCond"
  = match arcpy.first_match pt "LineOID" (row_get r "LineOID") with
    | Some jr => row_get jr "prdCond"
    | None => VNull
    end.
Proof.
  intros Hnot (f & Hin & Hname & Htr).
  destruct (join_names_keeps "prdCond"
              (List.filter arcpy.transferable (t_fields pt))
              (field_names t_in) eq_refl Hnot)
    as (f' & pre & post & Heq & Hf' & _ & Hpre).
  { exists f. split; [|exact Hname]. apply filter_In. now split. }
  unfold arcpy.join_row. rewrite Heq.
  destruct (arcpy.first_match _ _ _) as [jr|]; unfold row_get at 1.
  - rewrite (foldr_insert_first pre post f' "prdCond"
               (fun f => row_get jr (f_name f)) r Hpre).
    simpl. now rewrite Hf'.
  - now rewrite (foldr_insert_first pre post f' "prdCond"
                   (fun _ => VNull) r Hpre).
Qed.

(** The rows of the output, one for each row of the input and in the same
    order. *)
Definition output_row (t_in pt : Table) (r : gmap string Value)
  : gmap string Value :=
  filter (fun kv : string * Value =>
            arcpy.taken (removeFields_loop (t_fields (joined t_in pt)) [])
                        (fst kv) = false)
         (arcpy.join_row
            (arcpy.join_names (field_names t_in)
               (List.filter arcpy.transferable (t_fields pt)))
            pt "LineOID" "LineOID" r).

Lemma final_table_rows t_in pt :
  t_rows (final_table t_in pt) = map (output_row t_in pt) (t_rows t_in).
Proof.
  unfold final_table, arcpy.drop_fields, joined, arcpy.join_table.
  cbn [t_rows t_fields]. rewrite map_map. reflexivity.
Qed.

Lemma row_get_filter_not_taken names (r : gmap string Value) k :
  arcpy.taken names k = false ->
  row_get (filter (fun kv : string * Value =>
                     arcpy.taken names (fst kv) = false) r) k
  = row_get r k.
Proof.
  intros HP. unfold row_get. rewrite map_lookup_filter.
  destruct (r !! k) as [v|]; simpl; [|reflexivity].
  now rewrite option_guard_True.
Qed.

Lemma output_row_key t_in pt r :
  arcpy.has_field t_in "LineOID" = true ->
  row_get (output_row t_in pt r) "LineOID" = row_get r "LineOID".
Proof.
  intros Hh. unfold output_row.
  rewrite row_get_filter_not_taken
    by (apply dropped_spares_kept_names; simpl; tauto).
  now apply join_row_key.
Qed.

Lemma output_row_prdCond t_in pt r :
  ~ In "prdCond" (field_names t_in) ->
  (exists f, In f (t_fields pt) /\ f_name f = "prdCond"
             /\ arcpy.transferable f = true) ->
  row_get (output_row t_in pt r) "prdCond"
  = match arcpy.first_match pt "LineOID" (row_get r "LineOID") with
    | Some jr => row_get jr "prdCond"
    | None => VNull
    end.
Proof.
  intros Hnot Hex. unfold output_row.
  rewrite row_get_filter_not_taken
    by (apply dropped_spares_kept_names; simpl; tauto).
  now apply join_row_prdCond.
Qed.

(** The first prediction row for a key. *)
Lemma first_match_Some pt key jr :
  arcpy.first_match pt "LineOID" key = Some jr ->
  In jr (t_rows pt) /\ key <> VNull /\ row_get jr "LineOID" = key.
Proof.
  unfold arcpy.first_match. intros H. apply find_some in H as [Hin Hk].
  unfold arcpy.key_match in Hk. apply andb_true_iff in Hk as [Hn He].
  apply negb_true_iff, bool_decide_eq_false_1 in Hn.
  apply bool_decide_eq_true_1 in He. auto.
Qed.

Lemma first_match_None pt key :
  arcpy.first_match pt "LineOID" key = None ->
  key = VNull \/ forall jr, In jr (t_rows pt) -> row_get jr "LineOID" <> key.
Proof.
  unfold arcpy.first_match. intros H.
  destruct (decide (key = VNull)) as [->|Hn]; [now left|]. right.
  intros jr Hin Heq. pose proof (find_none _ _ H jr Hin) as Hk.
  unfold arcpy.key_match in Hk.
  rewrite (bool_decide_eq_false_2 _ Hn) in Hk. simpl in Hk.
  rewrite bool_decide_eq_true_2 in Hk by congruence. discriminate.
Qed.

(** ** The scenario satisfies the assumptions *)

Lemma inmem_names_ok_empty w : inmem w = ∅ -> inmem_names_ok w.
Proof.
  intros He n [d Hd]. rewrite He, lookup_empty in Hd. discriminate.
Qed.

Ltac sane_by_computation :=
  constructor;
  [ reflexivity | reflexivity | apply inmem_names_ok_empty; reflexivity
  | reflexivity | reflexivity | reflexivity | reflexivity | reflexivity
  | reflexivity | reflexivity
  | let Hrs := fresh "Hrs" in
    let Hreal := fresh "Hreal" in
    intros Hrs real_id Hreal;
    first [ discriminate Hrs
          | vm_compute in Hreal; injection Hreal as <-;
            repeat split; reflexivity ] ].

(** A shapefile in a folder, project mode off. *)
Lemma scenario_sane_shp fc :
  sane Scenario.env "C:\data\streams.shp" "C:\data\out.shp" "false" "C:\proj"
       (Scenario.world0 "C:\data\streams.shp" fc).
Proof. sane_by_computation. Qed.





(** X15: the join by key.  In a fresh session, when the output path is,
    whatever its spelling, none of the paths written or deleted
    afterwards and the input path is not that of the converted prediction
    table, let the input feature class have no field named prdCond of its
    own and let the prediction table have a prdCond field.  After a
    successful run the output holds one row for each input row, in the same
    order and with the same LineOID; where the prediction table holds just
    one row for that (non-null) key, the output's prdCond is that row's
    prdCond, and where it holds none, the output's prdCond is null. *)
Theorem predicted_value_joined_by_key
    E in_fc in_params out_fc rs_bool rs_dir w w' fc dcsv pt :
  sane E in_fc out_fc rs_bool rs_dir w ->
  apart out_fc (later_targets E in_fc out_fc rs_bool rs_dir w) ->
  apart in_fc [dbf_path out_fc] ->
  main E in_fc in_params out_fc rs_bool rs_dir w = (Ok tt, w') ->
  disk_after_R E in_params out_fc w !! in_fc = Some (FeatureClass fc) ->
  disk_after_R E in_params out_fc w !! csv_path out_fc = Some dcsv ->
  as_table dcsv = Some pt ->
  ~ In "prdCond" (field_names fc) ->
  (exists f, In f (t_fields pt) /\ f_name f = "prdCond"
             /\ arcpy.transferable f = true) ->
  exists out,
    disk w' !! out_fc = Some (FeatureClass out)
    /\ t_rows out = map (output_row fc pt) (t_rows fc)
    /\ forall r, In r (t_rows fc) ->
         row_get (output_row fc pt r) "LineOID" = row_get r "LineOID"
         /\ (forall jr,
               In jr (t_rows pt) -> row_get r "LineOID" <> VNull ->
               row_get jr "LineOID" = row_get r "LineOID" ->
               (forall jr', In jr' (t_rows pt) ->
                            row_get jr' "LineOID" = row_get r "LineOID" ->
                            jr' = jr) ->
               row_get (output_row fc pt r) "prdCond" = row_get jr "prdCond")
         /\ ((forall jr, In jr (t_rows pt) ->
                         row_get jr "LineOID" <> row_get r "LineOID") ->
             row_get (output_row fc pt r) "prdCond" = VNull).
Proof.
  intros S Ha Han H Hfc Hcsv Hpt Hnew Hprd.
  pose proof (apart_not_In _ _ Ha) as Hnot.
  assert (Hne : in_fc <> dbf_path out_fc)
    by (apply (apart_In _ _ _ Han); now left).
  destruct (output_at_end E in_fc in_params out_fc rs_bool rs_dir w w' S Hnot H)
    as (dcsv' & pt' & t_in & Hcsv' & Hpt' & Hin & Hh1 & _ & Hout).
  rewrite Hcsv in Hcsv'. injection Hcsv' as <-.
  rewrite Hpt in Hpt'. injection Hpt' as <-.
  rewrite lookup_insert_ne, Hfc in Hin by congruence. injection Hin as <-.
  exists (final_table fc pt). split; [exact Hout|].
  split; [apply final_table_rows|].
  intros r Hr. split; [now apply output_row_key|].
  rewrite (output_row_prdCond fc pt r Hnew Hprd). split.
  - intros jr Hjr Hnn Hkey Huniq.
    destruct (arcpy.first_match pt "LineOID" (row_get r "LineOID"))
      as [jr0|] eqn:Hm.
    + apply first_match_Some in Hm as (Hin0 & _ & Hk0).
      now rewrite (Huniq jr0 Hin0 Hk0).
    + apply first_match_None in Hm as [Hnull | Hnone]; [contradiction|].
      exfalso. exact (Hnone jr Hjr Hkey).
  - intros Hnone.
    destruct (arcpy.first_match pt "LineOID" (row_get r "LineOID"))
      as [jr0|] eqn:Hm; [|reflexivity].
    apply first_match_Some in Hm as (Hin0 & _ & Hk0).
    exfalso. exact (Hnone jr0 Hin0 Hk0).
Qed.

Lemma predicted_value_joined_by_key_witness :
  exists w' out,
    main Scenario.env "C:\data\streams.shp" "C:\data\params.dbf"
         "C:\data\out.shp" "false" "C:\proj"
         (Scenario.world0 "C:\data\streams.shp" Scenario.streams)
    = (Ok tt, w')
    /\ disk w' !! "C:\data\out.shp" = Some (FeatureClass out)
    /\ t_rows out
       = map (output_row Scenario.streams Scenario.predictions)
             (t_rows Scenario.streams).
Proof.
  pose (w0 := Scenario.world0 "C:\data\streams.shp" Scenario.streams).
  pose (run := main Scenario.env "C:\data\streams.shp" "C:\data\params.dbf"
                    "C:\data\out.shp" "false" "C:\proj" w0).
  assert (Hrun : run = (Ok tt, snd run)) by (vm_compute; reflexivity).
  destruct (predicted_value_joined_by_key Scenario.env
              "C:\data\streams.shp" "C:\data\params.dbf" "C:\data\out.shp"
              "false" "C:\proj" w0 (snd run) Scenario.streams
              (CsvFile Scenario.predictions) Scenario.predictions)
    as (out & Hout & Hrows & _).
  - apply scenario_sane_shp.
  - unfold apart. vm_compute. intros [H|[H|[H|[]]]]; discriminate H.
  - unfold apart. vm_compute. intros [H|[]]; discriminate H.
  - exact Hrun.
  - vm_compute. reflexivity.
  - vm_compute. reflexivity.
  - reflexivity.
  - vm_compute. intros [H|[H|[H|[H|[]]]]]; discriminate H.
  - exists (mkField "prdCond" "Double"). simpl. tauto.
  - exists (snd run), out. split; [exact Hrun|]. split; [exact Hout|].
    exact Hrows.
Defined.

(** C4: an earlier output of the tool used as input again.  The input has
    a prdCond field of its own, so the joined field is named prdCond_1,
    [removeFields] drops it, and the output keeps the stale value 999 of
    the input for the key 1, for which the prediction table holds 101:
    the output's predicted conductivity is not the predicted value, against
    the claim and against the docstring of [main] ("with predicted
    conductivity values joined as new attribute fields"). *)
Theorem C4_stale_prdCond_survives_the_join :
  let w0 := Scenario.world0 "C:\data\streams.shp" Scenario.earlier_output in
  let run := main Scenario.env "C:\data\streams.shp" "C:\data\params.dbf"
                  "C:\data\out.shp" "false" "C:\proj" w0 in
  fst run = Ok tt
  /\ map (fun r => row_get r "LineOID") (t_rows Scenario.earlier_output)
     = [VInt 1]
  /\ map (fun jr => (row_get jr "LineOID", row_get jr "prdCond"))
         (t_rows Scenario.predictions)
     = [(VInt 1, VDouble 101); (VInt 2, VDouble 202)]
  /\ exists out,
       disk (snd run) !! "C:\data\out.shp" = Some (FeatureClass out)
       /\ map (fun r' => (row_get r' "LineOID", row_get r' "prdCond"))
              (t_rows out)
          = [(VInt 1, VDouble 999)].
Proof.
  cbv zeta. split; [vm_compute; reflexivity|].
  split; [vm_compute; reflexivity|].
  split; [vm_compute; reflexivity|].
  exists (final_table Scenario.earlier_output Scenario.predictions).
  split; vm_compute; reflexivity.
Qed.



(** ** What a computation may add to the trace, whatever its outcome *)

Definition emits {A} (P : Event -> Prop) (m : M A) : Prop :=
  forall w r w', m w = (r, w') ->
    exists evs, trace w' = (trace w ++ evs)%list /\ Forall P evs.

Lemma trace_put l d w : trace (put l d w) = trace w.
Proof. destruct l; reflexivity. Qed.

Lemma trace_del l w : trace (del l w) = trace w.
Proof. destruct l; reflexivity. Qed.

Lemma trace_emit e w : trace (emit e w) = (trace w ++ [e])%list.
Proof. reflexivity. Qed.

Section Emits.

Variable P : Event -> Prop.

Lemma emits_ret {A} (a : A) : emits P (ret a).
Proof.
  intros w r w' [= <- <-]. exists []. now rewrite app_nil_r.
Qed.

Lemma emits_raise {A} e : emits P (@raise A e).
Proof.
  intros w r w' [= <- <-]. exists []. now rewrite app_nil_r.
Qed.

Lemma emits_bind {A B} (m : M A) (f : A -> M B) :
  emits P m -> (forall a, emits P (f a)) -> emits P (bind m f).
Proof.
  intros Hm Hf w r w' H.
  apply bind_inv in H as [(a & w1 & H1 & H2) | (e & H1 & ->)].
  - destruct (Hm _ _ _ H1) as (evs1 & E1 & F1).
    destruct (Hf a _ _ _ H2) as (evs2 & E2 & F2).
    exists (evs1 ++ evs2)%list. split.
    + now rewrite E2, E1, app_assoc.
    + now apply Forall_app.
  - exact (Hm _ _ _ H1).
Qed.

Lemma emits_for_each {A} (l : list A) (body : A -> M unit) :
  (forall x, emits P (body x)) -> emits P (for_each l body).
Proof.
  intros Hb. induction l as [|x l IH]; simpl.
  - apply emits_ret.
  - apply emits_bind; auto.
Qed.

Lemma emits_if {A} (b : bool) (m1 m2 : M A) :
  emits P m1 -> emits P m2 -> emits P (if b then m1 else m2).
Proof. now destruct b. Qed.

(** A step that leaves the trace alone or appends one event. *)
Lemma emits_step {A} (m : M A) :
  (forall w r w', m w = (r, w') ->
      trace w' = trace w \/ exists e, trace w' = (trace w ++ [e])%list /\ P e) ->
  emits P m.
Proof.
  intros Hm w r w' H. destruct (Hm _ _ _ H) as [E | (e & E & He)].
  - exists []. now rewrite app_nil_r.
  - exists [e]. split; [exact E | now repeat constructor].
Qed.

End Emits.

Ltac one_step :=
  let w := fresh "w" in let r := fresh "r" in let w' := fresh "w'" in
  let H := fresh "H" in
  apply emits_step; intros w r w' H;
  repeat match type of H with
         | context [match ?x with _ => _ end] => destruct x
         end;
  injection H as <- <-;
  rewrite ?trace_emit, ?trace_put, ?trace_del;
  first [ left; reflexivity
        | right; eexists; split; [reflexivity | solve [eauto | exact I]] ].

Section EmitsPrim.

Variable P : Event -> Prop.

Lemma emits_AddMessage s : P (Message s) -> emits P (arcpy.AddMessage s).
Proof. intros HP. unfold arcpy.AddMessage, log. one_step. Qed.

Lemma emits_AddError s : P (ErrorMessage s) -> emits P (arcpy.AddError s).
Proof. intros HP. unfold arcpy.AddError, log. one_step. Qed.

Lemma emits_gc_enable : P GcEnable -> emits P gc.enable.
Proof. intros HP. unfold gc.enable, log. one_step. Qed.

Lemma emits_Describe E p : emits P (arcpy.Describe_workspaceType E p).
Proof.
  unfold arcpy.Describe_workspaceType.
  destruct (workspaceType E p); [apply emits_ret | apply emits_raise].
Qed.

Lemma emits_now E : emits P (time.now E).
Proof. unfold time.now. one_step. Qed.

Lemma emits_strftime E : emits P (time.strftime E).
Proof.
  unfold time.strftime. apply emits_bind; [apply emits_now|].
  intros; apply emits_ret.
Qed.

Lemma emits_createRun E m : emits P (meta_sfr.createRun E m).
Proof.
  unfold meta_sfr.createRun. apply emits_bind; [apply emits_now|].
  intros; apply emits_ret.
Qed.

Lemma emits_finalizeRun E s m : emits P (meta_sfr.finalizeRun E s m).
Proof.
  unfold meta_sfr.finalizeRun. apply emits_bind; [apply emits_now|].
  intros; apply emits_ret.
Qed.

Lemma emits_ListFields d wc : emits P (arcpy.ListFields d wc).
Proof. unfold arcpy.ListFields. one_step. Qed.

Lemma emits_checkLineOID in_fc : emits P (checkLineOID in_fc).
Proof.
  unfold checkLineOID. apply emits_bind; [apply emits_ListFields|].
  intros; apply emits_ret.
Qed.

Lemma emits_Popen cmd : P (Spawn cmd) -> emits P (subprocess.Popen cmd).
Proof. intros HP. unfold subprocess.Popen. one_step. Qed.

Lemma emits_wait E p : P Waited -> emits P (subprocess.wait E p).
Proof. intros HP. unfold subprocess.wait. one_step. Qed.

Hypothesis tools : forall name args, P (Tool name args).

Lemma emits_TableToTable a b c :
  emits P (arcpy.TableToTable_conversion a b c).
Proof. unfold arcpy.TableToTable_conversion. one_step. Qed.

Lemma emits_MakeTableView a b : emits P (arcpy.MakeTableView_management a b).
Proof. unfold arcpy.MakeTableView_management. one_step. Qed.

Lemma emits_MakeFeatureLayer a b :
  emits P (arcpy.MakeFeatureLayer_management a b).
Proof. unfold arcpy.MakeFeatureLayer_management. one_step. Qed.

Lemma emits_FeatureClassToFeatureClass a b c :
  emits P (arcpy.FeatureClassToFeatureClass_conversion a b c).
Proof. unfold arcpy.FeatureClassToFeatureClass_conversion. one_step. Qed.

Lemma emits_JoinField a b c d : emits P (arcpy.JoinField_management a b c d).
Proof. unfold arcpy.JoinField_management. one_step. Qed.

Lemma emits_CopyFeatures a b : emits P (arcpy.CopyFeatures_management a b).
Proof. unfold arcpy.CopyFeatures_management. one_step. Qed.

Lemma emits_DeleteField a b : emits P (arcpy.DeleteField_management a b).
Proof. unfold arcpy.DeleteField_management. one_step. Qed.

Lemma emits_Delete a : emits P (arcpy.Delete_management a).
Proof. unfold arcpy.Delete_management. one_step. Qed.

Lemma emits_set_workspace ws : emits P (arcpy.set_workspace ws).
Proof. unfold arcpy.set_workspace. one_step. Qed.

Lemma emits_ListFeatureClasses : emits P arcpy.ListFeatureClasses.
Proof. unfold arcpy.ListFeatureClasses. one_step. Qed.

Lemma emits_ListTables : emits P arcpy.ListTables.
Proof. unfold arcpy.ListTables. one_step. Qed.

Hypothesis messages : forall s, P (Message s).

Lemma emits_removeFields out_fc : emits P (removeFields out_fc).
Proof.
  unfold removeFields.
  apply emits_bind; [now apply emits_AddMessage|]. intros _.
  apply emits_bind; [apply emits_ListFields|]. intros fl.
  apply emits_DeleteField.
Qed.

Lemma emits_clear_inmemory : emits P clear_inmemory.
Proof.
  unfold clear_inmemory.
  apply emits_bind; [apply emits_set_workspace|]. intros _.
  apply emits_bind; [now apply emits_AddMessage|]. intros _.
  apply emits_bind; [apply emits_ListFeatureClasses|]. intros fcs.
  apply emits_bind; [apply emits_ListTables|]. intros tbls.
  apply emits_bind; [|intros _];
    apply emits_for_each; intros; apply emits_Delete.
Qed.

Lemma emits_writeMetadataFile path m :
  P (WroteMetadata path m) -> emits P (meta_sfr.writeMetadataFile path m).
Proof. intros HP. unfold meta_sfr.writeMetadataFile. one_step. Qed.

Lemma emits_ProjectXML E a b : emits P (meta_rs.ProjectXML E a b).
Proof.
  unfold meta_rs.ProjectXML. apply emits_bind; [apply emits_now|].
  intros; apply emits_ret.
Qed.

Lemma emits_read_local {A} n (v : option A) : emits P (read_local n v).
Proof. destruct v; [apply emits_ret | apply emits_raise]. Qed.

Lemma emits_dict_getitem d k : emits P (dict_getitem d k).
Proof.
  unfold dict_getitem. destruct (d !! k); [apply emits_ret | apply emits_raise].
Qed.

Lemma emits_copyRSFiles src dst :
  P (CopiedFile src dst) -> emits P (rs.copyRSFiles src dst).
Proof. intros HP. unfold rs.copyRSFiles. one_step. Qed.

Lemma emits_getUUID E : emits P (meta_rs.getUUID E).
Proof. unfold meta_rs.getUUID. one_step. Qed.

Lemma emits_finalize E x : emits P (meta_rs.finalize E x).
Proof.
  unfold meta_rs.finalize. apply emits_bind; [apply emits_now|].
  intros; apply emits_ret.
Qed.

Hypothesis lineage : forall p x, P (WroteLineage p x).

Lemma emits_write x : emits P (meta_rs.write x).
Proof. unfold meta_rs.write. one_step. Qed.

Lemma emits_metadata E x a b c : emits P (metadata E x a b c).
Proof.
  unfold metadata. cbv zeta.
  repeat first [ apply emits_getUUID | apply emits_finalize
               | apply emits_write | apply emits_bind; [|intros ?] ].
Qed.

End EmitsPrim.

Ltac emits_tac :=
  cbv zeta;
  repeat first
    [ apply emits_ret | apply emits_raise
    | apply emits_AddMessage | apply emits_AddError | apply emits_gc_enable
    | apply emits_Describe | apply emits_strftime | apply emits_createRun
    | apply emits_finalizeRun | apply emits_checkLineOID | apply emits_Popen
    | apply emits_wait | apply emits_TableToTable | apply emits_MakeTableView
    | apply emits_MakeFeatureLayer | apply emits_FeatureClassToFeatureClass
    | apply emits_JoinField | apply emits_CopyFeatures
    | apply emits_removeFields | apply emits_clear_inmemory
    | apply emits_Delete | apply emits_writeMetadataFile
    | apply emits_ProjectXML | apply emits_read_local
    | apply emits_dict_getitem | apply emits_copyRSFiles
    | apply emits_now | apply emits_ListFields | apply emits_DeleteField
    | apply emits_metadata
    | apply emits_if
    | apply emits_bind; [ | intros ? ]
    | exact I | intros; exact I ].

(** Events of the project export. *)
Definition project_event (e : Event) : Prop :=
  match e with
  | CopiedFile _ _ | WroteLineage _ _ => True
  | _ => False
  end.

Definition generic_event (e : Event) : Prop :=
  match e with
  | CopiedFile _ _ | WroteLineage _ _ => False
  | _ => True
  end.

Lemma generic_events_quiet evs :
  Forall generic_event evs ->
  lineage_writes evs = [] /\ project_copies evs = [].
Proof.
  induction 1 as [|e evs He _ IH]; [auto|].
  destruct e; simpl in *; tauto.
Qed.


(** ** Project mode with the shapefile name unbound *)

Definition unbound_shp : Exn := UnboundLocalError "in_shp_name".

(** A computation that never returns normally and never writes the lineage
    file, makes at most [k] project copies, and ends in the
    [UnboundLocalError] once it has made all [k] of them. *)
Definition stops_unbound {A} (k : nat) (m : M A) : Prop :=
  forall w r w', m w = (r, w') ->
    exists evs,
      trace w' = (trace w ++ evs)%list
      /\ lineage_writes evs = []
      /\ (length (project_copies evs) <= k)%nat
      /\ (exists e, r = Raise e)
      /\ (length (project_copies evs) = k -> r = Raise unbound_shp).

Lemma stops_unbound_read {A B} (f : A -> M B) :
  stops_unbound 0 (bind (read_local "in_shp_name" None) f).
Proof.
  intros w r w' [= <- <-]. exists []. rewrite app_nil_r.
  repeat split; simpl; eauto.
Qed.

Lemma stops_unbound_copy {A} k src dst (m : M A) :
  stops_unbound k m ->
  stops_unbound (S k) (bind (rs.copyRSFiles src dst) (fun _ => m)).
Proof.
  intros Hm w r w' H.
  apply bind_inv in H as [(a & w1 & H1 & H2) | (e & H1 & ->)].
  - destruct (Hm _ _ _ H2) as (evs & E & Hl & Hc & Hr & Hk).
    unfold rs.copyRSFiles in H1.
    destruct (get _ w) in H1; [|discriminate]. injection H1 as _ <-.
    rewrite trace_emit, trace_put in E.
    exists (CopiedFile src dst :: evs). rewrite <- app_assoc in E.
    repeat split; simpl; auto; lia.
  - unfold rs.copyRSFiles in H1.
    destruct (get _ w) in H1; [discriminate|]. injection H1 as <- <-.
    exists []. rewrite app_nil_r. repeat split; simpl; eauto; lia.
Qed.

Lemma stops_unbound_after {A B} (Q : A -> Prop) k (m : M A) (f : A -> M B) :
  (forall w a w', m w = (Ok a, w') -> Q a) ->
  emits generic_event m ->
  (forall a, Q a -> stops_unbound (S k) (f a)) ->
  stops_unbound (S k) (bind m f).
Proof.
  intros HQ Hm Hf w r w' H.
  apply bind_inv in H as [(a & w1 & H1 & H2) | (e & H1 & ->)].
  - destruct (Hm _ _ _ H1) as (evs1 & E1 & F1).
    destruct (generic_events_quiet _ F1) as [Hl1 Hc1].
    destruct (Hf a (HQ _ _ _ H1) _ _ _ H2) as (evs & E & Hl & Hc & Hr & Hk).
    exists (evs1 ++ evs)%list.
    rewrite lineage_writes_app, project_copies_app, Hl1, Hc1. simpl.
    repeat split; auto. now rewrite E, E1, app_assoc.
  - destruct (Hm _ _ _ H1) as (evs1 & E1 & F1).
    destruct (generic_events_quiet _ F1) as [Hl1 Hc1].
    exists evs1. rewrite Hl1, Hc1. simpl.
    repeat split; eauto; lia.
Qed.

(** The same for a computation that is abandoned part-way. *)
Lemma stops_unbound_bind {A B} k (m : M A) (f : A -> M B) :
  stops_unbound k m -> stops_unbound k (bind m f).
Proof.
  intros Hm w r w' H.
  apply bind_inv in H as [(a & w1 & H1 & H2) | (e & H1 & ->)].
  - destruct (Hm _ _ _ H1) as (_ & _ & _ & _ & (e & He) & _). discriminate.
  - destruct (Hm _ _ _ H1) as (evs & E & Hl & Hc & Hr & Hk).
    exists evs. repeat split; eauto.
    intros Hlen. specialize (Hk Hlen). congruence.
Qed.

Lemma stops_unbound_raise {A B} k (m : M A) e :
  emits generic_event m ->
  stops_unbound (S k) (bind m (fun _ => @raise B e)).
Proof.
  intros Hm w r w' H.
  apply bind_inv in H as [(a & w1 & H1 & H2) | (e' & H1 & ->)].
  - injection H2 as <- <-.
    destruct (Hm _ _ _ H1) as (evs1 & E1 & F1).
    destruct (generic_events_quiet _ F1) as [Hl1 Hc1].
    exists evs1. rewrite Hl1, Hc1. simpl. repeat split; eauto; lia.
  - destruct (Hm _ _ _ H1) as (evs1 & E1 & F1).
    destruct (generic_events_quiet _ F1) as [Hl1 Hc1].
    exists evs1. rewrite Hl1, Hc1. simpl. repeat split; eauto; lia.
Qed.

Lemma Describe_value E p w a w' :
  arcpy.Describe_workspaceType E p w = (Ok a, w') -> workspaceType E p = Some a.
Proof.
  unfold arcpy.Describe_workspaceType.
  destruct (workspaceType E p); [|discriminate]. now intros [= -> _].
Qed.

Lemma main_with_shp_unbound E in_fc in_params out_fc rs_bool rs_dir :
  rs_bool = "true" ->
  workspaceType E (Path.dirname in_fc) <> Some "LocalDatabase" ->
  stops_unbound 2 (main E in_fc in_params out_fc rs_bool rs_dir).
Proof.
  intros -> Hty. unfold main, sys.exit. cbv zeta.
  change (String.eqb "true" "true") with true. cbv iota.
  apply (stops_unbound_after
           (fun a => workspaceType E (Path.dirname in_fc) = Some a));
    [apply Describe_value | emits_tac |].
  intros ty Hsome.
  assert (Hne : String.eqb ty "LocalDatabase" = false).
  { apply String.eqb_neq. intros ->. contradiction. }
  rewrite Hne.
  apply (stops_unbound_after (fun _ => True)); [auto | emits_tac |].
  intros time_stamp _.
  apply (stops_unbound_after (fun _ => True)); [auto | emits_tac |].
  intros mWriter _.
  apply (stops_unbound_after (fun _ => True)); [auto | emits_tac |].
  intros ok _. destruct (py_eq_True ok).
  2:{ apply stops_unbound_raise. emits_tac. }
  repeat first
    [ apply stops_unbound_read
    | apply stops_unbound_copy
    | apply (stops_unbound_after (fun _ => True));
      [auto | solve [emits_tac] | intros ? _]
    | apply stops_unbound_bind ].
Qed.



Lemma main_ignores_returncode rc E in_fc in_params out_fc rs_bool rs_dir w :
  main (with_returncode rc E) in_fc in_params out_fc rs_bool rs_dir w
  = main E in_fc in_params out_fc rs_bool rs_dir w.
Proof. reflexivity. Qed.

(** ** The model invoker: lines 156-174 *)

Definition any_event (e : Event) : Prop := True.

Lemma checkLineOID_at_check in_fc w v :
  fst (checkLineOID in_fc w) = Ok v ->
  checkLineOID in_fc (at_check w) = (Ok v, at_check w).
Proof.
  rewrite !checkLineOID_run, table_at_at_check.
  destruct (arcpy.table_at w in_fc); simpl; [|discriminate].
  now intros [= ->].
Qed.

(** A run that passes the join-key check gets to the table conversion
    in the world [after_start]. *)
Lemma main_start E in_fc in_params out_fc rs_bool rs_dir w ty r w' :
  workspaceType E (Path.dirname in_fc) = Some ty ->
  fst (checkLineOID in_fc w) = Ok (PyBool true) ->
  main E in_fc in_params out_fc rs_bool rs_dir w = (r, w') ->
  exists rest : unit -> M unit,
    bind (arcpy.TableToTable_conversion (csv_path out_fc) (out_dir out_fc)
            "predicted_cond.dbf") rest
         (after_start E in_params out_fc rs_bool w) = (r, w')
    /\ forall u, emits any_event (rest u).
Proof.
  intros Hty Hc H. apply checkLineOID_at_check in Hc.
  unfold main in H.
  erewrite bind_ok_eq in H
    by (unfold arcpy.Describe_workspaceType; rewrite Hty; reflexivity).
  erewrite bind_ok_eq in H by reflexivity.
  erewrite bind_ok_eq in H by reflexivity.
  erewrite bind_ok_eq in H by exact Hc.
  change (py_eq_True (PyBool true)) with true in H. cbv iota in H.
  do 2 (erewrite bind_ok_eq in H by reflexivity).
  unfold after_start, join_ticks, start_events, disk_after_R, r_command.
  destruct (String.eqb rs_bool "true") eqn:Hrs;
    do 3 (erewrite bind_ok_eq in H by reflexivity);
    unfold at_check in H; world_simpl; cbn [subprocess.args] in H;
    rewrite <- !app_assoc in H; cbn [app] in H;
    match type of H with bind _ ?f _ = _ => exists f end;
    (split; [exact H|]); intros _; unfold any_event; emits_tac.
Qed.

(** C5: a run that passes the join-key check starts the external process
    on a command line whose three arguments after the script are the
    trained-model path, the output directory and the parameter table, in
    this order, and waits for it before doing anything else; the outcome
    of the run is the same whatever return code the process hands back;
    when "predicted_cond.csv" is not in the output directory afterwards,
    the run ends there, in the error of the table conversion, and when
    it is, the table conversion goes through. *)
Theorem C5_model_invoker_waits_and_ignores_return_code
    E in_fc in_params out_fc rs_bool rs_dir w ty r w' :
  workspaceType E (Path.dirname in_fc) = Some ty ->
  fst (checkLineOID in_fc w) = Ok (PyBool true) ->
  main E in_fc in_params out_fc rs_bool rs_dir w = (r, w') ->
  (exists evs,
      trace w'
      = (trace w
         ++ [Message
               "Predicting conductivity using Random Forest model in R...";
             GcEnable;
             Spawn ["Rscript";
                    Path.join (Path.dirname (script_file E)) "condRF.R";
                    Path.join (Path.dirname (script_file E))
                              "rf17bCnd9.rdata";
                    Path.dirname out_fc;
                    in_params];
             Waited]
         ++ evs)%list)
  /\ (forall rc,
         main (with_returncode rc E) in_fc in_params out_fc rs_bool rs_dir w
         = (r, w'))
  /\ (arcpy.table_at (after_start E in_params out_fc rs_bool w)
                     (csv_path out_fc) = None ->
      r = Raise (ExecuteError "TableToTable" (csv_path out_fc))
      /\ trace w' = (trace w ++ start_events E in_params out_fc)%list)
  /\ (is_Some (arcpy.table_at (after_start E in_params out_fc rs_bool w)
                 (csv_path out_fc)) ->
      exists evs,
        trace w'
        = (trace w ++ start_events E in_params out_fc
           ++ Tool "TableToTable"
                [csv_path out_fc; Path.dirname out_fc; "predicted_cond.dbf"]
           :: evs)%list).
Proof.
  intros Hty Hc H.
  destruct (main_start _ _ _ _ _ _ _ _ _ _ Hty Hc H) as (rest & Hrun & Hrest).
  assert (Hcases :
    match arcpy.table_at (after_start E in_params out_fc rs_bool w)
            (csv_path out_fc) with
    | None => r = Raise (ExecuteError "TableToTable" (csv_path out_fc))
              /\ trace w' = (trace w ++ start_events E in_params out_fc)%list
    | Some _ =>
        exists evs,
          trace w'
          = (trace w ++ start_events E in_params out_fc
             ++ Tool "TableToTable"
                  [csv_path out_fc; out_dir out_fc; "predicted_cond.dbf"]
             :: evs)%list
    end).
  { unfold bind, arcpy.TableToTable_conversion in Hrun.
    destruct (arcpy.table_at _ (csv_path out_fc)) as [t|].
    - destruct (Hrest tt _ _ _ Hrun) as (evs & Etr & _).
      exists evs. rewrite Etr, trace_emit, trace_put.
      unfold after_start. cbn [trace]. now rewrite <- !app_assoc.
    - injection Hrun as <- <-. split; reflexivity. }
  split; [|split; [|split]].
  - fold (out_dir out_fc). fold (r_command E in_params out_fc).
    fold (start_events E in_params out_fc).
    destruct (arcpy.table_at _ (csv_path out_fc)).
    + destruct Hcases as (evs & ->). eauto.
    + destruct Hcases as (_ & ->). exists []. now rewrite app_nil_r.
  - intros rc. rewrite main_ignores_returncode. exact H.
  - intros Hnone. now rewrite Hnone in Hcases.
  - intros [t Ht]. now rewrite Ht in Hcases.
Qed.

Lemma C5_model_invoker_waits_and_ignores_return_code_witness :
  let w0 := Scenario.world0 "C:\data\streams.shp" Scenario.streams in
  let run := main Scenario.env "C:\data\streams.shp" "C:\data\params.dbf"
                  "C:\data\out.shp" "false" "C:\proj" w0 in
  main (with_returncode (fun _ _ => 1) Scenario.env) "C:\data\streams.shp"
       "C:\data\params.dbf" "C:\data\out.shp" "false" "C:\proj" w0
  = run
  /\ exists evs,
      trace (snd run)
      = ([Message "Predicting conductivity using Random Forest model in R...";
          GcEnable;
          Spawn ["Rscript"; "C:\tools\condRF.R"; "C:\tools\rf17bCnd9.rdata";
                 "C:\data"; "C:\data\params.dbf"];
          Waited] ++ evs)%list.
Proof.
  intros w0 run.
  destruct (C5_model_invoker_waits_and_ignores_return_code Scenario.env
              "C:\data\streams.shp" "C:\data\params.dbf" "C:\data\out.shp"
              "false" "C:\proj" w0 "FileSystem" (fst run) (snd run))
    as ((evs & Htr) & Hrc & _ & _).
  - reflexivity.
  - vm_compute. reflexivity.
  - apply surjective_pairing.
  - split.
    + rewrite (Hrc (fun _ _ => 1)). symmetry. apply surjective_pairing.
    + exists evs. exact Htr.
Defined.

(** ** The project export: lines 152-154 and 193-204 *)



(** ** The shapefile name in project mode: lines 133-135 and 202 *)

(** C9 (amended): in project mode, on an input whose workspace is not a
    "LocalDatabase", no run returns normally and none writes the lineage
    XML; a run that gets as far as copying both files into the project
    tree ends in the [UnboundLocalError] (a [NameError]) for
    [in_shp_name]. *)
Theorem C9_project_mode_needs_local_database
    E in_fc in_params out_fc rs_bool rs_dir w r w' :
  rs_bool = "true" ->
  workspaceType E (Path.dirname in_fc) <> Some "LocalDatabase" ->
  main E in_fc in_params out_fc rs_bool rs_dir w = (r, w') ->
  exists evs,
    trace w' = (trace w ++ evs)%list
    /\ lineage_writes evs = []
    /\ (exists e, r = Raise e)
    /\ (length (project_copies evs) = 2%nat ->
        r = Raise (UnboundLocalError "in_shp_name")
        /\ isinstance_NameError (UnboundLocalError "in_shp_name") = true).
Proof.
  intros Hrs Hty H.
  destruct (main_with_shp_unbound _ _ _ _ _ _ Hrs Hty _ _ _ H)
    as (evs & Htr & Hl & _ & He & Hk).
  exists evs. repeat split; auto.
Qed.

Lemma C9_project_mode_needs_local_database_witness :
  let w0 := Scenario.world0 "C:\data\streams.shp" Scenario.streams in
  let run := main Scenario.env "C:\data\streams.shp" "C:\data\params.dbf"
                  "C:\data\out.shp" "true" "C:\proj" w0 in
  fst run = Raise (UnboundLocalError "in_shp_name")
  /\ lineage_writes (trace (snd run)) = [].
Proof.
  intros w0 run.
  destruct (C9_project_mode_needs_local_database Scenario.env
              "C:\data\streams.shp" "C:\data\params.dbf" "C:\data\out.shp"
              "true" "C:\proj" w0 (fst run) (snd run))
    as (evs & Htr & Hl & _ & Hk).
  - reflexivity.
  - vm_compute. discriminate.
  - apply surjective_pairing.
  - change (trace w0) with (@nil Event) in Htr. cbn [app] in Htr.
    rewrite Htr. split; [|exact Hl].
    apply Hk. rewrite <- Htr. vm_compute. reflexivity.
Defined.

(** C9, as stated, fails for a run that ends before the export: with no
    "LineOID" field the run leaves by [sys.exit(0)], and no [NameError]
    is raised. *)
Lemma C9_counterexample :
  let w0 := Scenario.world0 "C:\data\streams.shp" Scenario.no_key in
  let run := main Scenario.env "C:\data\streams.shp" "C:\data\params.dbf"
                  "C:\data\out.shp" "true" "C:\proj" w0 in
  workspaceType Scenario.env (Path.dirname "C:\data\streams.shp")
  = Some "FileSystem"
  /\ fst run = Raise (SystemExit 0)
  /\ isinstance_NameError (SystemExit 0) = false.
Proof.
  cbv zeta. repeat split; vm_compute; reflexivity.
Qed.

(** ** What a run leaves alone on the disk *)

(** The session as the script keeps it: the only layers and views are its
    own, and no in_memory dataset is addressed by a path or goes by the
    name of one of them. *)
Definition session_ok (w : World) : Prop :=
  (forall n, is_Some (layers w !! n) -> In n scratch_layers)
  /\ inmem_names_ok w.

Lemma session_ok_same w w' :
  layers w' = layers w -> inmem w' = inmem w -> session_ok w -> session_ok w'.
Proof.
  intros Hl Hm [H1 H2]. split.
  - intros n. rewrite Hl. apply H1.
  - intros n. rewrite Hm. apply H2.
Qed.




Section Frame.

Variable k : string.

(** [leaves ws ws' m]: started in a session with workspace [ws], the
  computation [m] leaves the disk entry [k] as it is, whatever its
  outcome, and when it returns, the workspace is [ws']. *)
Definition leaves {A} (ws ws' : string) (m : M A) : Prop :=
forall w r w', session_ok w -> workspace w = ws -> m w = (r, w') ->
  disk w' !! k = disk w !! k
  /\ (forall a, r = Ok a -> session_ok w' /\ workspace w' = ws').


Lemma leaves_ret {A} ws (a : A) : leaves ws ws (ret a).
Proof. intros w r w' S Hws [= <- <-]. auto. Qed.


Lemma leaves_bind_val {A B} (Q : A -> Prop) ws ws1 ws'
  (m : M A) (f : A -> M B) :
(forall w a w', m w = (Ok a, w') -> Q a) ->
leaves ws ws1 m -> (forall a, Q a -> leaves ws1 ws' (f a)) ->
leaves ws ws' (bind m f).
Proof.
intros HQ Hm Hf w r w' S Hws H.
apply bind_inv in H as [(a & w1 & H1 & H2) | (e & H1 & ->)].
- destruct (Hm _ _ _ S Hws H1) as (D1 & P1).
  destruct (P1 a eq_refl) as (S1 & Hws1).
  destruct (Hf a (HQ _ _ _ H1) _ _ _ S1 Hws1 H2) as (D2 & P2).
  split; [congruence | exact P2].
- destruct (Hm _ _ _ S Hws H1) as (D1 & _).
  split; [exact D1 | discriminate].
Qed.

Lemma leaves_bind {A B} ws ws1 ws' (m : M A) (f : A -> M B) :
leaves ws ws1 m -> (forall a, leaves ws1 ws' (f a)) ->
leaves ws ws' (bind m f).
Proof.
intros Hm Hf. apply (leaves_bind_val (fun _ => True) ws ws1); auto.
Qed.


Lemma leaves_for_each {A} ws (l : list A) (body : A -> M unit) :
(forall x, leaves ws ws (body x)) -> leaves ws ws (for_each l body).
Proof.
intros Hb. induction l as [|x l IH]; simpl.
- apply leaves_ret.
- eapply leaves_bind; eauto.
Qed.

(** Steps that leave the catalog and the workspace as they are. *)
Lemma leaves_quiet {A} ws (m : M A) :
(forall w r w', m w = (r, w') ->
   disk w' = disk w /\ inmem w' = inmem w /\ layers w' = layers w
   /\ workspace w' = workspace w) ->
leaves ws ws m.
Proof.
intros Hm w r w' S Hws H. destruct (Hm _ _ _ H) as (Hd & Hi & Hl & Hw).
split; [now rewrite Hd|]. intros _ _. split.
- now apply (session_ok_same w).
- congruence.
Qed.

End Frame.

Ltac quiet :=
  let w := fresh "w" in let r := fresh "r" in let w' := fresh "w'" in
  let H := fresh "H" in
  apply leaves_quiet; intros w r w' H;
  unfold bind, ret, raise, log, emit in H;
  repeat match type of H with
         | context [match ?x with _ => _ end] => destruct x
         end;
  injection H as <- <-; repeat split; reflexivity.

Section FramePrim.

Variable k : string.





Lemma leaves_now ws E : leaves k ws ws (time.now E).
Proof. unfold time.now. quiet. Qed.










Lemma leaves_ListFeatureClasses ws : leaves k ws ws arcpy.ListFeatureClasses.
Proof. unfold arcpy.ListFeatureClasses. quiet. Qed.

Lemma leaves_ListTables ws : leaves k ws ws arcpy.ListTables.
Proof. unfold arcpy.ListTables. quiet. Qed.






















End FramePrim.






(** ** Which exceptions a computation can end in *)

Definition raises_only {A} (P : Exn -> Prop) (m : M A) : Prop :=
  forall w w' e, m w = (Raise e, w') -> P e.

Section Raises.

Variable P : Exn -> Prop.

Lemma raises_ret {A} (a : A) : raises_only P (ret a).
Proof. intros w w' e [=]. Qed.

Lemma raises_raise {A} e : P e -> raises_only P (@raise A e).
Proof. intros HP w w' e' [= <- _]. exact HP. Qed.

Lemma raises_bind_val {A B} (Q : A -> Prop) (m : M A) (f : A -> M B) :
  (forall w a w', m w = (Ok a, w') -> Q a) ->
  raises_only P m -> (forall a, Q a -> raises_only P (f a)) ->
  raises_only P (bind m f).
Proof.
  intros HQ Hm Hf w w' e H.
  apply bind_inv in H as [(a & w1 & H1 & H2) | (e' & H1 & [= <-])].
  - exact (Hf a (HQ _ _ _ H1) _ _ _ H2).
  - exact (Hm _ _ _ H1).
Qed.

Lemma raises_bind {A B} (m : M A) (f : A -> M B) :
  raises_only P m -> (forall a, raises_only P (f a)) ->
  raises_only P (bind m f).
Proof. intros Hm Hf. apply (raises_bind_val (fun _ => True)); auto. Qed.

Lemma raises_if {A} (b : bool) (m1 m2 : M A) :
  raises_only P m1 -> raises_only P m2 ->
  raises_only P (if b then m1 else m2).
Proof. now destruct b. Qed.

Lemma raises_for_each {A} (l : list A) (body : A -> M unit) :
  (forall x, raises_only P (body x)) -> raises_only P (for_each l body).
Proof.
  intros Hb. induction l as [|x l IH]; simpl.
  - apply raises_ret.
  - apply raises_bind; auto.
Qed.

(** A step that always returns. *)
Lemma raises_never {A} (m : M A) :
  (forall w, exists a w', m w = (Ok a, w')) -> raises_only P m.
Proof. intros Hm w w' e H. destruct (Hm w) as (a & w1 & Hw). congruence. Qed.

End Raises.

Ltac returns := apply raises_never; intros ?; eexists _, _; reflexivity.

Ltac may_raise :=
  let w := fresh "w" in let w' := fresh "w'" in let e := fresh "e" in
  let H := fresh "H" in
  intros w w' e H;
  repeat match type of H with
         | context [match ?x with _ => _ end] => destruct x
         end;
  first [ discriminate H | injection H as <- _; auto ].

Section RaisesPrim.

Variable P : Exn -> Prop.

Lemma raises_AddMessage s : raises_only P (arcpy.AddMessage s).
Proof. returns. Qed.

Lemma raises_AddError s : raises_only P (arcpy.AddError s).
Proof. returns. Qed.

Lemma raises_gc_enable : raises_only P gc.enable.
Proof. returns. Qed.

Lemma raises_strftime E : raises_only P (time.strftime E).
Proof. returns. Qed.

Lemma raises_createRun E m : raises_only P (meta_sfr.createRun E m).
Proof. returns. Qed.

Lemma raises_finalizeRun E s m : raises_only P (meta_sfr.finalizeRun E s m).
Proof. returns. Qed.

Lemma raises_writeMetadataFile p m :
  raises_only P (meta_sfr.writeMetadataFile p m).
Proof. returns. Qed.

Lemma raises_Popen cmd : raises_only P (subprocess.Popen cmd).
Proof. returns. Qed.

Lemma raises_wait E p : raises_only P (subprocess.wait E p).
Proof. returns. Qed.

Lemma raises_ProjectXML E a b : raises_only P (meta_rs.ProjectXML E a b).
Proof. returns. Qed.

Lemma raises_getUUID E : raises_only P (meta_rs.getUUID E).
Proof. returns. Qed.

Lemma raises_finalize E x : raises_only P (meta_rs.finalize E x).
Proof. returns. Qed.

Lemma raises_write x : raises_only P (meta_rs.write x).
Proof. returns. Qed.

Lemma raises_metadata E x a b c : raises_only P (metadata E x a b c).
Proof.
  unfold metadata. cbv zeta.
  apply raises_bind; [apply raises_finalize|]. intros times.
  apply raises_bind; [apply raises_getUUID|]. intros guid1.
  apply raises_bind; [apply raises_getUUID|]. intros guid2.
  apply raises_write.
Qed.

Lemma raises_set_workspace ws : raises_only P (arcpy.set_workspace ws).
Proof. returns. Qed.

Lemma raises_ListFeatureClasses : raises_only P arcpy.ListFeatureClasses.
Proof. returns. Qed.

Lemma raises_ListTables : raises_only P arcpy.ListTables.
Proof. returns. Qed.

Lemma raises_read_local_bound {A} n (a : A) :
  raises_only P (read_local n (Some a)).
Proof. returns. Qed.

Lemma raises_read_local {A} n (v : option A) :
  P (UnboundLocalError n) -> raises_only P (read_local n v).
Proof. intros HP. unfold read_local, ret, raise. may_raise. Qed.

Lemma raises_dict_getitem d key :
  (d !! key = None -> P (KeyError key)) -> raises_only P (dict_getitem d key).
Proof.
  intros HP w w' e. unfold dict_getitem, ret, raise.
  destruct (d !! key); [discriminate|]. intros [= <- _]. now apply HP.
Qed.

(** The calls that fail with an [IOError]. *)
Hypothesis P_io : forall what, P (IOError what).

Lemma raises_Describe E p : raises_only P (arcpy.Describe_workspaceType E p).
Proof. unfold arcpy.Describe_workspaceType, ret, raise. may_raise. Qed.

Lemma raises_ListFields d wc : raises_only P (arcpy.ListFields d wc).
Proof. unfold arcpy.ListFields. may_raise. Qed.

Lemma raises_checkLineOID in_fc : raises_only P (checkLineOID in_fc).
Proof.
  unfold checkLineOID. apply raises_bind; [apply raises_ListFields|].
  intros; apply raises_ret.
Qed.

Lemma raises_copyRSFiles src dst : raises_only P (rs.copyRSFiles src dst).
Proof. unfold rs.copyRSFiles. may_raise. Qed.

(** The geoprocessing tools fail with an [ExecuteError]. *)
Hypothesis P_exec : forall tool what, P (ExecuteError tool what).

Lemma raises_TableToTable a b c :
  raises_only P (arcpy.TableToTable_conversion a b c).
Proof. unfold arcpy.TableToTable_conversion. may_raise. Qed.

Lemma raises_MakeTableView a b :
  raises_only P (arcpy.MakeTableView_management a b).
Proof. unfold arcpy.MakeTableView_management. may_raise. Qed.

Lemma raises_MakeFeatureLayer a b :
  raises_only P (arcpy.MakeFeatureLayer_management a b).
Proof. unfold arcpy.MakeFeatureLayer_management. may_raise. Qed.

Lemma raises_FeatureClassToFeatureClass a b c :
  raises_only P (arcpy.FeatureClassToFeatureClass_conversion a b c).
Proof. unfold arcpy.FeatureClassToFeatureClass_conversion. may_raise. Qed.

Lemma raises_JoinField a b c d :
  raises_only P (arcpy.JoinField_management a b c d).
Proof. unfold arcpy.JoinField_management. may_raise. Qed.

Lemma raises_CopyFeatures a b :
  raises_only P (arcpy.CopyFeatures_management a b).
Proof. unfold arcpy.CopyFeatures_management. may_raise. Qed.

Lemma raises_DeleteField a b :
  raises_only P (arcpy.DeleteField_management a b).
Proof. unfold arcpy.DeleteField_management. may_raise. Qed.

Lemma raises_Delete a : raises_only P (arcpy.Delete_management a).
Proof. unfold arcpy.Delete_management. may_raise. Qed.

Lemma raises_removeFields a : raises_only P (removeFields a).
Proof.
  unfold removeFields.
  apply raises_bind; [apply raises_AddMessage|]. intros _.
  apply raises_bind; [apply raises_ListFields|]. intros fl.
  apply raises_DeleteField.
Qed.

Lemma raises_clear_inmemory : raises_only P clear_inmemory.
Proof.
  unfold clear_inmemory.
  apply raises_bind; [apply raises_set_workspace|]. intros _.
  apply raises_bind; [apply raises_AddMessage|]. intros _.
  apply raises_bind; [apply raises_ListFeatureClasses|]. intros fcs.
  apply raises_bind; [apply raises_ListTables|]. intros tbls.
  apply raises_bind; [|intros _];
    apply raises_for_each; intros; apply raises_Delete.
Qed.

End RaisesPrim.

Ltac raises_step :=
  lazymatch goal with
  | |- raises_only _ (ret _) => apply raises_ret
  | |- raises_only _ (raise _) => apply raises_raise; solve [auto]
  | |- raises_only _ (if _ then _ else _) => apply raises_if
  | |- raises_only _ (bind (bind (meta_rs.ProjectXML ?E ?t ?p) _) _) =>
      eapply (raises_bind_val _
                (fun o => exists x,
                     o = Some x
                     /\ Doc.realIDdict x = project_realizations E));
      [ let Hq := fresh in
        intros ? ? ? Hq;
        unfold bind, meta_rs.ProjectXML, time.now, ret in Hq;
        injection Hq as <- _; eexists; split; reflexivity
      | apply raises_bind; [apply raises_ProjectXML
                           | intros; apply raises_ret]
      | intros ? (? & -> & ?) ]
  | |- raises_only _ (bind (read_local _ (Some ?x)) _) =>
      eapply (raises_bind_val _ (fun a => a = x));
      [ intros ? ? ? [= <- _]; reflexivity
      | apply raises_read_local_bound
      | intros ? -> ]
  | |- raises_only _ (bind _ _) => apply raises_bind; [ | intros ? ]
  | |- raises_only _ (arcpy.AddMessage _) => apply raises_AddMessage
  | |- raises_only _ (arcpy.AddError _) => apply raises_AddError
  | |- raises_only _ gc.enable => apply raises_gc_enable
  | |- raises_only _ (time.strftime _) => apply raises_strftime
  | |- raises_only _ (meta_sfr.createRun _ _) => apply raises_createRun
  | |- raises_only _ (meta_sfr.finalizeRun _ _ _) => apply raises_finalizeRun
  | |- raises_only _ (meta_sfr.writeMetadataFile _ _) =>
      apply raises_writeMetadataFile
  | |- raises_only _ (subprocess.Popen _) => apply raises_Popen
  | |- raises_only _ (subprocess.wait _ _) => apply raises_wait
  | |- raises_only _ (meta_rs.ProjectXML _ _ _) => apply raises_ProjectXML
  | |- raises_only _ (metadata _ _ _ _ _) => apply raises_metadata
  | |- raises_only _ (arcpy.Describe_workspaceType _ _) =>
      apply raises_Describe; solve [auto]
  | |- raises_only _ (checkLineOID _) =>
      apply raises_checkLineOID; solve [auto]
  | |- raises_only _ (rs.copyRSFiles _ _) =>
      apply raises_copyRSFiles; solve [auto]
  | |- raises_only _ (arcpy.TableToTable_conversion _ _ _) =>
      apply raises_TableToTable; solve [auto]
  | |- raises_only _ (arcpy.MakeTableView_management _ _) =>
      apply raises_MakeTableView; solve [auto]
  | |- raises_only _ (arcpy.MakeFeatureLayer_management _ _) =>
      apply raises_MakeFeatureLayer; solve [auto]
  | |- raises_only _ (arcpy.FeatureClassToFeatureClass_conversion _ _ _) =>
      apply raises_FeatureClassToFeatureClass; solve [auto]
  | |- raises_only _ (arcpy.JoinField_management _ _ _ _) =>
      apply raises_JoinField; solve [auto]
  | |- raises_only _ (arcpy.CopyFeatures_management _ _) =>
      apply raises_CopyFeatures; solve [auto]
  | |- raises_only _ (removeFields _) =>
      apply raises_removeFields; solve [auto]
  | |- raises_only _ clear_inmemory =>
      apply raises_clear_inmemory; solve [auto]
  | |- raises_only _ (arcpy.Delete_management _) =>
      apply raises_Delete; solve [auto]
  | |- raises_only _ (dict_getitem _ _) =>
      apply raises_dict_getitem;
      let Hn := fresh "Hn" in
      intros Hn;
      first [ solve [auto]
            | match goal with
              | Hd : Doc.realIDdict _ = _ |- _ => rewrite Hd in Hn
              end; solve [auto] ]
  | |- raises_only _ (read_local _ (Some _)) => apply raises_read_local_bound
  | |- raises_only _ (read_local _ _) => apply raises_read_local; solve [auto]
  end.

Ltac raises_tac := repeat raises_step.

(** ** The exits of [main] *)

(** X6: [main] leaves by [sys.exit] only at the join-key check: the exit code
    is 0, the check has returned something other than [True], and up to
    then the run has read the clock twice and reported the error, nothing
    more. *)
Theorem main_SystemExit_only_at_key_check
    E in_fc in_params out_fc rs_bool rs_dir w w' code :
  main E in_fc in_params out_fc rs_bool rs_dir w
  = (Raise (SystemExit code), w') ->
  code = 0
  /\ (exists v, fst (checkLineOID in_fc w) = Ok v /\ py_eq_True v = false)
  /\ w' = emit (ErrorMessage missing_key_message) (at_check w).
Proof.
  intros H. unfold main in H.
  apply bind_inv in H as [(ty & w1 & H1 & H) | (e' & H1 & He)].
  2:{ unfold arcpy.Describe_workspaceType, ret, raise in H1.
      destruct (workspaceType E _); [discriminate|].
      injection H1 as <- _. discriminate He. }
  assert (w1 = w) as ->.
  { unfold arcpy.Describe_workspaceType, ret, raise in H1.
    destruct (workspaceType E _); [|discriminate]. now injection H1. }
  clear H1.
  apply bind_inv in H as [(ts & w2 & H2 & H) | (e' & H2 & _)];
    [|discriminate H2].
  unfold time.strftime, time.now, bind, ret in H2. injection H2 as <- <-.
  apply bind_inv in H as [(mw & w3 & H3 & H) | (e' & H3 & _)];
    [|discriminate H3].
  unfold meta_sfr.createRun, time.now, bind, ret in H3.
  injection H3 as <- <-. cbn [ticks disk inmem layers workspace uuids trace]
    in H.
  fold (at_check w) in H.
  apply bind_inv in H as [(v & w4 & H4 & H) | (e' & H4 & He)].
  2:{ rewrite checkLineOID_run in H4.
      destruct (arcpy.table_at _ _); [discriminate|].
      injection H4 as <- _. discriminate He. }
  assert (Hc : fst (checkLineOID in_fc w) = Ok v /\ w4 = at_check w).
  { rewrite checkLineOID_run in *. rewrite table_at_at_check in H4.
    destruct (arcpy.table_at w in_fc); [|discriminate].
    injection H4 as <- <-. split; reflexivity. }
  destruct Hc as [Hc ->]. clear H4.
  destruct (py_eq_True v) eqn:Hv.
  - exfalso.
    set (P := fun e : Exn => forall c, e <> SystemExit c).
    assert (P_io : forall what, P (IOError what)) by (intros ? ?; discriminate).
    assert (P_ex : forall t what, P (ExecuteError t what))
      by (intros ? ? ?; discriminate).
    assert (P_key : forall k, P (KeyError k)) by (intros ? ?; discriminate).
    assert (P_unb : forall n, P (UnboundLocalError n))
      by (intros ? ?; discriminate).
    match type of H with
    | ?m _ = _ => assert (L : raises_only P m) by raises_tac
    end.
    exact (L _ _ _ H code eq_refl).
  - unfold bind, arcpy.AddError, log, sys.exit, raise in H.
    injection H as <- <-. split; [reflexivity|]. split; [eauto|reflexivity].
Qed.

(** X7: the only [NameError] that [main] can end in is the one for
    [in_shp_name], in project mode on an input whose workspace is not a
    "LocalDatabase": [projectXML], which is bound under the same test that
    guards its use, is never read unbound. *)
Theorem main_NameError_only_for_in_shp_name
    E in_fc in_params out_fc rs_bool rs_dir w w' e :
  main E in_fc in_params out_fc rs_bool rs_dir w = (Raise e, w') ->
  isinstance_NameError e = true ->
  e = UnboundLocalError "in_shp_name"
  /\ rs_bool = "true"
  /\ workspaceType E (Path.dirname in_fc) <> Some "LocalDatabase".
Proof.
  intros H.
  set (P := fun e : Exn =>
              isinstance_NameError e = true ->
              e = UnboundLocalError "in_shp_name"
              /\ rs_bool = "true"
              /\ workspaceType E (Path.dirname in_fc)
                 <> Some "LocalDatabase").
  assert (P_io : forall what, P (IOError what)) by (intros ? [=]).
  assert (P_ex : forall t what, P (ExecuteError t what)) by (intros ? ? [=]).
  assert (P_key : forall k, P (KeyError k)) by (intros ? [=]).
  assert (P_exit : forall c, P (SystemExit c)) by (intros ? [=]).
  cut (raises_only P (main E in_fc in_params out_fc rs_bool rs_dir)).
  { intros L. exact (L _ _ _ H). }
  clear H. unfold main, sys.exit.
  apply (raises_bind_val _
           (fun ty => workspaceType E (Path.dirname in_fc) = Some ty)).
  { intros w0 ty w1. unfold arcpy.Describe_workspaceType, ret, raise.
    destruct (workspaceType E _); [|discriminate]. now intros [= -> _]. }
  { now apply raises_Describe. }
  intros ty Hty.
  destruct (String.eqb rs_bool "true") eqn:Hrs;
    destruct (String.eqb ty "LocalDatabase") eqn:Hdb;
    cbv beta iota zeta; try solve [raises_tac].
  assert (P_shp : P (UnboundLocalError "in_shp_name")).
  { intros _. split; [reflexivity|]. split; [now apply String.eqb_eq|].
    rewrite Hty. intros [= ->]. discriminate Hdb. }
  raises_tac.
Qed.

(** X8: the only [KeyError] that [main] can end in is the one for the
    realization name, in project mode, when the project has no
    realization of that name. *)
Theorem main_KeyError_only_for_unknown_realization
    E in_fc in_params out_fc rs_bool rs_dir w w' key :
  main E in_fc in_params out_fc rs_bool rs_dir w = (Raise (KeyError key), w') ->
  key = rs_real_name E
  /\ rs_bool = "true"
  /\ project_realizations E !! rs_real_name E = None.
Proof.
  intros H.
  set (P := fun e : Exn =>
              forall k, e = KeyError k ->
                k = rs_real_name E /\ rs_bool = "true"
                /\ project_realizations E !! rs_real_name E = None).
  assert (P_io : forall what, P (IOError what)) by (intros ? ? [=]).
  assert (P_ex : forall t what, P (ExecuteError t what))
    by (intros ? ? ? [=]).
  assert (P_unb : forall n, P (UnboundLocalError n)) by (intros ? ? [=]).
  assert (P_exit : forall c, P (SystemExit c)) by (intros ? ? [=]).
  cut (raises_only P (main E in_fc in_params out_fc rs_bool rs_dir)).
  { intros L. exact (L _ _ _ H key eq_refl). }
  clear H. unfold main, sys.exit.
  destruct (String.eqb rs_bool "true") eqn:Hrs; cbv beta iota zeta.
  - assert (P_key : project_realizations E !! rs_real_name E = None ->
                    P (KeyError (rs_real_name E))).
    { intros Hn k [= <-]. split; [reflexivity|].
      split; [now apply String.eqb_eq | exact Hn]. }
    raises_tac.
  - raises_tac.
Qed.

(** ** The footprint of [main] on the disk *)


(** ** Project settings outside project mode *)

(** The same environment with other project settings. *)
Definition with_project (name : string) (reals : gmap string string)
    (abs : string -> Z -> Z -> string -> string)
    (rel : Z -> Z -> string -> string) (E : Env) : Env :=
  {| script_file := script_file E;
     clock := clock E;
     uuid := uuid E;
     workspaceType := workspaceType E;
     run_process := run_process E;
     rs_real_name := name;
     project_realizations := reals;
     getRSDirAbs := abs;
     getRSDirRel := rel |}.

(** X10: unless the project-mode parameter is the string "true", a run does not
    depend on the project directory, the realization name, the
    realizations of the project or its directory conventions. *)
Theorem main_ignores_project_settings
    E in_fc in_params out_fc rs_bool rs_dir rs_dir' name reals abs rel w :
  rs_bool <> "true" ->
  main (with_project name reals abs rel E) in_fc in_params out_fc rs_bool
       rs_dir' w
  = main E in_fc in_params out_fc rs_bool rs_dir w.
Proof.
  intros Hne. apply String.eqb_neq in Hne.
  unfold main. rewrite Hne. reflexivity.
Qed.

(** ** An input that is not there *)

(** X11: when the input path names no table or feature class, the join-key
    check itself fails: [main] ends in the [IOError] of [ListFields], with
    no message and nothing written, and not by the exit that reports a
    missing field. *)
Theorem main_on_missing_input
    E in_fc in_params out_fc rs_bool rs_dir w ty :
  workspaceType E (Path.dirname in_fc) = Some ty ->
  arcpy.table_at w in_fc = None ->
  main E in_fc in_params out_fc rs_bool rs_dir w
  = (Raise (IOError in_fc), at_check w).
Proof.
  intros Hty Hno. unfold main, arcpy.Describe_workspaceType. rewrite Hty.
  unfold time.strftime, meta_sfr.createRun, time.now, bind, ret; simpl.
  fold (at_check w). rewrite checkLineOID_run, table_at_at_check, Hno.
  reflexivity.
Qed.

(** ** Runs that go through *)

(** Every name that [removeFields] collects is the name of a field of the
    table, so [DeleteField] finds all of them. *)
Lemma removeFields_loop_names fs acc n :
  In n (removeFields_loop fs acc) ->
  In n acc \/ exists f, In f fs /\ f_name f = n.
Proof.
  revert acc. induction fs as [|f fs IH]; intros acc Hn; simpl in Hn.
  - now left.
  - destruct (_ && _)%bool in Hn; apply IH in Hn as [Hn | (g & Hg & <-)].
    + apply in_app_iff in Hn as [Hn | [<- | []]]; [now left|].
      right. exists f. split; [now left | reflexivity].
    + right. exists g. split; [now right | reflexivity].
    + now left.
    + right. exists g. split; [now right | reflexivity].
Qed.

Lemma removeFields_loop_found t :
  forallb (arcpy.has_field t) (removeFields_loop (t_fields t) []) = true.
Proof.
  apply forallb_forall. intros n Hn.
  apply removeFields_loop_names in Hn as [[] | (f & Hf & <-)].
  unfold arcpy.has_field. apply existsb_exists. exists (f_name f).
  split; [|apply String.eqb_refl].
  unfold field_names. now apply in_map.
Qed.

Section Forward.

Variable E : Env.
Variables in_fc in_params out_fc rs_bool rs_dir : string.

(** The world once the scratch copy of the input is made: lines 173-180. *)
Definition after_copy (w : World) (t_in pt : Table) : World :=
  {| disk := <[dbf_path out_fc := DbfTable pt]> (disk w);
     inmem := <["in_fc_tmp" := FeatureClass t_in]> (inmem w);
     layers := <["in_fc_lyr" := in_fc]>
                 (<["predicted_cond_view" := dbf_path out_fc]> ∅);
     workspace := "";
     ticks := ticks w;
     uuids := uuids w;
     trace :=
       trace w
       ++ [Tool "TableToTable"
             [csv_path out_fc; out_dir out_fc; "predicted_cond.dbf"];
           Message
             "Joining predicted conductivity results to the stream network...";
           Tool "MakeTableView" [dbf_path out_fc; "predicted_cond_view"];
           Tool "MakeFeatureLayer" [in_fc; "in_fc_lyr"];
           Tool "FeatureClassToFeatureClass"
                ["in_fc_lyr"; "in_memory"; "in_fc_tmp"]] |}.

Lemma copy_block_run {A} (k : M A) w dcsv pt t_in :
  layers w = ∅ -> workspace w = "" ->
  Path.has_sep in_fc = true ->
  on_disk in_fc ->
  on_disk (csv_path out_fc) -> on_disk (dbf_path out_fc) ->
  disk w !! csv_path out_fc = Some dcsv -> as_table dcsv = Some pt ->
  <[dbf_path out_fc := DbfTable pt]> (disk w) !! in_fc
  = Some (FeatureClass t_in) ->
  (arcpy.TableToTable_conversion (Path.dirname out_fc ++ "\predicted_cond.csv")
     (Path.dirname out_fc) "predicted_cond.dbf" ;;;
   arcpy.AddMessage
     "Joining predicted conductivity results to the stream network..." ;;;
   arcpy.MakeTableView_management
     (Path.dirname out_fc ++ "\predicted_cond.dbf") "predicted_cond_view" ;;;
   arcpy.MakeFeatureLayer_management in_fc "in_fc_lyr" ;;;
   arcpy.FeatureClassToFeatureClass_conversion "in_fc_lyr" "in_memory"
     "in_fc_tmp" ;;; k) w
  = k (after_copy w t_in pt).
Proof.
  intros Hl Hw Hsi Di Dc Dd Hcsv Hpt Hin.
  unfold after_copy, on_disk, csv_path, dbf_path, out_dir in *.
  (* TableToTable *)
  unfold bind at 1.
  unfold arcpy.TableToTable_conversion at 1, arcpy.table_at, resolve.
  rewrite Hl, lookup_empty, Hw, locate_in_unset, Dc. world_simpl.
  rewrite Hcsv. cbn [mbind option_bind]. rewrite Hpt.
  change (Path.dirname out_fc ++ "\" ++ "predicted_cond.dbf")
    with (Path.dirname out_fc ++ "\predicted_cond.dbf").
  rewrite Dd. world_simpl.
  (* AddMessage *)
  unfold bind at 1. unfold arcpy.AddMessage at 1, log. world_simpl.
  (* MakeTableView *)
  unfold bind at 1.
  unfold arcpy.MakeTableView_management at 1, arcpy.table_at, resolve.
  world_simpl.
  rewrite Hl, lookup_empty, Hw, locate_in_unset, Dd. world_simpl.
  rewrite lookup_insert_eq. cbn [mbind option_bind as_table].
  (* MakeFeatureLayer in_fc *)
  unfold bind at 1.
  unfold arcpy.MakeFeatureLayer_management at 1, resolve. world_simpl.
  rewrite !(path_lookup_scratch in_fc), lookup_empty, locate_in_unset, Di
    by (auto; simpl; tauto).
  world_simpl. rewrite Hin.
  (* FeatureClassToFeatureClass *)
  unfold bind at 1.
  unfold arcpy.FeatureClassToFeatureClass_conversion at 1, resolve.
  world_simpl.
  rewrite lookup_insert_eq, locate_in_unset, Di. world_simpl.
  rewrite Hin.
  change (locate ("in_memory" ++ "\" ++ "in_fc_tmp"))
    with (InMemory "in_fc_tmp").
  world_simpl.
  f_equal. f_equal. rewrite <- !app_assoc. reflexivity.
Qed.

(** The join and the export of the joined copy: lines 181-185. *)
Lemma join_block_run (k : M unit) w dcsv pt t_in :
  layers w = ∅ -> workspace w = "" ->
  Path.has_sep in_fc = true -> Path.has_sep out_fc = true ->
  on_disk in_fc -> on_disk out_fc ->
  on_disk (csv_path out_fc) -> on_disk (dbf_path out_fc) ->
  disk w !! csv_path out_fc = Some dcsv -> as_table dcsv = Some pt ->
  <[dbf_path out_fc := DbfTable pt]> (disk w) !! in_fc
  = Some (FeatureClass t_in) ->
  arcpy.has_field t_in "LineOID" = true ->
  arcpy.has_field pt "LineOID" = true ->
  (arcpy.TableToTable_conversion (Path.dirname out_fc ++ "\predicted_cond.csv")
     (Path.dirname out_fc) "predicted_cond.dbf" ;;;
   arcpy.AddMessage
     "Joining predicted conductivity results to the stream network..." ;;;
   arcpy.MakeTableView_management
     (Path.dirname out_fc ++ "\predicted_cond.dbf") "predicted_cond_view" ;;;
   arcpy.MakeFeatureLayer_management in_fc "in_fc_lyr" ;;;
   arcpy.FeatureClassToFeatureClass_conversion "in_fc_lyr" "in_memory"
     "in_fc_tmp" ;;;
   arcpy.JoinField_management "in_memory\in_fc_tmp" "LineOID"
     "predicted_cond_view" "LineOID" ;;;
   arcpy.MakeFeatureLayer_management "in_memory\in_fc_tmp" "join_fc_lyr" ;;;
   arcpy.AddMessage ("Exporting final feature class as " ++ out_fc) ;;;
   arcpy.CopyFeatures_management "join_fc_lyr" out_fc ;;;
   removeFields out_fc ;;; k) w
  = k (after_join in_fc out_fc w t_in pt).
Proof.
  intros Hl Hw Hsi Hso Di Do Dc Dd Hcsv Hpt Hin Hh1 Hh2.
  rewrite (copy_block_run _ w dcsv pt t_in) by assumption.
  unfold after_copy, after_join, on_disk, csv_path, dbf_path, out_dir in *.
  (* JoinField *)
  unfold bind at 1.
  unfold arcpy.JoinField_management at 1, arcpy.table_at, resolve.
  world_simpl.
  rewrite lookup_insert_ne, lookup_insert_ne, lookup_empty by discriminate.
  rewrite lookup_insert_ne, lookup_insert_eq by discriminate.
  rewrite !locate_in_unset, Dd.
  change (locate "in_memory\in_fc_tmp") with (InMemory "in_fc_tmp").
  cbn iota.
  rewrite !lookup_insert_eq. cbn [mbind option_bind as_table].
  rewrite Hh1, Hh2. cbn [andb arcpy.retable]. world_simpl.
  rewrite insert_insert_eq.
  (* MakeFeatureLayer on the scratch copy *)
  unfold bind at 1.
  unfold arcpy.MakeFeatureLayer_management at 1, resolve. world_simpl.
  rewrite lookup_insert_ne, lookup_insert_ne, lookup_empty by discriminate.
  rewrite !locate_in_unset.
  change (locate "in_memory\in_fc_tmp") with (InMemory "in_fc_tmp").
  cbn iota. rewrite lookup_insert_eq. world_simpl.
  (* AddMessage *)
  unfold bind at 1. unfold arcpy.AddMessage at 1, log. world_simpl.
  (* CopyFeatures *)
  unfold bind at 1.
  unfold arcpy.CopyFeatures_management at 1, resolve. world_simpl.
  rewrite lookup_insert_eq, !locate_in_unset, Do.
  change (locate "in_memory\in_fc_tmp") with (InMemory "in_fc_tmp").
  cbn iota. rewrite lookup_insert_eq. world_simpl.
  (* removeFields *)
  unfold bind at 1. unfold removeFields at 1.
  unfold bind at 1. unfold arcpy.AddMessage at 1, log. world_simpl.
  unfold bind at 1.
  unfold arcpy.ListFields at 1, arcpy.table_at, resolve. world_simpl.
  rewrite !(path_lookup_scratch out_fc), lookup_empty, locate_in_unset, Do
    by (auto; simpl; tauto).
  cbn iota. rewrite lookup_insert_eq. cbn [mbind option_bind as_table].
  unfold arcpy.DeleteField_management at 1, resolve. world_simpl.
  rewrite !(path_lookup_scratch out_fc), lookup_empty, locate_in_unset, Do
    by (auto; simpl; tauto).
  cbn iota. rewrite lookup_insert_eq. cbn [as_table].
  rewrite removeFields_loop_found. cbn [arcpy.retable]. world_simpl.
  rewrite insert_insert_eq.
  f_equal. unfold final_table, joined, scratch_layer_map, join_events,
    csv_path, dbf_path, out_dir, joined.
  f_equal. rewrite <- !app_assoc. reflexivity.
Qed.

(** The clean-up: lines 207-211. *)
Lemma csv_path_not_dbf_path : csv_path out_fc <> dbf_path out_fc.
Proof.
  unfold csv_path, dbf_path. intros Heq.
  apply append_inj_r in Heq. discriminate Heq.
Qed.

Lemma cleanup_block_run w :
  layers w = scratch_layer_map in_fc out_fc ->
  inmem_names_ok w ->
  on_disk (csv_path out_fc) -> on_disk (dbf_path out_fc) ->
  is_Some (disk w !! dbf_path out_fc) ->
  is_Some (disk w !! csv_path out_fc) ->
  (clear_inmemory ;;;
   arcpy.Delete_management (Path.dirname out_fc ++ "\predicted_cond.dbf") ;;;
   arcpy.Delete_management (Path.dirname out_fc ++ "\predicted_cond.csv") ;;;
   arcpy.AddMessage "Conductivity prediction process complete!") w
  = (Ok tt, after_cleanup out_fc w).
Proof.
  intros Hl Hn Dc Dd [ddbf Hdbf] [dcsv Hcsv].
  pose proof csv_path_not_dbf_path as Hne.
  unfold on_disk, csv_path, dbf_path, out_dir in *.
  assert (Hlook : forall s, Path.has_sep s = true -> layers w !! s = None).
  { intros s Hs. rewrite Hl. unfold scratch_layer_map.
    rewrite !(path_lookup_scratch s) by (auto; simpl; tauto).
    apply lookup_empty. }
  unfold bind at 1. rewrite clear_inmemory_run.
  2:{ intros n Hsome. destruct (Hn n Hsome) as [Hsep Hnot].
      split; [exact Hsep|]. rewrite Hl. unfold scratch_layer_map.
      rewrite !lookup_insert_ne, lookup_empty; [reflexivity| | |];
        intros <-; apply Hnot; simpl; tauto. }
  unfold bind at 1. unfold arcpy.Delete_management at 1. world_simpl.
  rewrite Hlook, locate_in_path, Dd by apply has_sep_app_sep.
  rewrite Hdbf. world_simpl.
  unfold bind at 1. unfold arcpy.Delete_management at 1. world_simpl.
  rewrite Hlook, locate_in_path, Dc by apply has_sep_app_sep.
  rewrite lookup_delete_ne, Hcsv by congruence. world_simpl.
  unfold arcpy.AddMessage, log. world_simpl.
  unfold after_cleanup, cleanup_events, csv_path, dbf_path, out_dir,
    complete_message.
  f_equal. f_equal; rewrite <- ?app_assoc; reflexivity.
Qed.

(** The world once both files are copied into the project tree:
    lines 194-200. *)
Definition after_copies (w : World) (real_id : string)
    (d_in d_out : Dataset) : World :=
  {| disk := <[abs_out_path E out_fc rs_dir real_id := d_out]>
               (<[abs_fc_path E in_fc rs_dir real_id := d_in]> (disk w));
     inmem := inmem w;
     layers := layers w;
     workspace := "";
     ticks := ticks w;
     uuids := uuids w;
     trace :=
       trace w
       ++ [Message "Exporting to Riverscapes project...";
           CopiedFile in_fc (abs_fc_path E in_fc rs_dir real_id);
           CopiedFile out_fc (abs_out_path E out_fc rs_dir real_id)] |}.

Lemma export_block_run (x : Doc.Lineage) (shp : option string) w
    real_id d_in d_out :
  workspace w = "" ->
  on_disk in_fc -> on_disk out_fc -> on_disk (rs_xml rs_dir) ->
  on_disk (abs_fc_path E in_fc rs_dir real_id) ->
  on_disk (abs_out_path E out_fc rs_dir real_id) ->
  Doc.px_path x = rs_xml rs_dir ->
  Doc.realIDdict x !! rs_real_name E = Some real_id ->
  disk w !! in_fc = Some d_in ->
  <[abs_fc_path E in_fc rs_dir real_id := d_in]> (disk w) !! out_fc
  = Some d_out ->
  (arcpy.AddMessage "Exporting to Riverscapes project..." ;;;
   projectXML <- read_local "projectXML" (Some x) ;;
   real_id <- dict_getitem (Doc.realIDdict projectXML) (rs_real_name E) ;;
   let abs_fc_path :=
     Path.join (getRSDirAbs E rs_dir 1 0 real_id) (Path.basename in_fc) in
   let abs_out_path :=
     Path.join (getRSDirAbs E rs_dir 1 2 real_id) (Path.basename out_fc) in
   rs.copyRSFiles in_fc abs_fc_path ;;;
   rs.copyRSFiles out_fc abs_out_path ;;;
   let rel_dir := getRSDirRel E 1 0 real_id in
   in_shp_name <- read_local "in_shp_name" shp ;;
   let rel_fc_path := Path.join rel_dir in_shp_name in
   let rel_out_path :=
     Path.join (getRSDirRel E 1 2 real_id) (Path.basename out_fc) in
   metadata E projectXML rel_fc_path rel_out_path real_id) w
  = match shp with
    | Some shp_name =>
        (Ok tt,
         after_export E in_fc out_fc rs_dir w x shp_name real_id d_in d_out)
    | None =>
        (Raise (UnboundLocalError "in_shp_name"),
         after_copies w real_id d_in d_out)
    end.
Proof.
  intros Hw Di Do Dx Da1 Da2 Hpx Hreal Hdin Hdout.
  unfold on_disk, abs_fc_path, abs_out_path in *.
  unfold bind at 1. unfold arcpy.AddMessage at 1, log. world_simpl.
  unfold bind at 1. unfold read_local at 1, ret.
  unfold bind at 1. unfold dict_getitem at 1. rewrite Hreal. unfold ret.
  cbv zeta.
  unfold bind at 1. unfold rs.copyRSFiles at 1. world_simpl.
  rewrite ?Hw, !locate_in_unset, Di, Da1. world_simpl. rewrite Hdin.
  world_simpl.
  unfold bind at 1. unfold rs.copyRSFiles at 1. world_simpl.
  rewrite ?Hw, !locate_in_unset, Do, Da2. world_simpl. rewrite Hdout.
  world_simpl.
  destruct shp as [shp_name|].
  - unfold bind at 1. unfold read_local at 1, ret.
    unfold metadata.
    unfold bind at 1. unfold meta_rs.finalize at 1, time.now, bind, ret.
    world_simpl.
    unfold meta_rs.getUUID, meta_rs.write. world_simpl.
    cbn [Doc.px_path meta_rs.addOutput meta_rs.addMeta meta_rs.add_tag
         meta_rs.addRealizationInputRef meta_rs.addRealizationInputData
         meta_rs.getOperator].
    rewrite Hpx, ?Hw, locate_in_unset, Dx.
    unfold after_export, export_events.
    unfold abs_fc_path, abs_out_path, lineage_doc. cbv zeta.
    cbn [Doc.px_path meta_rs.addOutput meta_rs.addMeta meta_rs.add_tag
         meta_rs.addRealizationInputRef meta_rs.addRealizationInputData
         meta_rs.getOperator].
    world_simpl. rewrite ?Hw, ?Hpx.
    f_equal. f_equal; rewrite <- ?app_assoc; reflexivity.
  - unfold bind at 1. unfold read_local at 1, raise.
    unfold after_copies, abs_fc_path, abs_out_path.
    f_equal. f_equal; rewrite <- ?app_assoc; reflexivity.
Qed.

(** What a run needs to get through the join and the field clean-up: the
    workspace of the input is known, the join-key check passes, the
    external process has left a table "predicted_cond.csv" in the output
    directory, the input is still a feature class once that table is
    converted, both have a "LineOID" field, and the join brings at least
    one field for [removeFields] to drop. *)
Record joinable (w : World) (dcsv : Dataset) (pt t_in : Table) : Prop := {
  joinable_workspace :
    is_Some (workspaceType E (Path.dirname in_fc));
  joinable_check : fst (checkLineOID in_fc w) = Ok (PyBool true);
  joinable_csv :
    disk_after_R E in_params out_fc w !! csv_path out_fc = Some dcsv;
  joinable_table : as_table dcsv = Some pt;
  joinable_in :
    <[dbf_path out_fc := DbfTable pt]> (disk_after_R E in_params out_fc w)
      !! in_fc = Some (FeatureClass t_in);
  joinable_in_key : arcpy.has_field t_in "LineOID" = true;
  joinable_pt_key : arcpy.has_field pt "LineOID" = true;
  joinable_drop : removeFields_loop (t_fields (joined t_in pt)) [] <> []
}.


(** In project mode the same steps lead to the project export, in the
    world [after_meta]; [d_in] and [d_out] are what the input and the
    output path hold when they are copied. *)
Lemma main_run_project w dcsv pt t_in ty real_id :
  sane E in_fc out_fc rs_bool rs_dir w ->
  joinable w dcsv pt t_in ->
  workspaceType E (Path.dirname in_fc) = Some ty ->
  rs_bool = "true" ->
  project_realizations E !! rs_real_name E = Some real_id ->
  exists d_in d_out,
    disk (after_meta E in_fc in_params out_fc rs_bool w t_in pt) !! in_fc
    = Some d_in
    /\ <[abs_fc_path E in_fc rs_dir real_id := d_in]>
         (disk (after_meta E in_fc in_params out_fc rs_bool w t_in pt))
         !! out_fc = Some d_out
    /\ main E in_fc in_params out_fc rs_bool rs_dir w
       = if String.eqb ty "LocalDatabase" then
           (Ok tt,
            after_cleanup out_fc
              (after_export E in_fc out_fc rs_dir
                 (after_meta E in_fc in_params out_fc rs_bool w t_in pt)
                 (project_object E rs_dir w) (Path.basename in_fc ++ ".shp")
                 real_id d_in d_out))
         else
           (Raise (UnboundLocalError "in_shp_name"),
            after_copies
              (after_meta E in_fc in_params out_fc rs_bool w t_in pt)
              real_id d_in d_out).
Proof.
  intros S J Hty Hrs' Hreal.
  assert (Hrs : String.eqb rs_bool "true" = true) by now apply String.eqb_eq.
  destruct J as [_ Hc Hcsv Hpt Hin Hh1 Hh2 _].
  pose proof (sane_layers _ _ _ _ _ _ S) as Hl.
  pose proof (sane_workspace _ _ _ _ _ _ S) as Hw.
  pose proof (sane_xml _ _ _ _ _ _ S) as Dx.
  destruct (sane_project _ _ _ _ _ _ S Hrs' real_id Hreal) as (Da1 & Da2 & Dr).
  unfold on_disk, xml_path, xml_name, out_dir in Dx.
  apply checkLineOID_at_check in Hc.
  (* what the two paths hold at the export *)
  assert (Hsome_in :
    is_Some (disk (after_meta E in_fc in_params out_fc rs_bool w t_in pt)
               !! in_fc)).
  { unfold after_meta, after_join, after_start. cbn [disk].
    apply lookup_insert_is_Some'. right.
    apply lookup_insert_is_Some'. right.
    rewrite Hin. eauto. }
  destruct Hsome_in as [d_in Hdin].
  assert (Hsome_out :
    is_Some (<[abs_fc_path E in_fc rs_dir real_id := d_in]>
               (disk (after_meta E in_fc in_params out_fc rs_bool w t_in pt))
               !! out_fc)).
  { unfold after_meta, after_join. cbn [disk].
    apply lookup_insert_is_Some'. right.
    apply lookup_insert_is_Some'. right.
    apply lookup_insert_is_Some'. now left. }
  destruct Hsome_out as [d_out Hdout].
  exists d_in, d_out. split; [exact Hdin|]. split; [exact Hdout|].
  unfold main.
  erewrite bind_ok_eq
    by (unfold arcpy.Describe_workspaceType; rewrite Hty; reflexivity).
  erewrite bind_ok_eq by reflexivity.
  erewrite bind_ok_eq by reflexivity.
  erewrite bind_ok_eq by exact Hc.
  change (py_eq_True (PyBool true)) with true. cbv iota.
  do 2 (erewrite bind_ok_eq by reflexivity).
  rewrite Hrs.
  do 3 (erewrite bind_ok_eq by reflexivity).
  unfold at_check. world_simpl. cbn [subprocess.args app].
  rewrite (join_block_run _ _ dcsv pt t_in);
    try solve [apply S | assumption].
  unfold after_join. world_simpl.
  erewrite bind_ok_eq by reflexivity.
  unfold bind at 1. unfold meta_sfr.writeMetadataFile at 1. world_simpl.
  rewrite locate_in_unset, Dx. world_simpl.
  match goal with
  | |- bind _ _ ?W = _ =>
      replace W with (after_meta E in_fc in_params out_fc rs_bool w t_in pt)
  end.
  2:{ unfold after_meta, after_join, after_start, run_doc, run_params,
        xml_path, xml_name, disk_after_R, r_command, start_events,
        join_ticks, out_dir.
      rewrite Hrs. world_simpl. rewrite ?Hl, ?Hw.
      f_equal. f_equal; rewrite <- ?app_assoc; reflexivity. }
  unfold bind at 1.
  rewrite (export_block_run (project_object E rs_dir w) _ _ real_id d_in d_out);
    try solve [apply S | reflexivity | assumption].
  destruct (String.eqb ty "LocalDatabase"); [|reflexivity].
  rewrite cleanup_block_run; try solve [apply S | reflexivity].
  - intros n Hn. eapply (inmem_names_ok_after_join w); [apply S | exact Hn].
  - unfold after_export, after_meta, after_join. cbn [disk].
    do 5 (apply lookup_insert_is_Some'; right).
    apply lookup_insert_is_Some'. now left.
  - unfold after_export, after_meta, after_join, after_start. cbn [disk].
    do 6 (apply lookup_insert_is_Some'; right).
    exists dcsv. exact Hcsv.
Qed.

(** In project mode with a realization name that the project does not
    know, the same steps lead to the [KeyError] of line 195. *)
Lemma main_run_unknown_realization w dcsv pt t_in :
  sane E in_fc out_fc rs_bool rs_dir w ->
  joinable w dcsv pt t_in ->
  rs_bool = "true" ->
  project_realizations E !! rs_real_name E = None ->
  main E in_fc in_params out_fc rs_bool rs_dir w
  = (Raise (KeyError (rs_real_name E)),
     emit (Message "Exporting to Riverscapes project...")
          (after_meta E in_fc in_params out_fc rs_bool w t_in pt)).
Proof.
  intros S J Hrs' Hreal.
  assert (Hrs : String.eqb rs_bool "true" = true) by now apply String.eqb_eq.
  destruct J as [[ty Hty] Hc Hcsv Hpt Hin Hh1 Hh2 _].
  pose proof (sane_layers _ _ _ _ _ _ S) as Hl.
  pose proof (sane_workspace _ _ _ _ _ _ S) as Hw.
  pose proof (sane_xml _ _ _ _ _ _ S) as Dx.
  unfold on_disk, xml_path, xml_name, out_dir in Dx.
  apply checkLineOID_at_check in Hc.
  unfold main.
  erewrite bind_ok_eq
    by (unfold arcpy.Describe_workspaceType; rewrite Hty; reflexivity).
  erewrite bind_ok_eq by reflexivity.
  erewrite bind_ok_eq by reflexivity.
  erewrite bind_ok_eq by exact Hc.
  change (py_eq_True (PyBool true)) with true. cbv iota.
  do 2 (erewrite bind_ok_eq by reflexivity).
  rewrite Hrs.
  do 3 (erewrite bind_ok_eq by reflexivity).
  unfold at_check. world_simpl. cbn [subprocess.args app].
  rewrite (join_block_run _ _ dcsv pt t_in);
    try solve [apply S | assumption].
  unfold after_join. world_simpl.
  erewrite bind_ok_eq by reflexivity.
  unfold bind at 1. unfold meta_sfr.writeMetadataFile at 1. world_simpl.
  rewrite locate_in_unset, Dx. world_simpl.
  match goal with
  | |- bind _ _ ?W = _ =>
      replace W with (after_meta E in_fc in_params out_fc rs_bool w t_in pt)
  end.
  2:{ unfold after_meta, after_join, after_start, run_doc, run_params,
        xml_path, xml_name, disk_after_R, r_command, start_events,
        join_ticks, out_dir.
      rewrite Hrs. world_simpl. rewrite ?Hl, ?Hw.
      f_equal. f_equal; rewrite <- ?app_assoc; reflexivity. }
  unfold bind at 1. unfold bind at 1.
  unfold arcpy.AddMessage at 1, log.
  unfold bind at 1. unfold read_local at 1, ret.
  unfold bind at 1. unfold dict_getitem at 1. cbn [Doc.realIDdict].
  rewrite Hreal. reflexivity.
Qed.

(** When the prediction table has no "LineOID" field, the run ends in the
    error of [JoinField], in the world [after_copy]: the scratch copy and
    the converted table are left where they are and nothing is written to
    the output path. *)
Lemma main_run_join_fails w ty dcsv pt t_in :
  sane E in_fc out_fc rs_bool rs_dir w ->
  workspaceType E (Path.dirname in_fc) = Some ty ->
  fst (checkLineOID in_fc w) = Ok (PyBool true) ->
  disk_after_R E in_params out_fc w !! csv_path out_fc = Some dcsv ->
  as_table dcsv = Some pt ->
  <[dbf_path out_fc := DbfTable pt]> (disk_after_R E in_params out_fc w)
    !! in_fc = Some (FeatureClass t_in) ->
  arcpy.has_field pt "LineOID" = false ->
  main E in_fc in_params out_fc rs_bool rs_dir w
  = (Raise (ExecuteError "JoinField" "LineOID"),
     after_copy (after_start E in_params out_fc rs_bool w) t_in pt).
Proof.
  intros S Hty Hc Hcsv Hpt Hin Hh2.
  pose proof (sane_layers _ _ _ _ _ _ S) as Hl.
  pose proof (sane_workspace _ _ _ _ _ _ S) as Hw.
  apply checkLineOID_at_check in Hc.
  unfold main.
  erewrite bind_ok_eq
    by (unfold arcpy.Describe_workspaceType; rewrite Hty; reflexivity).
  erewrite bind_ok_eq by reflexivity.
  erewrite bind_ok_eq by reflexivity.
  erewrite bind_ok_eq by exact Hc.
  change (py_eq_True (PyBool true)) with true. cbv iota.
  do 2 (erewrite bind_ok_eq by reflexivity).
  assert (Hstart : forall W,
    W = after_start E in_params out_fc rs_bool w ->
    layers W = ∅ /\ workspace W = ""
    /\ disk W !! csv_path out_fc = Some dcsv
    /\ <[dbf_path out_fc := DbfTable pt]> (disk W) !! in_fc
       = Some (FeatureClass t_in)).
  { intros W ->. unfold after_start. cbn [layers workspace disk]. auto. }
  destruct (String.eqb rs_bool "true") eqn:Hrs;
    do 3 (erewrite bind_ok_eq by reflexivity);
    unfold at_check; world_simpl; cbn [subprocess.args app];
    match goal with
    | |- bind _ _ ?W = _ =>
        replace W with (after_start E in_params out_fc rs_bool w)
    end;
    try (unfold after_start, disk_after_R, r_command, start_events,
           join_ticks, out_dir;
         rewrite Hrs; f_equal; rewrite <- ?app_assoc; reflexivity);
    destruct (Hstart _ eq_refl) as (Hl' & Hw' & Hcsv' & Hin');
    rewrite (copy_block_run _ _ dcsv pt t_in);
      try solve [apply S | assumption];
    unfold after_copy at 1; unfold bind at 1;
    unfold arcpy.JoinField_management at 1, arcpy.table_at, resolve;
    world_simpl;
    rewrite lookup_insert_ne, lookup_insert_ne, lookup_empty by discriminate;
    rewrite lookup_insert_ne, lookup_insert_eq by discriminate;
    rewrite !locate_in_unset, (sane_dbf _ _ _ _ _ _ S);
    change (locate "in_memory\in_fc_tmp") with (InMemory "in_fc_tmp");
    cbn iota;
    rewrite !lookup_insert_eq; cbn [mbind option_bind as_table];
    rewrite Hh2, andb_false_r; reflexivity.
Qed.

End Forward.



(** What is left behind once the metadata XML is written. *)
Lemma after_meta_leftovers
    E in_fc in_params out_fc rs_bool w dcsv pt t_in :
  disk_after_R E in_params out_fc w !! csv_path out_fc = Some dcsv ->
  let W := after_meta E in_fc in_params out_fc rs_bool w t_in pt in
  inmem W !! "in_fc_tmp" = Some (FeatureClass (joined t_in pt))
  /\ is_Some (disk W !! dbf_path out_fc)
  /\ is_Some (disk W !! csv_path out_fc)
  /\ In (WroteMetadata (xml_path E out_fc w)
           (run_doc E in_fc in_params out_fc rs_bool w)) (trace W).
Proof.
  intros Hcsv W. unfold W, after_meta, after_join, after_start.
  cbn [inmem disk trace].
  split; [apply lookup_insert_eq|]. split.
  { apply lookup_insert_is_Some'. right.
    apply lookup_insert_is_Some'. right.
    apply lookup_insert_is_Some'. now left. }
  split.
  { do 3 (apply lookup_insert_is_Some'; right). eauto. }
  apply in_or_app. right. now left.
Qed.

(** X3: in project mode on an input whose workspace is not a "LocalDatabase",
    with a realization name that the project knows, the same conditions
    lead to the [UnboundLocalError] for [in_shp_name]: by then the output
    and a metadata XML with status "Success" are written and both files
    are copied, and since the clean-up is never reached the scratch copy
    stays in the in_memory workspace and the two prediction files stay in
    the output directory. *)
Theorem main_leaves_scratch_data_when_the_shapefile_name_is_unbound
    E in_fc in_params out_fc rs_bool rs_dir w dcsv pt t_in ty real_id :
  sane E in_fc out_fc rs_bool rs_dir w ->
  joinable E in_fc in_params out_fc w dcsv pt t_in ->
  workspaceType E (Path.dirname in_fc) = Some ty ->
  ty <> "LocalDatabase" ->
  rs_bool = "true" ->
  project_realizations E !! rs_real_name E = Some real_id ->
  exists d_in d_out w',
    main E in_fc in_params out_fc rs_bool rs_dir w
    = (Raise (UnboundLocalError "in_shp_name"), w')
    /\ w' = after_copies E in_fc out_fc rs_dir
              (after_meta E in_fc in_params out_fc rs_bool w t_in pt)
              real_id d_in d_out
    /\ inmem w' !! "in_fc_tmp" = Some (FeatureClass (joined t_in pt))
    /\ is_Some (disk w' !! dbf_path out_fc)
    /\ is_Some (disk w' !! csv_path out_fc)
    /\ In (WroteMetadata (xml_path E out_fc w)
             (run_doc E in_fc in_params out_fc rs_bool w)) (trace w')
    /\ Doc.run_status
         <$> Doc.currentRun (run_doc E in_fc in_params out_fc rs_bool w)
       = Some (Some "Success").
Proof.
  intros S J Hty Hne Hrs Hreal.
  destruct (main_run_project _ _ _ _ _ _ _ _ _ _ _ _ S J Hty Hrs Hreal)
    as (d_in & d_out & _ & _ & H).
  apply String.eqb_neq in Hne. rewrite Hne in H.
  destruct (after_meta_leftovers E in_fc in_params out_fc rs_bool w dcsv pt
              t_in (joinable_csv _ _ _ _ _ _ _ _ J))
    as (L1 & L2 & L3 & L4).
  exists d_in, d_out. eexists. split; [exact H|]. split; [reflexivity|].
  unfold after_copies. cbn [inmem disk trace].
  split; [exact L1|]. split.
  { do 2 (apply lookup_insert_is_Some'; right). exact L2. }
  split.
  { do 2 (apply lookup_insert_is_Some'; right). exact L3. }
  split; [|reflexivity].
  apply in_or_app. left. exact L4.
Qed.

(** X4: in project mode with a realization name that the project does not
    know, the same conditions lead to the [KeyError] of the look-up in
    line 195: the output and the metadata XML are written, nothing is
    copied into the project tree, and the scratch data are left as they
    are. *)
Theorem main_raises_KeyError_on_unknown_realization
    E in_fc in_params out_fc rs_bool rs_dir w dcsv pt t_in :
  sane E in_fc out_fc rs_bool rs_dir w ->
  joinable E in_fc in_params out_fc w dcsv pt t_in ->
  rs_bool = "true" ->
  project_realizations E !! rs_real_name E = None ->
  exists w',
    main E in_fc in_params out_fc rs_bool rs_dir w
    = (Raise (KeyError (rs_real_name E)), w')
    /\ w' = emit (Message "Exporting to Riverscapes project...")
              (after_meta E in_fc in_params out_fc rs_bool w t_in pt)
    /\ inmem w' !! "in_fc_tmp" = Some (FeatureClass (joined t_in pt))
    /\ is_Some (disk w' !! dbf_path out_fc)
    /\ is_Some (disk w' !! csv_path out_fc)
    /\ In (WroteMetadata (xml_path E out_fc w)
             (run_doc E in_fc in_params out_fc rs_bool w)) (trace w').
Proof.
  intros S J Hrs Hreal.
  pose proof (main_run_unknown_realization _ _ _ _ _ _ _ _ _ _ S J Hrs Hreal)
    as H.
  destruct (after_meta_leftovers E in_fc in_params out_fc rs_bool w dcsv pt
              t_in (joinable_csv _ _ _ _ _ _ _ _ J))
    as (L1 & L2 & L3 & L4).
  eexists. split; [exact H|]. split; [reflexivity|].
  unfold emit. cbn [inmem disk trace].
  split; [exact L1|]. split; [exact L2|]. split; [exact L3|].
  apply in_or_app. left. exact L4.
Qed.

(** X5: in a fresh session, on an input whose workspace can be described
    and that passes the join-key check, when the table that the external
    process leaves has no "LineOID" field and the input is still a
    feature class once that table is converted, the run ends in the error
    of [JoinField]: the scratch copy of the input and the converted table
    are left behind, and nothing has been written to the output path or
    to the metadata XML. *)
Theorem main_fails_at_the_join_without_key_in_predictions
    E in_fc in_params out_fc rs_bool rs_dir w ty dcsv pt t_in :
  sane E in_fc out_fc rs_bool rs_dir w ->
  workspaceType E (Path.dirname in_fc) = Some ty ->
  fst (checkLineOID in_fc w) = Ok (PyBool true) ->
  disk_after_R E in_params out_fc w !! csv_path out_fc = Some dcsv ->
  as_table dcsv = Some pt ->
  <[dbf_path out_fc := DbfTable pt]> (disk_after_R E in_params out_fc w)
    !! in_fc = Some (FeatureClass t_in) ->
  arcpy.has_field pt "LineOID" = false ->
  exists w',
    main E in_fc in_params out_fc rs_bool rs_dir w
    = (Raise (ExecuteError "JoinField" "LineOID"), w')
    /\ w' = after_copy in_fc out_fc
              (after_start E in_params out_fc rs_bool w) t_in pt
    /\ inmem w' !! "in_fc_tmp" = Some (FeatureClass t_in)
    /\ disk w' = <[dbf_path out_fc := DbfTable pt]>
                   (disk_after_R E in_params out_fc w)
    /\ metadata_writes (trace w') = metadata_writes (trace w).
Proof.
  intros S Hty Hc Hcsv Hpt Hin Hh2.
  eexists. split.
  { exact (main_run_join_fails _ _ _ _ _ _ _ _ _ _ _ S Hty Hc Hcsv Hpt Hin
             Hh2). }
  split; [reflexivity|].
  unfold after_copy, after_start. cbn [inmem disk trace].
  split; [apply lookup_insert_eq|]. split; [reflexivity|].
  rewrite <- app_assoc, !metadata_writes_app. cbn.
  now rewrite app_nil_r.
Qed.

(** ** [clear_inmemory] on its own *)

Lemma cleared_lookup_eq (m : gmap string Dataset) n :
  cleared m !! n
  = d ← m !! n;
    if (is_feature_class d || is_table d)%bool then None else Some d.
Proof.
  unfold cleared. rewrite !delete_all_lookup.
  destruct (m !! n) as [d|] eqn:Hd; cbn [mbind option_bind].
  - destruct (bool_decide (n ∈ inmem_names is_table m)) eqn:Et.
    + apply bool_decide_eq_true_1, elem_of_inmem_names in Et
        as (d' & Hd' & Hk).
      rewrite Hd in Hd'. injection Hd' as <-. rewrite Hk, orb_true_r.
      reflexivity.
    + apply bool_decide_eq_false_1 in Et. rewrite elem_of_inmem_names in Et.
      assert (Ht : is_table d = false).
      { destruct (is_table d) eqn:E; [|reflexivity]. exfalso. eauto. }
      rewrite Ht, orb_false_r.
      destruct (bool_decide (n ∈ inmem_names is_feature_class m)) eqn:Ef.
      * apply bool_decide_eq_true_1, elem_of_inmem_names in Ef
          as (d' & Hd' & Hk).
        rewrite Hd in Hd'. injection Hd' as <-. now rewrite Hk.
      * apply bool_decide_eq_false_1 in Ef.
        rewrite elem_of_inmem_names in Ef.
        destruct (is_feature_class d) eqn:E; [|reflexivity].
        exfalso. eauto.
  - repeat match goal with
           | |- context [bool_decide ?Q] => destruct (bool_decide Q)
           end; reflexivity.
Qed.

(** X12: in a session where no in_memory dataset is addressed by a path or goes
    by the name of a layer, [clear_inmemory] returns; it deletes the
    feature classes and the tables of the in_memory workspace and leaves
    whatever else is there, it leaves the disk and the layers alone, and
    it leaves [arcpy.env.workspace] set to "IN_MEMORY". *)
Theorem clear_inmemory_clears_feature_classes_and_tables w :
  (forall n, is_Some (inmem w !! n) ->
     Path.has_sep n = false /\ layers w !! n = None) ->
  exists w',
    clear_inmemory w = (Ok tt, w')
    /\ (forall n,
          inmem w' !! n
          = d ← inmem w !! n;
            if (is_feature_class d || is_table d)%bool then None
            else Some d)
    /\ disk w' = disk w
    /\ layers w' = layers w
    /\ workspace w' = "IN_MEMORY".
Proof.
  intros Hok. eexists. split; [apply (clear_inmemory_run w Hok)|].
  cbn [inmem disk layers workspace].
  split; [apply cleared_lookup_eq | auto].
Qed.

(** ** [removeFields] on its own *)

Lemma removeFields_run p w d t :
  get (resolve w p) w = Some d -> as_table d = Some t ->
  removeFields p w
  = (Ok tt,
     emit (Tool "DeleteField" (p :: removeFields_loop (t_fields t) []))
       (put (resolve w p)
            (arcpy.retable d
               (arcpy.drop_fields (removeFields_loop (t_fields t) []) t))
            (emit (Message "Cleaning up final output...") w))).
Proof.
  intros Hd Ht. unfold removeFields.
  unfold bind at 1. unfold arcpy.AddMessage, log.
  unfold bind at 1. unfold arcpy.ListFields, arcpy.table_at.
  change (resolve (emit (Message "Cleaning up final output...") w) p)
    with (resolve w p).
  change (get (resolve w p) (emit (Message "Cleaning up final output...") w))
    with (get (resolve w p) w).
  rewrite Hd. cbn [mbind option_bind]. rewrite Ht.
  unfold arcpy.DeleteField_management.
  change (resolve (emit (Message "Cleaning up final output...") w) p)
    with (resolve w p).
  change (get (resolve w p) (emit (Message "Cleaning up final output...") w))
    with (get (resolve w p) w).
  rewrite Hd, Ht, removeFields_loop_found. reflexivity.
Qed.

(** X13: on a dataset that is there, [removeFields] deletes fields and nothing
    else: every field left is of type Geometry or OID or is named LineOID,
    error_code or prdCond; no record is dropped; and each record keeps its
    LineOID, error_code and prdCond values. *)
Theorem removeFields_keeps_records_and_key_values p w d t :
  get (resolve w p) w = Some d -> as_table d = Some t ->
  (exists f, In f (t_fields t) /\ kept f = false) ->
  exists w' t',
    removeFields p w = (Ok tt, w')
    /\ get (resolve w p) w' = Some (arcpy.retable d t')
    /\ (forall f, In f (t_fields t') -> In f (t_fields t) /\ kept f = true)
    /\ length (t_rows t') = length (t_rows t)
    /\ (forall i r, t_rows t !! i = Some r ->
          exists r', t_rows t' !! i = Some r'
            /\ forall name, In name ["LineOID"; "error_code"; "prdCond"] ->
                 row_get r' name = row_get r name).
Proof.
  intros Hd Ht _.
  exists (emit (Tool "DeleteField" (p :: removeFields_loop (t_fields t) []))
            (put (resolve w p)
               (arcpy.retable d
                  (arcpy.drop_fields (removeFields_loop (t_fields t) []) t))
               (emit (Message "Cleaning up final output...") w))),
         (arcpy.drop_fields (removeFields_loop (t_fields t) []) t).
  split; [now apply removeFields_run|]. split.
  { destruct (resolve w p); simpl; apply lookup_insert_eq. }
  split.
  { intros f Hf. unfold arcpy.drop_fields in Hf. cbn [t_fields] in Hf.
    apply filter_In in Hf as [Hin Hnt]. split; [exact Hin|].
    destruct (kept f) eqn:Hk; [reflexivity|]. exfalso.
    apply negb_true_iff in Hnt.
    assert (Htk : arcpy.taken (removeFields_loop (t_fields t) []) (f_name f)
                  = true).
    { rewrite removeFields_loop_spec. cbn [app].
      apply taken_In, in_map_iff. exists f. split; [reflexivity|].
      apply filter_In. split; [exact Hin|]. now rewrite Hk. }
    congruence. }
  split.
  { unfold arcpy.drop_fields. cbn [t_rows]. apply length_map. }
  intros i r Hr. unfold arcpy.drop_fields. cbn [t_rows].
  rewrite list_lookup_fmap, Hr. eexists. split; [reflexivity|].
  intros name Hname. apply row_get_filter_not_taken.
  now apply dropped_spares_kept_names.
Qed.

(** ** [metadata] on its own: lines 92-114 *)

(** X14: [metadata] always returns.  It reads the clock once and draws two
    identifiers, the first for the input and the second for the output;
    it keeps what the project object held and appends seven entries in a
    fixed order; and it writes the document once, to the path of the
    project object. *)
Theorem metadata_appends_and_writes_once
    E (x : Doc.Lineage) in_path out_path real_id w :
  exists doc,
    metadata E x in_path out_path real_id w
    = (Ok tt,
       emit (WroteLineage (Doc.px_path x) doc)
         (put (locate_in (workspace w) (Doc.px_path x)) (LineageXML doc)
            (mkWorld (disk w) (inmem w) (layers w) (workspace w)
                     (S (ticks w)) (S (S (uuids w))) (trace w))))
    /\ Doc.px_tool doc = Doc.px_tool x
    /\ Doc.px_path doc = Doc.px_path x
    /\ Doc.realIDdict doc = Doc.realIDdict x
    /\ Doc.px_start doc = Doc.px_start x
    /\ Doc.px_tags doc
       = (Doc.px_tags x
          ++ [("Operator", []);
              ("Meta", ["Model"; "rf17bCnd9"; "Project"]);
              ("RealizationInputData",
               ["Project"; "Vector"; "EC"; real_id;
                "Segmented Stream Network"; in_path; uuid E (uuids w)]);
              ("RealizationInputRef",
               ["Project"; "DataTable"; "EC"; real_id; "PARAM_TABLE"]);
              ("Meta",
               ["Predict Start Time"; meta_rs.show_time (Doc.px_start x);
                "Project"; "EC"; real_id]);
              ("Meta",
               ["Predict Stop Time"; meta_rs.show_time (clock E (ticks w));
                "Project"; "EC"; real_id]);
              ("Output",
               ["Vector"; "Predicted Electrical Conductivity"; out_path;
                "Project"; "EC"; real_id; "PRED";
                uuid E (S (uuids w))])])%list.
Proof.
  unfold metadata, meta_rs.finalize, time.now, meta_rs.getUUID,
    meta_rs.write, bind, ret.
  cbn [fst snd disk inmem layers workspace ticks uuids trace].
  eexists. split; [reflexivity|].
  cbn [Doc.px_tool Doc.px_path Doc.realIDdict Doc.px_start Doc.px_tags
       meta_rs.addOutput meta_rs.addMeta meta_rs.add_tag meta_rs.project
       meta_rs.addRealizationInputRef meta_rs.addRealizationInputData
       meta_rs.getOperator MODEL_RF].
  rewrite <- !app_assoc. repeat split; reflexivity.
Qed.

(** ** The scenario, further *)

Module Scenario2.

(** A prediction table that lacks the join key. *)
Definition predictions_without_key : Table :=
  {| t_fields := [mkField "OID" "OID"; mkField "prdCond" "Double"];
     t_rows := [ {[ "prdCond" := VDouble 101 ]} ] |}.

(** The environment of the scenario with an external process that writes
    this table. *)
Definition env_without_key : Env :=
  {| script_file := script_file Scenario.env;
     clock := clock Scenario.env;
     uuid := uuid Scenario.env;
     workspaceType := workspaceType Scenario.env;
     run_process := fun cmd d =>
       (<["C:\data\predicted_cond.csv" := CsvFile predictions_without_key]> d,
        0);
     rs_real_name := rs_real_name Scenario.env;
     project_realizations := project_realizations Scenario.env;
     getRSDirAbs := getRSDirAbs Scenario.env;
     getRSDirRel := getRSDirRel Scenario.env |}.

(** The environment of the scenario with a realization name that the
    project does not know. *)
Definition env_other_realization : Env :=
  with_project "run2" (project_realizations Scenario.env)
    (getRSDirAbs Scenario.env) (getRSDirRel Scenario.env) Scenario.env.


(** An in_memory workspace with a feature class, a table and a file that
    is neither. *)
Definition world_with_scratch : World :=
  with_inmem (<["a" := FeatureClass Scenario.streams]>
                (<["b" := DbfTable Scenario.predictions]>
                   (<["c" := OtherFile "raster"]> ∅)))
             (Scenario.world0 "C:\data\streams.shp" Scenario.streams).

End Scenario2.

Lemma scenario_sane_shp_project fc :
  sane Scenario.env "C:\data\streams.shp" "C:\data\out.shp" "true" "C:\proj"
       (Scenario.world0 "C:\data\streams.shp" fc).
Proof. sane_by_computation. Qed.

Lemma scenario_sane_without_key fc :
  sane Scenario2.env_without_key "C:\data\streams.shp" "C:\data\out.shp"
       "false" "C:\proj" (Scenario.world0 "C:\data\streams.shp" fc).
Proof. sane_by_computation. Qed.

Lemma scenario_sane_other_realization fc :
  sane Scenario2.env_other_realization "C:\gdb\streams" "C:\data\out.shp"
       "true" "C:\proj" (Scenario.world0 "C:\gdb\streams" fc).
Proof.
  constructor; try reflexivity.
  - apply inmem_names_ok_empty. reflexivity.
  - intros _ real_id Hreal. vm_compute in Hreal. discriminate Hreal.
Qed.


Lemma scenario_joinable E in_fc :
  workspaceType E = workspaceType Scenario.env ->
  run_process E = Scenario.condRF ->
  script_file E = script_file Scenario.env ->
  In in_fc ["C:\data\streams.shp"; "C:\gdb\streams"] ->
  joinable E in_fc "C:\data\params.dbf" "C:\data\out.shp"
           (Scenario.world0 in_fc Scenario.streams)
           (CsvFile Scenario.predictions) Scenario.predictions
           Scenario.streams.
Proof.
  intros Hw Hr Hs Hin.
  destruct Hin as [<-|[<-|[]]];
    (constructor;
     [ rewrite Hw; eexists; reflexivity
     | vm_compute; reflexivity
     | unfold disk_after_R, r_command; rewrite Hr, Hs; vm_compute; reflexivity
     | reflexivity
     | unfold disk_after_R, r_command; rewrite Hr, Hs; vm_compute; reflexivity
     | reflexivity
     | reflexivity
     | vm_compute; discriminate ]).
Qed.

(** ** The theorems at the scenario *)

Lemma main_SystemExit_only_at_key_check_witness :
  let w0 := Scenario.world0 "C:\data\streams.shp" Scenario.no_key in
  snd (main Scenario.env "C:\data\streams.shp" "C:\data\params.dbf"
            "C:\data\out.shp" "false" "C:\proj" w0)
  = emit (ErrorMessage missing_key_message) (at_check w0).
Proof.
  intros w0.
  pose (run := main Scenario.env "C:\data\streams.shp" "C:\data\params.dbf"
                    "C:\data\out.shp" "false" "C:\proj" w0).
  destruct (main_SystemExit_only_at_key_check Scenario.env
              "C:\data\streams.shp" "C:\data\params.dbf" "C:\data\out.shp"
              "false" "C:\proj" w0 (snd run) 0) as (_ & _ & H).
  - assert (Hf : fst run = Raise (SystemExit 0))
      by (vm_compute; reflexivity).
    rewrite <- Hf. apply surjective_pairing.
  - exact H.
Defined.

Lemma main_NameError_only_for_in_shp_name_witness :
  workspaceType Scenario.env (Path.dirname "C:\data\streams.shp")
  <> Some "LocalDatabase".
Proof.
  pose (w0 := Scenario.world0 "C:\data\streams.shp" Scenario.streams).
  pose (run := main Scenario.env "C:\data\streams.shp" "C:\data\params.dbf"
                    "C:\data\out.shp" "true" "C:\proj" w0).
  destruct (main_NameError_only_for_in_shp_name Scenario.env
              "C:\data\streams.shp" "C:\data\params.dbf" "C:\data\out.shp"
              "true" "C:\proj" w0 (snd run)
              (UnboundLocalError "in_shp_name")) as (_ & _ & H).
  - assert (Hf : fst run = Raise (UnboundLocalError "in_shp_name"))
      by (vm_compute; reflexivity).
    rewrite <- Hf. apply surjective_pairing.
  - reflexivity.
  - exact H.
Defined.


Lemma main_ignores_project_settings_witness :
  let w0 := Scenario.world0 "C:\data\streams.shp" Scenario.streams in
  main Scenario2.env_other_realization "C:\data\streams.shp"
       "C:\data\params.dbf" "C:\data\out.shp" "false" "D:\elsewhere" w0
  = main Scenario.env "C:\data\streams.shp" "C:\data\params.dbf"
         "C:\data\out.shp" "false" "C:\proj" w0.
Proof.
  intros w0.
  apply (main_ignores_project_settings Scenario.env). discriminate.
Defined.

Lemma main_on_missing_input_witness :
  let w0 := Scenario.world0 "C:\data\streams.shp" Scenario.streams in
  main Scenario.env "C:\data\other.shp" "C:\data\params.dbf"
       "C:\data\out.shp" "false" "C:\proj" w0
  = (Raise (IOError "C:\data\other.shp"), at_check w0).
Proof.
  intros w0.
  apply (main_on_missing_input Scenario.env "C:\data\other.shp"
           "C:\data\params.dbf" "C:\data\out.shp" "false" "C:\proj" w0
           "FileSystem").
  - reflexivity.
  - vm_compute. reflexivity.
Defined.

Lemma clear_inmemory_clears_feature_classes_and_tables_witness :
  exists w',
    clear_inmemory Scenario2.world_with_scratch = (Ok tt, w')
    /\ inmem w' !! "a" = None
    /\ inmem w' !! "b" = None
    /\ inmem w' !! "c" = Some (OtherFile "raster")
    /\ workspace w' = "IN_MEMORY".
Proof.
  destruct (clear_inmemory_clears_feature_classes_and_tables
              Scenario2.world_with_scratch)
    as (w' & Hrun & Hin & _ & _ & Hws).
  - intros n [d Hd]. split; [|reflexivity].
    unfold Scenario2.world_with_scratch, with_inmem in Hd. cbn [inmem] in Hd.
    apply lookup_insert_Some in Hd as [[<- _]|[_ Hd]]; [reflexivity|].
    apply lookup_insert_Some in Hd as [[<- _]|[_ Hd]]; [reflexivity|].
    apply lookup_insert_Some in Hd as [[<- _]|[_ Hd]]; [reflexivity|].
    rewrite lookup_empty in Hd. discriminate Hd.
  - exists w'. split; [exact Hrun|].
    rewrite !Hin. repeat split; try reflexivity. exact Hws.
Defined.

Lemma removeFields_keeps_records_and_key_values_witness :
  let w0 := Scenario.world0 "C:\data\streams.shp" Scenario.streams in
  exists w' t',
    removeFields "C:\data\streams.shp" w0 = (Ok tt, w')
    /\ disk w' !! "C:\data\streams.shp" = Some (FeatureClass t')
    /\ length (t_rows t') = 3%nat.
Proof.
  intros w0.
  destruct (removeFields_keeps_records_and_key_values
              "C:\data\streams.shp" w0 (FeatureClass Scenario.streams)
              Scenario.streams)
    as (w' & t' & Hrun & Hget & _ & Hlen & _).
  - reflexivity.
  - reflexivity.
  - exists (mkField "Name" "String"). split; [simpl; tauto | reflexivity].
  - exists w', t'. split; [exact Hrun|]. split; [exact Hget | exact Hlen].
Defined.



Lemma main_leaves_scratch_data_when_the_shapefile_name_is_unbound_witness :
  exists w',
    main Scenario.env "C:\data\streams.shp" "C:\data\params.dbf"
         "C:\data\out.shp" "true" "C:\proj"
         (Scenario.world0 "C:\data\streams.shp" Scenario.streams)
    = (Raise (UnboundLocalError "in_shp_name"), w')
    /\ is_Some (inmem w' !! "in_fc_tmp")
    /\ is_Some (disk w' !! "C:\data\predicted_cond.dbf")
    /\ is_Some (disk w' !! "C:\data\predicted_cond.csv").
Proof.
  destruct (main_leaves_scratch_data_when_the_shapefile_name_is_unbound
              Scenario.env
              "C:\data\streams.shp" "C:\data\params.dbf" "C:\data\out.shp"
              "true" "C:\proj"
              (Scenario.world0 "C:\data\streams.shp" Scenario.streams)
              (CsvFile Scenario.predictions)
              Scenario.predictions Scenario.streams "FileSystem" "0001")
    as (d_in & d_out & w' & H & _ & L1 & L2 & L3 & _).
  - apply scenario_sane_shp_project.
  - apply scenario_joinable; try reflexivity. simpl; tauto.
  - reflexivity.
  - discriminate.
  - reflexivity.
  - vm_compute. reflexivity.
  - exists w'. split; [exact H|]. split; [rewrite L1; eauto|].
    split; [exact L2 | exact L3].
Defined.

Lemma main_raises_KeyError_on_unknown_realization_witness :
  exists w',
    main Scenario2.env_other_realization "C:\gdb\streams"
         "C:\data\params.dbf" "C:\data\out.shp" "true" "C:\proj"
         (Scenario.world0 "C:\gdb\streams" Scenario.streams)
    = (Raise (KeyError "run2"), w')
    /\ is_Some (inmem w' !! "in_fc_tmp").
Proof.
  destruct (main_raises_KeyError_on_unknown_realization
              Scenario2.env_other_realization
              "C:\gdb\streams" "C:\data\params.dbf" "C:\data\out.shp"
              "true" "C:\proj"
              (Scenario.world0 "C:\gdb\streams" Scenario.streams)
              (CsvFile Scenario.predictions)
              Scenario.predictions Scenario.streams)
    as (w' & H & _ & L1 & _).
  - apply scenario_sane_other_realization.
  - apply scenario_joinable; try reflexivity. simpl; tauto.
  - reflexivity.
  - vm_compute. reflexivity.
  - exists w'. split; [exact H|]. rewrite L1. eauto.
Defined.

Lemma main_fails_at_the_join_without_key_in_predictions_witness :
  exists w',
    main Scenario2.env_without_key "C:\data\streams.shp"
         "C:\data\params.dbf" "C:\data\out.shp" "false" "C:\proj"
         (Scenario.world0 "C:\data\streams.shp" Scenario.streams)
    = (Raise (ExecuteError "JoinField" "LineOID"), w')
    /\ inmem w' !! "in_fc_tmp" = Some (FeatureClass Scenario.streams)
    /\ disk w' !! "C:\data\out.shp" = None.
Proof.
  destruct (main_fails_at_the_join_without_key_in_predictions
              Scenario2.env_without_key
              "C:\data\streams.shp" "C:\data\params.dbf" "C:\data\out.shp"
              "false" "C:\proj"
              (Scenario.world0 "C:\data\streams.shp" Scenario.streams)
              "FileSystem"
              (CsvFile Scenario2.predictions_without_key)
              Scenario2.predictions_without_key Scenario.streams)
    as (w' & H & _ & L1 & L2 & _).
  - apply scenario_sane_without_key.
  - reflexivity.
  - vm_compute. reflexivity.
  - vm_compute. reflexivity.
  - reflexivity.
  - vm_compute. reflexivity.
  - reflexivity.
  - exists w'. split; [exact H|]. split; [exact L1|].
    rewrite L2. vm_compute. reflexivity.
Defined.

Lemma main_KeyError_only_for_unknown_realization_witness :
  project_realizations Scenario2.env_other_realization
    !! rs_real_name Scenario2.env_other_realization = None.
Proof.
  pose (w0 := Scenario.world0 "C:\gdb\streams" Scenario.streams).
  pose (run := main Scenario2.env_other_realization "C:\gdb\streams"
                    "C:\data\params.dbf" "C:\data\out.shp" "true" "C:\proj"
                    w0).
  destruct (main_KeyError_only_for_unknown_realization
              Scenario2.env_other_realization "C:\gdb\streams"
              "C:\data\params.dbf" "C:\data\out.shp" "true" "C:\proj" w0
              (snd run) "run2") as (_ & _ & H).
  - assert (Hf : fst run = Raise (KeyError "run2"))
      by (vm_compute; reflexivity).
    rewrite <- Hf. apply surjective_pairing.
  - exact H.
Defined.

(** ** The events of a successful run, in any session *)











































(** ** The files of a successful run, in a fresh session *)








(** ** Why the session and the paths matter *)

(** A session that is not fresh: the in_memory workspace holds a feature
    class that goes by the name of one of the script's layers.  The run
    succeeds, and [clear_inmemory] deletes the layer of that name
    instead of the feature class, which is left behind. *)
Lemma scratch_data_named_like_a_layer_is_left_behind :
  let w0 :=
    {| disk := {[ "C:\data\streams.shp" := FeatureClass Scenario.streams ]};
       inmem := {[ "join_fc_lyr" := FeatureClass Scenario.no_key ]};
       layers := ∅; workspace := ""; ticks := 0; uuids := 0; trace := [] |} in
  let run := main Scenario.env "C:\data\streams.shp" "C:\data\params.dbf"
                  "C:\data\out.shp" "false" "C:\proj" w0 in
  fst run = Ok tt
  /\ inmem (snd run) !! "join_fc_lyr" = Some (FeatureClass Scenario.no_key)
  /\ inmem (snd run) !! "in_fc_tmp" = None.
Proof.
  cbv zeta. repeat split; vm_compute; reflexivity.
Qed.

(** An output path that the run writes again later: in project mode, with
    the output at the place of the project copy of the input, the copy
    replaces the output, which ends with the fields of the input. *)
Lemma output_at_the_place_of_a_project_copy_is_overwritten :
  let w0 := Scenario.world0 "C:\gdb\streams" Scenario.streams in
  let run := main Scenario.env "C:\gdb\streams" "C:\data\params.dbf"
                  "C:\proj\abs_00010\streams" "true" "C:\proj" w0 in
  sane Scenario.env "C:\gdb\streams" "C:\proj\abs_00010\streams" "true"
       "C:\proj" w0
  /\ fst run = Ok tt
  /\ disk (snd run) !! "C:\proj\abs_00010\streams"
     = Some (FeatureClass Scenario.streams)
  /\ field_names Scenario.streams = ["FID"; "Shape"; "LineOID"; "Name"].
Proof.
  cbv zeta. split; [sane_by_computation|].
  repeat split; vm_compute; reflexivity.
Qed.

(** A session with a layer that goes by the output path and shows the
    input: [removeFields] reaches the input through that layer, so the
    input loses its extra field and the output keeps every joined field,
    although the two paths are different. *)
Lemma layer_named_like_the_output_diverts_removeFields :
  let fields_at (w : World) (p : string) :=
    t ← (d ← disk w !! p; as_table d); Some (field_names t) in
  let w0 :=
    {| disk := {[ "C:\data\streams.shp" := FeatureClass Scenario.streams ]};
       inmem := ∅;
       layers := {[ "C:\data\out.shp" := "C:\data\streams.shp" ]};
       workspace := ""; ticks := 0; uuids := 0; trace := [] |} in
  let run := main Scenario.env "C:\data\streams.shp" "C:\data\params.dbf"
                  "C:\data\out.shp" "false" "C:\proj" w0 in
  fst run = Ok tt
  /\ fields_at w0 "C:\data\streams.shp"
     = Some ["FID"; "Shape"; "LineOID"; "Name"]
  /\ fields_at (snd run) "C:\data\streams.shp"
     = Some ["FID"; "Shape"; "LineOID"]
  /\ fields_at (snd run) "C:\data\out.shp"
     = Some ["FID"; "Shape"; "LineOID"; "Name"; "LineOID_1"; "prdCond";
             "error_code"].
Proof.
  cbv zeta. repeat split; vm_compute; reflexivity.
Qed.
